(** * The GLIN Python SDK: contract wrappers and chain client

    A shallow embedding of [glin_sdk/contracts/{types,escrow,registry,
    arbitration,client}.py] and of [glin_sdk/{types,client}.py].

    Python objects live in a store indexed by references; a method takes
    the reference [self] and runs in a monad that threads the store, the
    state of the remote node, the list of calls made on the
    [SubstrateInterface] and the lines written by [print].  A raised
    exception keeps the effects that happened before it, as in Python.

    Exceptions are the instances of [Exception], which is what the
    source's [except Exception] handlers catch; interpreter signals
    deriving only from [BaseException] are outside the model.  An
    [async def] is the body it runs when awaited: no method of the SDK
    awaits anything but another method of the SDK. *)

From Stdlib Require Import ZArith String List DecimalString DecimalZ DecimalPos Decimal.
From Stdlib.Strings Require Import Byte.
From stdpp Require Import gmap strings.
Import ListNotations.

Local Open Scope Z_scope.
Local Open Scope string_scope.

(** ** Python values, exceptions and the builtins the SDK calls *)

Module Py.

(** A raised [Exception]: its class and the text [str(e)] gives. *)
Record Exc := mkExc { exc_class : string; exc_str : string }.

Inductive Result (A : Type) : Type :=
| Ok (a : A)
| Raise (e : Exc).
Arguments Ok {A} a.
Arguments Raise {A} e.

(** The values that cross the RPC boundary and the arguments handed to
    [_encode_call].  A [dict] keeps its items in insertion order. *)
#[warnings="-register-all"]
Inductive Val : Type :=
| None_
| Bool (b : bool)
| Int (z : Z)
| Str (s : string)
| List (l : list Val)
| Dict (d : list (string * Val)).

Definition bytes : Type := list byte.

(** [type(v).__name__] *)
Definition type_name (v : Val) : string :=
  match v with
  | None_ => "NoneType"
  | Bool _ => "bool"
  | Int _ => "int"
  | Str _ => "str"
  | List _ => "list"
  | Dict _ => "dict"
  end.

(** The protocol behind [not x], [x or y] and [if x]. *)
Class Truth (A : Type) := truth : A -> bool.

#[global] Instance truth_str : Truth string :=
  fun s => match s with EmptyString => false | String _ _ => true end.

#[global] Instance truth_int : Truth Z := fun z => negb (Z.eqb z 0).

#[global] Instance truth_val : Truth Val :=
  fun v =>
    match v with
    | None_ => false
    | Bool b => b
    | Int z => truth z
    | Str s => truth s
    | List l => match l with [] => false | _ :: _ => true end
    | Dict d => match d with [] => false | _ :: _ => true end
    end.

(** [Optional[T]]: [None] is false, an object of [T] is as true as [T]
    makes it. *)
#[global] Instance truth_optional {A} `{Truth A} : Truth (option A) :=
  fun o => match o with None => false | Some a => truth a end.

(** [x or y] for an optional [x] and a default [y] of the same type. *)
Definition or_ {A} `{Truth A} (x : option A) (y : A) : A :=
  match x with
  | Some a => if truth a then a else y
  | None => y
  end.

(** [str(n)] for an [int]: the decimal numeral, with a leading [-] for
    negative numbers. *)
Definition str_int (z : Z) : string := NilZero.string_of_int (Z.to_int z).

(** Reads a decimal numeral back; used to state what [str_int] wrote. *)
Definition read_decimal (s : string) : option Z :=
  Z.of_int <$> NilZero.int_of_string s.

(** The parts of the builtins that are not spelled out here: [int(s)]
    on a [str] (whitespace, sign, underscores, any Unicode digit) and
    the [repr] that [str] gives a list or a dict. *)
Class Builtins := {
  int_of_str : string -> Result Z;
  repr_container : Val -> string
}.

Section Builtins.
Context `{Builtins}.

(** [str(v)] *)
Definition str (v : Val) : string :=
  match v with
  | None_ => "None"
  | Bool true => "True"
  | Bool false => "False"
  | Int z => str_int z
  | Str s => s
  | List _ | Dict _ => repr_container v
  end.

(** [int(v)] *)
Definition int (v : Val) : Result Z :=
  match v with
  | Int z => Ok z
  | Bool b => Ok (if b then 1 else 0)
  | Str s => int_of_str s
  | None_ | List _ | Dict _ =>
      Raise (mkExc "TypeError"
        ("int() argument must be a string, a bytes-like object or a real number, not '"
           ++ type_name v ++ "'"))
  end.

(** [bool(v)] *)
Definition bool_ (v : Val) : bool := truth v.

End Builtins.

Fixpoint assoc (k : string) (d : list (string * Val)) : option Val :=
  match d with
  | [] => None
  | (k', v) :: d' => if String.eqb k k' then Some v else assoc k d'
  end.

(** [v[k]] for a [str] key [k] *)
Definition getitem (v : Val) (k : string) : Result Val :=
  match v with
  | Dict d =>
      match assoc k d with
      | Some x => Ok x
      | None => Raise (mkExc "KeyError" ("'" ++ k ++ "'"))
      end
  | Str _ => Raise (mkExc "TypeError" "string indices must be integers, not 'str'")
  | List _ => Raise (mkExc "TypeError" "list indices must be integers or slices, not str")
  | None_ | Bool _ | Int _ =>
      Raise (mkExc "TypeError" ("'" ++ type_name v ++ "' object is not subscriptable"))
  end.

(** [v.get(k, default)] *)
Definition get (v : Val) (k : string) (default : Val) : Result Val :=
  match v with
  | Dict d => Ok (match assoc k d with Some x => x | None => default end)
  | _ => Raise (mkExc "AttributeError"
           ("'" ++ type_name v ++ "' object has no attribute 'get'"))
  end.

(** [a + b] *)
Definition add (a b : Val) : Result Val :=
  let as_int (v : Val) : option Z :=
    match v with
    | Int z => Some z
    | Bool b => Some (if b then 1 else 0)
    | _ => None
    end in
  match as_int a, as_int b with
  | Some x, Some y => Ok (Int (x + y))
  | _, _ =>
      match a, b with
      | Str s, Str t => Ok (Str (s ++ t))
      | List l, List m => Ok (List (l ++ m))
      | _, _ => Raise (mkExc "TypeError"
                  ("unsupported operand type(s) for +: '" ++ type_name a
                     ++ "' and '" ++ type_name b ++ "'"))
      end
  end.

(** [range(n)] as the list it iterates over; empty when [n <= 0]. *)
Definition range (n : Z) : list Z := Z.of_nat <$> seq 0 (Z.to_nat n).

End Py.

Import Py (Result, Ok, Raise, Truth, truth).

(** ** Contract types: [glin_sdk/contracts/types.py] *)

Module MilestoneStatus.
Inductive t := PENDING | COMPLETED | DISPUTED | RESOLVED | CANCELLED.
Definition value (s : t) : string :=
  match s with
  | PENDING => "Pending"
  | COMPLETED => "Completed"
  | DISPUTED => "Disputed"
  | RESOLVED => "Resolved"
  | CANCELLED => "Cancelled"
  end.
End MilestoneStatus.

Module ProfessionalRole.
Inductive t := LAWYER | DOCTOR | ARBITRATOR | NOTARY | AUDITOR | CONSULTANT_OTHER.
Definition value (r : t) : string :=
  match r with
  | LAWYER => "Lawyer"
  | DOCTOR => "Doctor"
  | ARBITRATOR => "Arbitrator"
  | NOTARY => "Notary"
  | AUDITOR => "Auditor"
  | CONSULTANT_OTHER => "ConsultantOther"
  end.
End ProfessionalRole.

Module DisputeStatus.
Inductive t := OPEN | VOTING | RESOLVED | APPEALED | CANCELLED.
Definition value (s : t) : string :=
  match s with
  | OPEN => "Open"
  | VOTING => "Voting"
  | RESOLVED => "Resolved"
  | APPEALED => "Appealed"
  | CANCELLED => "Cancelled"
  end.
End DisputeStatus.

Module VoteChoice.
Inductive t := IN_FAVOR_OF_CLAIMANT | IN_FAVOR_OF_DEFENDANT.
Definition value (c : t) : string :=
  match c with
  | IN_FAVOR_OF_CLAIMANT => "InFavorOfClaimant"
  | IN_FAVOR_OF_DEFENDANT => "InFavorOfDefendant"
  end.
End VoteChoice.

Module Milestone.
Record t := {
  description : string;
  amount : string;
  status : MilestoneStatus.t;
  deadline : Z;
  oracle_verification : bool
}.
End Milestone.

Module Agreement.
Record t := {
  client : string;
  provider : string;
  total_amount : string;
  deposited_amount : string;
  created_at : Z;
  dispute_timeout : Z;
  oracle : option string;
  is_active : bool
}.
End Agreement.

Module CreateAgreementParams.
Record t := {
  provider : string;
  milestone_descriptions : list string;
  milestone_amounts : list string;
  milestone_deadlines : list Z;
  dispute_timeout : Z;
  oracle : option string;
  value : string
}.
End CreateAgreementParams.

Module ProfessionalProfile.
Record t := {
  account : string;
  role : ProfessionalRole.t;
  stake_amount : string;
  reputation_score : Z;
  total_jobs : Z;
  successful_jobs : Z;
  registered_at : Z;
  is_active : bool;
  metadata_uri : string
}.
End ProfessionalProfile.

Module Review.
Record t := {
  reviewer : string;
  rating : Z;
  comment : string;
  timestamp : Z
}.
(** A dataclass instance defines neither [__bool__] nor [__len__]. *)
#[global] Instance truth_review : Truth t := fun _ => true.
End Review.

Module RegisterProfessionalParams.
Record t := {
  role : ProfessionalRole.t;
  metadata_uri : string;
  stake_amount : string
}.
End RegisterProfessionalParams.

Module SubmitReviewParams.
Record t := {
  professional : string;
  rating : Z;
  comment : string
}.
End SubmitReviewParams.

Module Dispute.
Record t := {
  dispute_id : string;
  claimant : string;
  defendant : string;
  description : string;
  evidence_uri : string;
  status : DisputeStatus.t;
  created_at : Z;
  voting_ends_at : Z;
  votes_for_claimant : string;
  votes_for_defendant : string;
  resolution : option VoteChoice.t;
  can_appeal : bool
}.
End Dispute.

Module Arbitrator.
Record t := {
  account : string;
  stake : string;
  disputes_participated : Z;
  disputes_resolved : Z;
  reputation : Z;
  is_active : bool
}.
End Arbitrator.

Module CreateDisputeParams.
Record t := {
  defendant : string;
  description : string;
  evidence_uri : string
}.
End CreateDisputeParams.

Module VoteParams.
Record t := {
  dispute_id : string;
  choice : VoteChoice.t
}.
End VoteParams.

Module ContractResult.
(** What the wrappers store in [data: Optional[any]]: an identifier
    or a resolution. *)
Inductive any := Id (s : string) | Resolution (c : VoteChoice.t).

Record t := {
  success : bool;
  data : option any;
  error : option string;
  gas_consumed : option Z;
  storage_deposit : option string
}.

(** [ContractResult(success=.., data=.., error=..)]; the two telemetry
    fields keep their default [None]. *)
Definition make (success : bool) (data : option any) (error : option string) : t :=
  {| success := success; data := data; error := error;
     gas_consumed := None; storage_deposit := None |}.
End ContractResult.

(** ** Chain types: [glin_sdk/types.py] *)

Module Balance.
Record t := { free : string; reserved : string; frozen : string; total : string }.
End Balance.

Module ChainTask.
Record t := {
  id : string;
  creator : string;
  bounty : string;
  min_providers : Z;
  max_providers : Z;
  ipfs_hash : string;
  status : string
}.
End ChainTask.

Module ChainProvider.
Record t := {
  account : string;
  stake : string;
  reputation_score : Z;
  hardware_tier : string;
  status : string;
  is_slashed : bool
}.
End ChainProvider.

(** ** The external collaborator: the [substrateinterface] library

    The SDK only calls it; what the node answers is not the SDK's to
    decide.  Its opaque types are the fields of [SubstrateTypes]; a
    method of a connection reads and writes the state of the world and
    either returns or raises. *)

Class SubstrateTypes := {
  World : Type;
  Keypair : Type;
  GenericCall : Type;
  GenericExtrinsic : Type;
  ContractInstance : Type
}.

(** A [Keypair] defines neither [__bool__] nor [__len__]. *)
#[global] Instance truth_keypair `{SubstrateTypes} : Truth Keypair := fun _ => true.

Module CallParams.
Record gas := { ref_time : Z; proof_size : Z }.
(** The [call_params] dict of a [Contracts.call]; [dest] holds the
    wrapper's [contract_address] attribute as it is stored. *)
Record t := {
  dest : option string;
  value : Z;
  gas_limit : gas;
  storage_deposit_limit : option Z;
  data : Py.bytes
}.
End CallParams.

(** The receipt of an included extrinsic.  [is_success] is read as a
    stored attribute: the library computes it once and keeps it. *)
Module ExtrinsicReceipt.
Record t := { is_success : bool; triggered_events : list Py.Val }.
End ExtrinsicReceipt.

Module QueryResult.
Record t := { value : Py.Val }.
End QueryResult.

Module SubstrateInterface.
Record t `{SubstrateTypes} := {
  query : string -> string -> list Py.Val -> World -> Result QueryResult.t * World;
  compose_call : string -> string -> CallParams.t -> World -> Result GenericCall * World;
  create_signed_extrinsic :
    GenericCall -> option Keypair -> World -> Result GenericExtrinsic * World;
  submit_extrinsic :
    GenericExtrinsic -> bool -> World -> Result ExtrinsicReceipt.t * World;
  get_block_header : World -> Result Py.Val * World;
  close : World -> Result unit * World
}.
#[global] Instance truth_substrate `{SubstrateTypes} : Truth t := fun _ => true.
End SubstrateInterface.

(** [SubstrateInterface(url=...)]: opens a connection, or raises. *)
Class SubstrateLibrary `{SubstrateTypes} := {
  connect_url : string -> World -> Result SubstrateInterface.t * World
}.

(** One entry per call made on the library. *)
Module Action.
Inductive t `{SubstrateTypes} :=
| Connect (url : string)
| Close
| Query (module_ storage_function : string) (params : list Py.Val)
| ComposeCall (call_module call_function : string) (call_params : CallParams.t)
| CreateSignedExtrinsic (call : GenericCall) (keypair : option Keypair)
| SubmitExtrinsic (extrinsic : GenericExtrinsic) (wait_for_inclusion : bool)
| GetBlockHeader.
End Action.

(** ** Objects and the store *)

Definition ref := positive.

(** The attributes [__init__] gives an [EscrowContract], a
    [RegistryContract] and an [ArbitrationContract]: the three
    constructors assign the same four. *)
Module Wrapper.
Record attrs `{SubstrateTypes} := {
  substrate : SubstrateInterface.t;
  contract_address : option string;
  keypair : option Keypair;
  contract : option ContractInstance
}.
(** [self.contract_address = v] and [self.keypair = v] *)
Definition with_contract_address `{SubstrateTypes} (v : option string) (a : attrs) : attrs :=
  {| substrate := substrate a; contract_address := v;
     keypair := keypair a; contract := contract a |}.
Definition with_keypair `{SubstrateTypes} (v : option Keypair) (a : attrs) : attrs :=
  {| substrate := substrate a; contract_address := contract_address a;
     keypair := v; contract := contract a |}.
Inductive class := EscrowContract | RegistryContract | ArbitrationContract.
#[global] Instance class_eq_dec : EqDecision class.
Proof. solve_decision. Defined.
End Wrapper.

Module Contracts.
Record attrs `{SubstrateTypes} := {
  substrate : SubstrateInterface.t;
  keypair : option Keypair;
  escrow : ref;
  registry : ref;
  arbitration : ref
}.
(** [self.keypair = v] *)
Definition with_keypair `{SubstrateTypes} (v : option Keypair) (a : attrs) : attrs :=
  {| substrate := substrate a; keypair := v; escrow := escrow a;
     registry := registry a; arbitration := arbitration a |}.
End Contracts.

Module Client.
Record attrs `{SubstrateTypes} := {
  rpc_url : string;
  substrate : option SubstrateInterface.t
}.
(** [self.substrate = v] *)
Definition with_substrate `{SubstrateTypes} (v : option SubstrateInterface.t) (a : attrs) : attrs :=
  {| rpc_url := rpc_url a; substrate := v |}.
End Client.

Inductive Obj `{SubstrateTypes} :=
| WrapperObj (c : Wrapper.class) (a : Wrapper.attrs)
| GlinContractsObj (a : Contracts.attrs)
| GlinClientObj (a : Client.attrs).

(** ** The monad of method bodies *)

Module Machine.
Record t `{SubstrateTypes} := {
  heap : gmap ref Obj;
  world : World;
  calls : list Action.t;
  stdout : list string
}.
End Machine.

Section Monad.
Context `{SubstrateTypes}.

Definition M (A : Type) : Type := Machine.t -> Result A * Machine.t.

Definition ret {A} (a : A) : M A := fun m => (Ok a, m).

Definition bind {A B} (c : M A) (k : A -> M B) : M B :=
  fun m =>
    match c m with
    | (Ok a, m') => k a m'
    | (Raise e, m') => (Raise e, m')
    end.

(** A pure builtin that returns or raises. *)
Definition lift {A} (r : Result A) : M A := fun m => (r, m).

(** [try: body except Exception as e: handler e] *)
Definition try_except {A} (body : M A) (handler : Py.Exc -> M A) : M A :=
  fun m =>
    match body m with
    | (Ok a, m') => (Ok a, m')
    | (Raise e, m') => handler e m'
    end.

(** [print(line)] *)
Definition print (line : string) : M unit :=
  fun m =>
    (Ok tt, {| Machine.heap := Machine.heap m; Machine.world := Machine.world m;
               Machine.calls := Machine.calls m;
               Machine.stdout := Machine.stdout m ++ [line] |}).

(** A call on the library: logged, then answered by the world. *)
Definition invoke {A} (a : Action.t) (method : World -> Result A * World) : M A :=
  fun m =>
    let (r, w) := method (Machine.world m) in
    (r, {| Machine.heap := Machine.heap m; Machine.world := w;
           Machine.calls := Machine.calls m ++ [a];
           Machine.stdout := Machine.stdout m |}).

(** Store access: the object behind a reference, a new object, an
    attribute assignment. *)
Definition deref (r : ref) : M Obj :=
  fun m =>
    match Machine.heap m !! r with
    | Some o => (Ok o, m)
    | None => (Raise (Py.mkExc "ReferenceError" "no such object"), m)
    end.

Definition with_heap (h : gmap ref Obj) (m : Machine.t) : Machine.t :=
  {| Machine.heap := h; Machine.world := Machine.world m;
     Machine.calls := Machine.calls m; Machine.stdout := Machine.stdout m |}.

Definition alloc (o : Obj) : M ref :=
  fun m =>
    let r := fresh (dom (Machine.heap m)) in
    (Ok r, with_heap (<[r := o]> (Machine.heap m)) m).

Definition store (r : ref) (o : Obj) : M unit :=
  fun m => (Ok tt, with_heap (<[r := o]> (Machine.heap m)) m).

End Monad.

Declare Scope py_scope.
Delimit Scope py_scope with py.
Notation "x <- c ;; k" := (bind c (fun x => k))
  (at level 20, c at level 99, k at level 200, only parsing) : py_scope.
Notation "c ;; k" := (bind c (fun _ => k))
  (at level 100, k at level 200, only parsing, right associativity) : py_scope.
Notation "'try' b 'except' e => h" := (try_except b (fun e => h))
  (at level 20, b at level 200, e name, h at level 200, only parsing) : py_scope.
Local Open Scope py_scope.

(** Calls on the library, as the SDK spells them. *)
Module Substrate.
Section Calls.
Context `{SubstrateTypes}.

Definition query (s : SubstrateInterface.t) (module_ storage_function : string)
    (params : list Py.Val) : M QueryResult.t :=
  invoke (Action.Query module_ storage_function params)
         (SubstrateInterface.query s module_ storage_function params).

Definition compose_call (s : SubstrateInterface.t) (call_module call_function : string)
    (call_params : CallParams.t) : M GenericCall :=
  invoke (Action.ComposeCall call_module call_function call_params)
         (SubstrateInterface.compose_call s call_module call_function call_params).

Definition create_signed_extrinsic (s : SubstrateInterface.t) (call : GenericCall)
    (keypair : option Keypair) : M GenericExtrinsic :=
  invoke (Action.CreateSignedExtrinsic call keypair)
         (SubstrateInterface.create_signed_extrinsic s call keypair).

Definition submit_extrinsic (s : SubstrateInterface.t) (extrinsic : GenericExtrinsic)
    (wait_for_inclusion : bool) : M ExtrinsicReceipt.t :=
  invoke (Action.SubmitExtrinsic extrinsic wait_for_inclusion)
         (SubstrateInterface.submit_extrinsic s extrinsic wait_for_inclusion).

Definition get_block_header (s : SubstrateInterface.t) : M Py.Val :=
  invoke Action.GetBlockHeader (SubstrateInterface.get_block_header s).

Definition close (s : SubstrateInterface.t) : M unit :=
  invoke Action.Close (SubstrateInterface.close s).

Definition connect `{!SubstrateLibrary} (url : string) : M SubstrateInterface.t :=
  invoke (Action.Connect url) (connect_url url).

End Calls.
End Substrate.

(** Attribute access on [self].  Any of the three wrapper classes has
    the four attributes; another object has not. *)
Section Attributes.
Context `{SubstrateTypes}.

Definition no_attribute {A} : M A :=
  lift (Raise (Py.mkExc "AttributeError" "object has no such attribute")).

Definition getattr {A} (self : ref) (field : Wrapper.attrs -> A) : M A :=
  o <- deref self ;;
  match o with
  | WrapperObj _ a => ret (field a)
  | _ => no_attribute
  end.

Definition setattr (self : ref) (assign : Wrapper.attrs -> Wrapper.attrs) : M unit :=
  o <- deref self ;;
  match o with
  | WrapperObj c a => store self (WrapperObj c (assign a))
  | _ => no_attribute
  end.

(** [for x in l: s = body x s] *)
Fixpoint for_each {A S} (l : list A) (body : A -> S -> M S) (s : S) : M S :=
  match l with
  | [] => ret s
  | x :: l' => s' <- body x s ;; for_each l' body s'
  end.

End Attributes.

(** Python arguments as values, for [_encode_call(method, *args)]. *)
Definition arg_strs (l : list string) : Py.Val := Py.List (Py.Str <$> l).
Definition arg_ints (l : list Z) : Py.Val := Py.List (Py.Int <$> l).
Definition arg_opt_str (o : option string) : Py.Val :=
  match o with Some s => Py.Str s | None => Py.None_ end.

(** ** [glin_sdk/contracts/registry.py] *)

Module RegistryContract.
Section Methods.
Context `{SubstrateTypes} `{Py.Builtins}.

Definition _load_contract (self : ref) (address : string) : M unit :=
  setattr self (Wrapper.with_contract_address (Some address)).

Definition __init__ (substrate : SubstrateInterface.t) (contract_address : option string)
    (keypair : option Keypair) : M ref :=
  self <- alloc (WrapperObj Wrapper.RegistryContract
                   {| Wrapper.substrate := substrate;
                      Wrapper.contract_address := contract_address;
                      Wrapper.keypair := keypair;
                      Wrapper.contract := None |}) ;;
  (match contract_address with
   | Some address => if truth address then _load_contract self address else ret tt
   | None => ret tt
   end) ;;
  ret self.

Definition set_contract_address (self : ref) (address : string) : M unit :=
  setattr self (Wrapper.with_contract_address (Some address)) ;;
  _load_contract self address.

Definition set_keypair (self : ref) (keypair : option Keypair) : M unit :=
  setattr self (Wrapper.with_keypair keypair).

Definition _encode_call (self : ref) (method : string) (args : list Py.Val) : Py.bytes :=
  [].

Definition register (self : ref) (params : RegisterProfessionalParams.t)
    (gas_limit : option Z) : M ContractResult.t :=
  contract_address <- getattr self Wrapper.contract_address ;;
  if negb (truth contract_address) then
    ret (ContractResult.make false None (Some "Contract not initialized"))
  else
  keypair <- getattr self Wrapper.keypair ;;
  if negb (truth keypair) then
    ret (ContractResult.make false None (Some "Keypair not set"))
  else
  try (
    substrate <- getattr self Wrapper.substrate ;;
    dest <- getattr self Wrapper.contract_address ;;
    value <- lift (Py.int (Py.Str (RegisterProfessionalParams.stake_amount params))) ;;
    call <- Substrate.compose_call substrate "Contracts" "call"
      {| CallParams.dest := dest;
         CallParams.value := value;
         CallParams.gas_limit :=
           {| CallParams.ref_time := Py.or_ gas_limit 50000000000;
              CallParams.proof_size := 50000 |};
         CallParams.storage_deposit_limit := None;
         CallParams.data :=
           _encode_call self "register"
             [Py.Str (ProfessionalRole.value (RegisterProfessionalParams.role params));
              Py.Str (RegisterProfessionalParams.metadata_uri params)] |} ;;
    substrate <- getattr self Wrapper.substrate ;;
    keypair <- getattr self Wrapper.keypair ;;
    extrinsic <- Substrate.create_signed_extrinsic substrate call keypair ;;
    substrate <- getattr self Wrapper.substrate ;;
    receipt <- Substrate.submit_extrinsic substrate extrinsic true ;;
    ret (ContractResult.make (ExtrinsicReceipt.is_success receipt) None
           (if ExtrinsicReceipt.is_success receipt then None else Some "Transaction failed"))
  ) except e =>
    ret (ContractResult.make false None (Some (Py.exc_str e))).

Definition increase_stake (self : ref) (additional_stake : string)
    (gas_limit : option Z) : M ContractResult.t :=
  contract_address <- getattr self Wrapper.contract_address ;;
  if negb (truth contract_address) then
    ret (ContractResult.make false None (Some "Contract not initialized"))
  else
  keypair <- getattr self Wrapper.keypair ;;
  if negb (truth keypair) then
    ret (ContractResult.make false None (Some "Keypair not set"))
  else
  try (
    substrate <- getattr self Wrapper.substrate ;;
    dest <- getattr self Wrapper.contract_address ;;
    value <- lift (Py.int (Py.Str additional_stake)) ;;
    call <- Substrate.compose_call substrate "Contracts" "call"
      {| CallParams.dest := dest;
         CallParams.value := value;
         CallParams.gas_limit :=
           {| CallParams.ref_time := Py.or_ gas_limit 30000000000;
              CallParams.proof_size := 30000 |};
         CallParams.storage_deposit_limit := None;
         CallParams.data := _encode_call self "increase_stake" [] |} ;;
    substrate <- getattr self Wrapper.substrate ;;
    keypair <- getattr self Wrapper.keypair ;;
    extrinsic <- Substrate.create_signed_extrinsic substrate call keypair ;;
    substrate <- getattr self Wrapper.substrate ;;
    receipt <- Substrate.submit_extrinsic substrate extrinsic true ;;
    ret (ContractResult.make (ExtrinsicReceipt.is_success receipt) None
           (if ExtrinsicReceipt.is_success receipt then None else Some "Transaction failed"))
  ) except e =>
    ret (ContractResult.make false None (Some (Py.exc_str e))).

Definition submit_review (self : ref) (params : SubmitReviewParams.t)
    (gas_limit : option Z) : M ContractResult.t :=
  contract_address <- getattr self Wrapper.contract_address ;;
  if negb (truth contract_address) then
    ret (ContractResult.make false None (Some "Contract not initialized"))
  else
  keypair <- getattr self Wrapper.keypair ;;
  if negb (truth keypair) then
    ret (ContractResult.make false None (Some "Keypair not set"))
  else
  if Z.ltb (SubmitReviewParams.rating params) 1
     || Z.gtb (SubmitReviewParams.rating params) 5 then
    ret (ContractResult.make false None (Some "Rating must be between 1 and 5"))
  else
  try (
    substrate <- getattr self Wrapper.substrate ;;
    dest <- getattr self Wrapper.contract_address ;;
    call <- Substrate.compose_call substrate "Contracts" "call"
      {| CallParams.dest := dest;
         CallParams.value := 0;
         CallParams.gas_limit :=
           {| CallParams.ref_time := Py.or_ gas_limit 50000000000;
              CallParams.proof_size := 50000 |};
         CallParams.storage_deposit_limit := None;
         CallParams.data :=
           _encode_call self "submit_review"
             [Py.Str (SubmitReviewParams.professional params);
              Py.Int (SubmitReviewParams.rating params);
              Py.Str (SubmitReviewParams.comment params)] |} ;;
    substrate <- getattr self Wrapper.substrate ;;
    keypair <- getattr self Wrapper.keypair ;;
    extrinsic <- Substrate.create_signed_extrinsic substrate call keypair ;;
    substrate <- getattr self Wrapper.substrate ;;
    receipt <- Substrate.submit_extrinsic substrate extrinsic true ;;
    ret (ContractResult.make (ExtrinsicReceipt.is_success receipt) None
           (if ExtrinsicReceipt.is_success receipt then None else Some "Transaction failed"))
  ) except e =>
    ret (ContractResult.make false None (Some (Py.exc_str e))).

Definition withdraw_stake (self : ref) (gas_limit : option Z) : M ContractResult.t :=
  contract_address <- getattr self Wrapper.contract_address ;;
  if negb (truth contract_address) then
    ret (ContractResult.make false None (Some "Contract not initialized"))
  else
  keypair <- getattr self Wrapper.keypair ;;
  if negb (truth keypair) then
    ret (ContractResult.make false None (Some "Keypair not set"))
  else
  try (
    substrate <- getattr self Wrapper.substrate ;;
    dest <- getattr self Wrapper.contract_address ;;
    call <- Substrate.compose_call substrate "Contracts" "call"
      {| CallParams.dest := dest;
         CallParams.value := 0;
         CallParams.gas_limit :=
           {| CallParams.ref_time := Py.or_ gas_limit 40000000000;
              CallParams.proof_size := 40000 |};
         CallParams.storage_deposit_limit := None;
         CallParams.data := _encode_call self "withdraw_stake" [] |} ;;
    substrate <- getattr self Wrapper.substrate ;;
    keypair <- getattr self Wrapper.keypair ;;
    extrinsic <- Substrate.create_signed_extrinsic substrate call keypair ;;
    substrate <- getattr self Wrapper.substrate ;;
    receipt <- Substrate.submit_extrinsic substrate extrinsic true ;;
    ret (ContractResult.make (ExtrinsicReceipt.is_success receipt) None
           (if ExtrinsicReceipt.is_success receipt then None else Some "Transaction failed"))
  ) except e =>
    ret (ContractResult.make false None (Some (Py.exc_str e))).

Definition get_profile (self : ref) (account : string) : M (option ProfessionalProfile.t) :=
  contract_address <- getattr self Wrapper.contract_address ;;
  if negb (truth contract_address) then ret None else
  try ret None
  except e => (print ("Error getting profile: " ++ Py.exc_str e) ;; ret None).

Definition get_review (self : ref) (professional : string) (review_index : Z)
    : M (option Review.t) :=
  contract_address <- getattr self Wrapper.contract_address ;;
  if negb (truth contract_address) then ret None else
  try ret None
  except e => (print ("Error getting review: " ++ Py.exc_str e) ;; ret None).

Definition get_review_count (self : ref) (professional : string) : M Z :=
  contract_address <- getattr self Wrapper.contract_address ;;
  if negb (truth contract_address) then ret 0 else
  try ret 0
  except e => (print ("Error getting review count: " ++ Py.exc_str e) ;; ret 0).

Definition get_min_stake (self : ref) (role : ProfessionalRole.t) : M string :=
  contract_address <- getattr self Wrapper.contract_address ;;
  if negb (truth contract_address) then ret "0" else
  try ret "0"
  except e => (print ("Error getting min stake: " ++ Py.exc_str e) ;; ret "0").

Definition is_active_professional (self : ref) (account : string) : M bool :=
  contract_address <- getattr self Wrapper.contract_address ;;
  if negb (truth contract_address) then ret false else
  try ret false
  except e => (print ("Error checking active professional: " ++ Py.exc_str e) ;; ret false).

Definition get_all_reviews (self : ref) (professional : string) : M (list Review.t) :=
  count <- get_review_count self professional ;;
  let reviews : list Review.t := [] in
  for_each (Py.range count)
    (fun i (reviews : list Review.t) =>
       review <- get_review self professional i ;;
       if truth review then
         ret (reviews ++ match review with Some r => [r] | None => [] end)%list
       else ret reviews)
    reviews.

End Methods.
End RegistryContract.

(** ** [glin_sdk/contracts/escrow.py] *)

Module EscrowContract.
Section Methods.
Context `{SubstrateTypes} `{Py.Builtins}.

Definition _load_contract (self : ref) (address : string) : M unit :=
  setattr self (Wrapper.with_contract_address (Some address)).

Definition __init__ (substrate : SubstrateInterface.t) (contract_address : option string)
    (keypair : option Keypair) : M ref :=
  self <- alloc (WrapperObj Wrapper.EscrowContract
                   {| Wrapper.substrate := substrate;
                      Wrapper.contract_address := contract_address;
                      Wrapper.keypair := keypair;
                      Wrapper.contract := None |}) ;;
  (match contract_address with
   | Some address => if truth address then _load_contract self address else ret tt
   | None => ret tt
   end) ;;
  ret self.

Definition set_contract_address (self : ref) (address : string) : M unit :=
  setattr self (Wrapper.with_contract_address (Some address)) ;;
  _load_contract self address.

Definition set_keypair (self : ref) (keypair : option Keypair) : M unit :=
  setattr self (Wrapper.with_keypair keypair).

Definition _encode_call (self : ref) (method : string) (args : list Py.Val) : Py.bytes :=
  [].

Definition _extract_agreement_id (self : ref) (receipt : ExtrinsicReceipt.t) : option string :=
  None.

Definition create_agreement (self : ref) (params : CreateAgreementParams.t)
    (gas_limit : option Z) : M ContractResult.t :=
  contract_address <- getattr self Wrapper.contract_address ;;
  if negb (truth contract_address) then
    ret (ContractResult.make false None (Some "Contract not initialized"))
  else
  keypair <- getattr self Wrapper.keypair ;;
  if negb (truth keypair) then
    ret (ContractResult.make false None (Some "Keypair not set"))
  else
  try (
    substrate <- getattr self Wrapper.substrate ;;
    dest <- getattr self Wrapper.contract_address ;;
    value <- lift (Py.int (Py.Str (CreateAgreementParams.value params))) ;;
    call <- Substrate.compose_call substrate "Contracts" "call"
      {| CallParams.dest := dest;
         CallParams.value := value;
         CallParams.gas_limit :=
           {| CallParams.ref_time := Py.or_ gas_limit 100000000000;
              CallParams.proof_size := 100000 |};
         CallParams.storage_deposit_limit := None;
         CallParams.data :=
           _encode_call self "create_agreement"
             [Py.Str (CreateAgreementParams.provider params);
              arg_strs (CreateAgreementParams.milestone_descriptions params);
              arg_strs (CreateAgreementParams.milestone_amounts params);
              arg_ints (CreateAgreementParams.milestone_deadlines params);
              Py.Int (CreateAgreementParams.dispute_timeout params);
              arg_opt_str (CreateAgreementParams.oracle params)] |} ;;
    substrate <- getattr self Wrapper.substrate ;;
    keypair <- getattr self Wrapper.keypair ;;
    extrinsic <- Substrate.create_signed_extrinsic substrate call keypair ;;
    substrate <- getattr self Wrapper.substrate ;;
    receipt <- Substrate.submit_extrinsic substrate extrinsic true ;;
    if ExtrinsicReceipt.is_success receipt then
      let agreement_id := _extract_agreement_id self receipt in
      ret (ContractResult.make true (ContractResult.Id <$> agreement_id) None)
    else
      ret (ContractResult.make false None (Some "Transaction failed"))
  ) except e =>
    ret (ContractResult.make false None (Some (Py.exc_str e))).

Definition complete_milestone (self : ref) (agreement_id : string) (milestone_index : Z)
    (gas_limit : option Z) : M ContractResult.t :=
  contract_address <- getattr self Wrapper.contract_address ;;
  if negb (truth contract_address) then
    ret (ContractResult.make false None (Some "Contract not initialized"))
  else
  keypair <- getattr self Wrapper.keypair ;;
  if negb (truth keypair) then
    ret (ContractResult.make false None (Some "Keypair not set"))
  else
  try (
    substrate <- getattr self Wrapper.substrate ;;
    dest <- getattr self Wrapper.contract_address ;;
    call <- Substrate.compose_call substrate "Contracts" "call"
      {| CallParams.dest := dest;
         CallParams.value := 0;
         CallParams.gas_limit :=
           {| CallParams.ref_time := Py.or_ gas_limit 50000000000;
              CallParams.proof_size := 50000 |};
         CallParams.storage_deposit_limit := None;
         CallParams.data :=
           _encode_call self "complete_milestone"
             [Py.Str agreement_id;
              Py.Int milestone_index] |} ;;
    substrate <- getattr self Wrapper.substrate ;;
    keypair <- getattr self Wrapper.keypair ;;
    extrinsic <- Substrate.create_signed_extrinsic substrate call keypair ;;
    substrate <- getattr self Wrapper.substrate ;;
    receipt <- Substrate.submit_extrinsic substrate extrinsic true ;;
    ret (ContractResult.make (ExtrinsicReceipt.is_success receipt) None
           (if ExtrinsicReceipt.is_success receipt then None else Some "Transaction failed"))
  ) except e =>
    ret (ContractResult.make false None (Some (Py.exc_str e))).

Definition approve_and_release (self : ref) (agreement_id : string) (milestone_index : Z)
    (gas_limit : option Z) : M ContractResult.t :=
  contract_address <- getattr self Wrapper.contract_address ;;
  if negb (truth contract_address) then
    ret (ContractResult.make false None (Some "Contract not initialized"))
  else
  keypair <- getattr self Wrapper.keypair ;;
  if negb (truth keypair) then
    ret (ContractResult.make false None (Some "Keypair not set"))
  else
  try (
    substrate <- getattr self Wrapper.substrate ;;
    dest <- getattr self Wrapper.contract_address ;;
    call <- Substrate.compose_call substrate "Contracts" "call"
      {| CallParams.dest := dest;
         CallParams.value := 0;
         CallParams.gas_limit :=
           {| CallParams.ref_time := Py.or_ gas_limit 50000000000;
              CallParams.proof_size := 50000 |};
         CallParams.storage_deposit_limit := None;
         CallParams.data :=
           _encode_call self "approve_and_release"
             [Py.Str agreement_id;
              Py.Int milestone_index] |} ;;
    substrate <- getattr self Wrapper.substrate ;;
    keypair <- getattr self Wrapper.keypair ;;
    extrinsic <- Substrate.create_signed_extrinsic substrate call keypair ;;
    substrate <- getattr self Wrapper.substrate ;;
    receipt <- Substrate.submit_extrinsic substrate extrinsic true ;;
    ret (ContractResult.make (ExtrinsicReceipt.is_success receipt) None
           (if ExtrinsicReceipt.is_success receipt then None else Some "Transaction failed"))
  ) except e =>
    ret (ContractResult.make false None (Some (Py.exc_str e))).

Definition raise_dispute (self : ref) (agreement_id : string) (milestone_index : Z)
    (gas_limit : option Z) : M ContractResult.t :=
  contract_address <- getattr self Wrapper.contract_address ;;
  if negb (truth contract_address) then
    ret (ContractResult.make false None (Some "Contract not initialized"))
  else
  keypair <- getattr self Wrapper.keypair ;;
  if negb (truth keypair) then
    ret (ContractResult.make false None (Some "Keypair not set"))
  else
  try (
    substrate <- getattr self Wrapper.substrate ;;
    dest <- getattr self Wrapper.contract_address ;;
    call <- Substrate.compose_call substrate "Contracts" "call"
      {| CallParams.dest := dest;
         CallParams.value := 0;
         CallParams.gas_limit :=
           {| CallParams.ref_time := Py.or_ gas_limit 50000000000;
              CallParams.proof_size := 50000 |};
         CallParams.storage_deposit_limit := None;
         CallParams.data :=
           _encode_call self "raise_dispute"
             [Py.Str agreement_id;
              Py.Int milestone_index] |} ;;
    substrate <- getattr self Wrapper.substrate ;;
    keypair <- getattr self Wrapper.keypair ;;
    extrinsic <- Substrate.create_signed_extrinsic substrate call keypair ;;
    substrate <- getattr self Wrapper.substrate ;;
    receipt <- Substrate.submit_extrinsic substrate extrinsic true ;;
    ret (ContractResult.make (ExtrinsicReceipt.is_success receipt) None
           (if ExtrinsicReceipt.is_success receipt then None else Some "Transaction failed"))
  ) except e =>
    ret (ContractResult.make false None (Some (Py.exc_str e))).

Definition resolve_dispute (self : ref) (agreement_id : string) (milestone_index : Z)
    (release_to_provider : bool)
    (gas_limit : option Z) : M ContractResult.t :=
  contract_address <- getattr self Wrapper.contract_address ;;
  if negb (truth contract_address) then
    ret (ContractResult.make false None (Some "Contract not initialized"))
  else
  keypair <- getattr self Wrapper.keypair ;;
  if negb (truth keypair) then
    ret (ContractResult.make false None (Some "Keypair not set"))
  else
  try (
    substrate <- getattr self Wrapper.substrate ;;
    dest <- getattr self Wrapper.contract_address ;;
    call <- Substrate.compose_call substrate "Contracts" "call"
      {| CallParams.dest := dest;
         CallParams.value := 0;
         CallParams.gas_limit :=
           {| CallParams.ref_time := Py.or_ gas_limit 50000000000;
              CallParams.proof_size := 50000 |};
         CallParams.storage_deposit_limit := None;
         CallParams.data :=
           _encode_call self "resolve_dispute"
             [Py.Str agreement_id;
              Py.Int milestone_index;
              Py.Bool release_to_provider] |} ;;
    substrate <- getattr self Wrapper.substrate ;;
    keypair <- getattr self Wrapper.keypair ;;
    extrinsic <- Substrate.create_signed_extrinsic substrate call keypair ;;
    substrate <- getattr self Wrapper.substrate ;;
    receipt <- Substrate.submit_extrinsic substrate extrinsic true ;;
    ret (ContractResult.make (ExtrinsicReceipt.is_success receipt) None
           (if ExtrinsicReceipt.is_success receipt then None else Some "Transaction failed"))
  ) except e =>
    ret (ContractResult.make false None (Some (Py.exc_str e))).

Definition get_agreement (self : ref) (agreement_id : string) : M (option Agreement.t) :=
  contract_address <- getattr self Wrapper.contract_address ;;
  if negb (truth contract_address) then ret None else
  try ret None
  except e => (print ("Error getting agreement: " ++ Py.exc_str e) ;; ret None).

Definition get_milestone (self : ref) (agreement_id : string) (milestone_index : Z) : M (option Milestone.t) :=
  contract_address <- getattr self Wrapper.contract_address ;;
  if negb (truth contract_address) then ret None else
  try ret None
  except e => (print ("Error getting milestone: " ++ Py.exc_str e) ;; ret None).

Definition get_milestone_count (self : ref) (agreement_id : string) : M Z :=
  contract_address <- getattr self Wrapper.contract_address ;;
  if negb (truth contract_address) then ret 0 else
  try ret 0
  except e => (print ("Error getting milestone count: " ++ Py.exc_str e) ;; ret 0).

End Methods.
End EscrowContract.

(** ** [glin_sdk/contracts/arbitration.py] *)

Module ArbitrationContract.
Section Methods.
Context `{SubstrateTypes} `{Py.Builtins}.

Definition _load_contract (self : ref) (address : string) : M unit :=
  setattr self (Wrapper.with_contract_address (Some address)).

Definition __init__ (substrate : SubstrateInterface.t) (contract_address : option string)
    (keypair : option Keypair) : M ref :=
  self <- alloc (WrapperObj Wrapper.ArbitrationContract
                   {| Wrapper.substrate := substrate;
                      Wrapper.contract_address := contract_address;
                      Wrapper.keypair := keypair;
                      Wrapper.contract := None |}) ;;
  (match contract_address with
   | Some address => if truth address then _load_contract self address else ret tt
   | None => ret tt
   end) ;;
  ret self.

Definition set_contract_address (self : ref) (address : string) : M unit :=
  setattr self (Wrapper.with_contract_address (Some address)) ;;
  _load_contract self address.

Definition set_keypair (self : ref) (keypair : option Keypair) : M unit :=
  setattr self (Wrapper.with_keypair keypair).

Definition _encode_call (self : ref) (method : string) (args : list Py.Val) : Py.bytes :=
  [].

Definition _extract_dispute_id (self : ref) (receipt : ExtrinsicReceipt.t) : option string :=
  None.

Definition _extract_resolution (self : ref) (receipt : ExtrinsicReceipt.t)
    : option VoteChoice.t :=
  None.

Definition register_arbitrator (self : ref) (stake_amount : string)
    (gas_limit : option Z) : M ContractResult.t :=
  contract_address <- getattr self Wrapper.contract_address ;;
  if negb (truth contract_address) then
    ret (ContractResult.make false None (Some "Contract not initialized"))
  else
  keypair <- getattr self Wrapper.keypair ;;
  if negb (truth keypair) then
    ret (ContractResult.make false None (Some "Keypair not set"))
  else
  try (
    substrate <- getattr self Wrapper.substrate ;;
    dest <- getattr self Wrapper.contract_address ;;
    value <- lift (Py.int (Py.Str stake_amount)) ;;
    call <- Substrate.compose_call substrate "Contracts" "call"
      {| CallParams.dest := dest;
         CallParams.value := value;
         CallParams.gas_limit :=
           {| CallParams.ref_time := Py.or_ gas_limit 50000000000;
              CallParams.proof_size := 50000 |};
         CallParams.storage_deposit_limit := None;
         CallParams.data := _encode_call self "register_arbitrator" [] |} ;;
    substrate <- getattr self Wrapper.substrate ;;
    keypair <- getattr self Wrapper.keypair ;;
    extrinsic <- Substrate.create_signed_extrinsic substrate call keypair ;;
    substrate <- getattr self Wrapper.substrate ;;
    receipt <- Substrate.submit_extrinsic substrate extrinsic true ;;
    ret (ContractResult.make (ExtrinsicReceipt.is_success receipt) None
           (if ExtrinsicReceipt.is_success receipt then None else Some "Transaction failed"))
  ) except e =>
    ret (ContractResult.make false None (Some (Py.exc_str e))).

Definition increase_arbitrator_stake (self : ref) (additional_stake : string)
    (gas_limit : option Z) : M ContractResult.t :=
  contract_address <- getattr self Wrapper.contract_address ;;
  if negb (truth contract_address) then
    ret (ContractResult.make false None (Some "Contract not initialized"))
  else
  keypair <- getattr self Wrapper.keypair ;;
  if negb (truth keypair) then
    ret (ContractResult.make false None (Some "Keypair not set"))
  else
  try (
    substrate <- getattr self Wrapper.substrate ;;
    dest <- getattr self Wrapper.contract_address ;;
    value <- lift (Py.int (Py.Str additional_stake)) ;;
    call <- Substrate.compose_call substrate "Contracts" "call"
      {| CallParams.dest := dest;
         CallParams.value := value;
         CallParams.gas_limit :=
           {| CallParams.ref_time := Py.or_ gas_limit 30000000000;
              CallParams.proof_size := 30000 |};
         CallParams.storage_deposit_limit := None;
         CallParams.data := _encode_call self "increase_arbitrator_stake" [] |} ;;
    substrate <- getattr self Wrapper.substrate ;;
    keypair <- getattr self Wrapper.keypair ;;
    extrinsic <- Substrate.create_signed_extrinsic substrate call keypair ;;
    substrate <- getattr self Wrapper.substrate ;;
    receipt <- Substrate.submit_extrinsic substrate extrinsic true ;;
    ret (ContractResult.make (ExtrinsicReceipt.is_success receipt) None
           (if ExtrinsicReceipt.is_success receipt then None else Some "Transaction failed"))
  ) except e =>
    ret (ContractResult.make false None (Some (Py.exc_str e))).

Definition create_dispute (self : ref) (params : CreateDisputeParams.t)
    (gas_limit : option Z) : M ContractResult.t :=
  contract_address <- getattr self Wrapper.contract_address ;;
  if negb (truth contract_address) then
    ret (ContractResult.make false None (Some "Contract not initialized"))
  else
  keypair <- getattr self Wrapper.keypair ;;
  if negb (truth keypair) then
    ret (ContractResult.make false None (Some "Keypair not set"))
  else
  try (
    substrate <- getattr self Wrapper.substrate ;;
    dest <- getattr self Wrapper.contract_address ;;
    call <- Substrate.compose_call substrate "Contracts" "call"
      {| CallParams.dest := dest;
         CallParams.value := 0;
         CallParams.gas_limit :=
           {| CallParams.ref_time := Py.or_ gas_limit 60000000000;
              CallParams.proof_size := 60000 |};
         CallParams.storage_deposit_limit := None;
         CallParams.data :=
           _encode_call self "create_dispute"
             [Py.Str (CreateDisputeParams.defendant params);
              Py.Str (CreateDisputeParams.description params);
              Py.Str (CreateDisputeParams.evidence_uri params)] |} ;;
    substrate <- getattr self Wrapper.substrate ;;
    keypair <- getattr self Wrapper.keypair ;;
    extrinsic <- Substrate.create_signed_extrinsic substrate call keypair ;;
    substrate <- getattr self Wrapper.substrate ;;
    receipt <- Substrate.submit_extrinsic substrate extrinsic true ;;
    if ExtrinsicReceipt.is_success receipt then
      let dispute_id := _extract_dispute_id self receipt in
      ret (ContractResult.make true (ContractResult.Id <$> dispute_id) None)
    else
      ret (ContractResult.make false None (Some "Transaction failed"))
  ) except e =>
    ret (ContractResult.make false None (Some (Py.exc_str e))).

Definition start_voting (self : ref) (dispute_id : string)
    (gas_limit : option Z) : M ContractResult.t :=
  contract_address <- getattr self Wrapper.contract_address ;;
  if negb (truth contract_address) then
    ret (ContractResult.make false None (Some "Contract not initialized"))
  else
  keypair <- getattr self Wrapper.keypair ;;
  if negb (truth keypair) then
    ret (ContractResult.make false None (Some "Keypair not set"))
  else
  try (
    substrate <- getattr self Wrapper.substrate ;;
    dest <- getattr self Wrapper.contract_address ;;
    call <- Substrate.compose_call substrate "Contracts" "call"
      {| CallParams.dest := dest;
         CallParams.value := 0;
         CallParams.gas_limit :=
           {| CallParams.ref_time := Py.or_ gas_limit 40000000000;
              CallParams.proof_size := 40000 |};
         CallParams.storage_deposit_limit := None;
         CallParams.data :=
           _encode_call self "start_voting"
             [Py.Str dispute_id] |} ;;
    substrate <- getattr self Wrapper.substrate ;;
    keypair <- getattr self Wrapper.keypair ;;
    extrinsic <- Substrate.create_signed_extrinsic substrate call keypair ;;
    substrate <- getattr self Wrapper.substrate ;;
    receipt <- Substrate.submit_extrinsic substrate extrinsic true ;;
    ret (ContractResult.make (ExtrinsicReceipt.is_success receipt) None
           (if ExtrinsicReceipt.is_success receipt then None else Some "Transaction failed"))
  ) except e =>
    ret (ContractResult.make false None (Some (Py.exc_str e))).

Definition vote (self : ref) (params : VoteParams.t)
    (gas_limit : option Z) : M ContractResult.t :=
  contract_address <- getattr self Wrapper.contract_address ;;
  if negb (truth contract_address) then
    ret (ContractResult.make false None (Some "Contract not initialized"))
  else
  keypair <- getattr self Wrapper.keypair ;;
  if negb (truth keypair) then
    ret (ContractResult.make false None (Some "Keypair not set"))
  else
  try (
    substrate <- getattr self Wrapper.substrate ;;
    dest <- getattr self Wrapper.contract_address ;;
    call <- Substrate.compose_call substrate "Contracts" "call"
      {| CallParams.dest := dest;
         CallParams.value := 0;
         CallParams.gas_limit :=
           {| CallParams.ref_time := Py.or_ gas_limit 50000000000;
              CallParams.proof_size := 50000 |};
         CallParams.storage_deposit_limit := None;
         CallParams.data :=
           _encode_call self "vote"
             [Py.Str (VoteParams.dispute_id params);
              Py.Str (VoteChoice.value (VoteParams.choice params))] |} ;;
    substrate <- getattr self Wrapper.substrate ;;
    keypair <- getattr self Wrapper.keypair ;;
    extrinsic <- Substrate.create_signed_extrinsic substrate call keypair ;;
    substrate <- getattr self Wrapper.substrate ;;
    receipt <- Substrate.submit_extrinsic substrate extrinsic true ;;
    ret (ContractResult.make (ExtrinsicReceipt.is_success receipt) None
           (if ExtrinsicReceipt.is_success receipt then None else Some "Transaction failed"))
  ) except e =>
    ret (ContractResult.make false None (Some (Py.exc_str e))).

Definition finalize_dispute (self : ref) (dispute_id : string)
    (gas_limit : option Z) : M ContractResult.t :=
  contract_address <- getattr self Wrapper.contract_address ;;
  if negb (truth contract_address) then
    ret (ContractResult.make false None (Some "Contract not initialized"))
  else
  keypair <- getattr self Wrapper.keypair ;;
  if negb (truth keypair) then
    ret (ContractResult.make false None (Some "Keypair not set"))
  else
  try (
    substrate <- getattr self Wrapper.substrate ;;
    dest <- getattr self Wrapper.contract_address ;;
    call <- Substrate.compose_call substrate "Contracts" "call"
      {| CallParams.dest := dest;
         CallParams.value := 0;
         CallParams.gas_limit :=
           {| CallParams.ref_time := Py.or_ gas_limit 50000000000;
              CallParams.proof_size := 50000 |};
         CallParams.storage_deposit_limit := None;
         CallParams.data :=
           _encode_call self "finalize_dispute"
             [Py.Str dispute_id] |} ;;
    substrate <- getattr self Wrapper.substrate ;;
    keypair <- getattr self Wrapper.keypair ;;
    extrinsic <- Substrate.create_signed_extrinsic substrate call keypair ;;
    substrate <- getattr self Wrapper.substrate ;;
    receipt <- Substrate.submit_extrinsic substrate extrinsic true ;;
    if ExtrinsicReceipt.is_success receipt then
      let resolution := _extract_resolution self receipt in
      ret (ContractResult.make true (ContractResult.Resolution <$> resolution) None)
    else
      ret (ContractResult.make false None (Some "Transaction failed"))
  ) except e =>
    ret (ContractResult.make false None (Some (Py.exc_str e))).

Definition appeal_dispute (self : ref) (dispute_id : string)
    (gas_limit : option Z) : M ContractResult.t :=
  contract_address <- getattr self Wrapper.contract_address ;;
  if negb (truth contract_address) then
    ret (ContractResult.make false None (Some "Contract not initialized"))
  else
  keypair <- getattr self Wrapper.keypair ;;
  if negb (truth keypair) then
    ret (ContractResult.make false None (Some "Keypair not set"))
  else
  try (
    substrate <- getattr self Wrapper.substrate ;;
    dest <- getattr self Wrapper.contract_address ;;
    call <- Substrate.compose_call substrate "Contracts" "call"
      {| CallParams.dest := dest;
         CallParams.value := 0;
         CallParams.gas_limit :=
           {| CallParams.ref_time := Py.or_ gas_limit 50000000000;
              CallParams.proof_size := 50000 |};
         CallParams.storage_deposit_limit := None;
         CallParams.data :=
           _encode_call self "appeal_dispute"
             [Py.Str dispute_id] |} ;;
    substrate <- getattr self Wrapper.substrate ;;
    keypair <- getattr self Wrapper.keypair ;;
    extrinsic <- Substrate.create_signed_extrinsic substrate call keypair ;;
    substrate <- getattr self Wrapper.substrate ;;
    receipt <- Substrate.submit_extrinsic substrate extrinsic true ;;
    ret (ContractResult.make (ExtrinsicReceipt.is_success receipt) None
           (if ExtrinsicReceipt.is_success receipt then None else Some "Transaction failed"))
  ) except e =>
    ret (ContractResult.make false None (Some (Py.exc_str e))).

Definition get_dispute (self : ref) (dispute_id : string) : M (option Dispute.t) :=
  contract_address <- getattr self Wrapper.contract_address ;;
  if negb (truth contract_address) then ret None else
  try ret None
  except e => (print ("Error getting dispute: " ++ Py.exc_str e) ;; ret None).

Definition get_arbitrator (self : ref) (account : string) : M (option Arbitrator.t) :=
  contract_address <- getattr self Wrapper.contract_address ;;
  if negb (truth contract_address) then ret None else
  try ret None
  except e => (print ("Error getting arbitrator: " ++ Py.exc_str e) ;; ret None).

Definition get_vote (self : ref) (dispute_id : string) (arbitrator : string) : M (option VoteChoice.t) :=
  contract_address <- getattr self Wrapper.contract_address ;;
  if negb (truth contract_address) then ret None else
  try ret None
  except e => (print ("Error getting vote: " ++ Py.exc_str e) ;; ret None).

Definition is_active_arbitrator (self : ref) (account : string) : M bool :=
  contract_address <- getattr self Wrapper.contract_address ;;
  if negb (truth contract_address) then ret false else
  try ret false
  except e => (print ("Error checking active arbitrator: " ++ Py.exc_str e) ;; ret false).

End Methods.
End ArbitrationContract.

(** ** A method call on a wrapper

    [obj._encode_call(method, *args)]: Python finds the method on the
    class of the object behind [obj] and runs that body on the machine
    as it is at the call, where it could read the object, the store and
    the world. *)

Module Method.
Section Methods.
Context `{SubstrateTypes}.

Definition _encode_call (obj : ref) (method : string) (args : list Py.Val)
    : M Py.bytes :=
  o <- deref obj ;;
  match o with
  | WrapperObj Wrapper.EscrowContract _ =>
      ret (EscrowContract._encode_call obj method args)
  | WrapperObj Wrapper.RegistryContract _ =>
      ret (RegistryContract._encode_call obj method args)
  | WrapperObj Wrapper.ArbitrationContract _ =>
      ret (ArbitrationContract._encode_call obj method args)
  | _ => no_attribute
  end.

End Methods.
End Method.

(** ** [glin_sdk/contracts/client.py] *)

Module GlinContracts.
Section Methods.
Context `{SubstrateTypes} `{Py.Builtins}.

Definition getattr {A} (self : ref) (field : Contracts.attrs -> A) : M A :=
  o <- deref self ;;
  match o with
  | GlinContractsObj a => ret (field a)
  | _ => no_attribute
  end.

Definition setattr (self : ref) (assign : Contracts.attrs -> Contracts.attrs) : M unit :=
  o <- deref self ;;
  match o with
  | GlinContractsObj a => store self (GlinContractsObj (assign a))
  | _ => no_attribute
  end.

(** The three constructors run in source order; the [GlinContracts]
    object enters the store once its five attributes are known. *)
Definition __init__ (substrate : SubstrateInterface.t) (keypair : option Keypair)
    (escrow_address registry_address arbitration_address : option string) : M ref :=
  escrow <- EscrowContract.__init__ substrate escrow_address keypair ;;
  registry <- RegistryContract.__init__ substrate registry_address keypair ;;
  arbitration <- ArbitrationContract.__init__ substrate arbitration_address keypair ;;
  alloc (GlinContractsObj
           {| Contracts.substrate := substrate;
              Contracts.keypair := keypair;
              Contracts.escrow := escrow;
              Contracts.registry := registry;
              Contracts.arbitration := arbitration |}).

(** [obj.set_keypair(keypair)]: the method of the class of the object
    behind [obj].  Only the three wrapper classes are dispatched to. *)
Definition call_set_keypair (obj : ref) (keypair : option Keypair) : M unit :=
  o <- deref obj ;;
  match o with
  | WrapperObj Wrapper.EscrowContract _ => EscrowContract.set_keypair obj keypair
  | WrapperObj Wrapper.RegistryContract _ => RegistryContract.set_keypair obj keypair
  | WrapperObj Wrapper.ArbitrationContract _ => ArbitrationContract.set_keypair obj keypair
  | _ => no_attribute
  end.

Definition set_keypair (self : ref) (keypair : option Keypair) : M unit :=
  setattr self (Contracts.with_keypair keypair) ;;
  escrow <- getattr self Contracts.escrow ;;
  call_set_keypair escrow keypair ;;
  registry <- getattr self Contracts.registry ;;
  call_set_keypair registry keypair ;;
  arbitration <- getattr self Contracts.arbitration ;;
  call_set_keypair arbitration keypair.

(** [v is not None] *)
Definition is_not_None (v : Py.Val) : bool :=
  match v with Py.None_ => false | _ => true end.

Definition is_contract (self : ref) (address : string) : M bool :=
  try (
    substrate <- getattr self Contracts.substrate ;;
    result <- Substrate.query substrate "Contracts" "ContractInfoOf" [Py.Str address] ;;
    ret (is_not_None (QueryResult.value result))
  ) except e => ret false.

Definition get_contract_balance (self : ref) (address : string) : M string :=
  substrate <- getattr self Contracts.substrate ;;
  result <- Substrate.query substrate "System" "Account" [Py.Str address] ;;
  data <- lift (Py.getitem (QueryResult.value result) "data") ;;
  free <- lift (Py.getitem data "free") ;;
  ret (Py.str free).

End Methods.
End GlinContracts.

(** ** [glin_sdk/client.py] *)

Module GlinClient.
Section Methods.
Context `{SubstrateTypes} `{!SubstrateLibrary} `{Py.Builtins}.

Definition getattr {A} (self : ref) (field : Client.attrs -> A) : M A :=
  o <- deref self ;;
  match o with
  | GlinClientObj a => ret (field a)
  | _ => no_attribute
  end.

Definition setattr (self : ref) (assign : Client.attrs -> Client.attrs) : M unit :=
  o <- deref self ;;
  match o with
  | GlinClientObj a => store self (GlinClientObj (assign a))
  | _ => no_attribute
  end.

(** [self.substrate.<method>] when the attribute may still be [None]. *)
Definition connection (substrate : option SubstrateInterface.t) : M SubstrateInterface.t :=
  match substrate with
  | Some s => ret s
  | None => lift (Raise (Py.mkExc "AttributeError"
                           "'NoneType' object has no attribute"))
  end.

Definition __init__ (rpc_url : string) : M ref :=
  alloc (GlinClientObj {| Client.rpc_url := rpc_url; Client.substrate := None |}).

Definition default_rpc_url : string := "wss://rpc.glin.ai".

Definition connect (self : ref) : M unit :=
  substrate <- getattr self Client.substrate ;;
  if negb (truth substrate) then
    rpc_url <- getattr self Client.rpc_url ;;
    s <- Substrate.connect rpc_url ;;
    setattr self (Client.with_substrate (Some s))
  else ret tt.

Definition disconnect (self : ref) : M unit :=
  substrate <- getattr self Client.substrate ;;
  if truth substrate then
    s <- connection substrate ;;
    Substrate.close s ;;
    setattr self (Client.with_substrate None)
  else ret tt.

Definition _ensure_connected (self : ref) : M unit :=
  substrate <- getattr self Client.substrate ;;
  if negb (truth substrate) then connect self else ret tt.

Definition get_balance (self : ref) (address : string) : M Balance.t :=
  _ensure_connected self ;;
  substrate <- getattr self Client.substrate ;;
  s <- connection substrate ;;
  result <- Substrate.query s "System" "Account" [Py.Str address] ;;
  data <- lift (Py.getitem (QueryResult.value result) "data") ;;
  free <- lift (Py.getitem data "free") ;;
  reserved <- lift (Py.getitem data "reserved") ;;
  misc_frozen <- lift (Py.get data "miscFrozen" (Py.Int 0)) ;;
  frozen <- lift (Py.get data "frozen" misc_frozen) ;;
  free' <- lift (Py.getitem data "free") ;;
  reserved' <- lift (Py.getitem data "reserved") ;;
  total <- lift (Py.add free' reserved') ;;
  ret {| Balance.free := Py.str free;
         Balance.reserved := Py.str reserved;
         Balance.frozen := Py.str frozen;
         Balance.total := Py.str total |}.

Definition get_task (self : ref) (task_id : string) : M (option ChainTask.t) :=
  _ensure_connected self ;;
  try (
    substrate <- getattr self Client.substrate ;;
    s <- connection substrate ;;
    result <- Substrate.query s "TaskRegistry" "Tasks" [Py.Str task_id] ;;
    if negb (GlinContracts.is_not_None (QueryResult.value result)) then ret None else
    let task_data := QueryResult.value result in
    creator <- lift (Py.getitem task_data "creator") ;;
    bounty <- lift (Py.getitem task_data "bounty") ;;
    min_providers <- lift (Py.getitem task_data "minProviders") ;;
    min_providers <- lift (Py.int min_providers) ;;
    max_providers <- lift (Py.getitem task_data "maxProviders") ;;
    max_providers <- lift (Py.int max_providers) ;;
    ipfs_hash <- lift (Py.getitem task_data "ipfsHash") ;;
    status <- lift (Py.getitem task_data "status") ;;
    ret (Some {| ChainTask.id := task_id;
                 ChainTask.creator := Py.str creator;
                 ChainTask.bounty := Py.str bounty;
                 ChainTask.min_providers := min_providers;
                 ChainTask.max_providers := max_providers;
                 ChainTask.ipfs_hash := Py.str ipfs_hash;
                 ChainTask.status := Py.str status |})
  ) except e =>
    (print ("Error fetching task: " ++ Py.exc_str e) ;; ret None).

Definition get_provider (self : ref) (address : string) : M (option ChainProvider.t) :=
  _ensure_connected self ;;
  try (
    substrate <- getattr self Client.substrate ;;
    s <- connection substrate ;;
    result <- Substrate.query s "ProviderStaking" "Providers" [Py.Str address] ;;
    if negb (GlinContracts.is_not_None (QueryResult.value result)) then ret None else
    let provider_data := QueryResult.value result in
    stake <- lift (Py.getitem provider_data "stake") ;;
    reputation_score <- lift (Py.getitem provider_data "reputationScore") ;;
    reputation_score <- lift (Py.int reputation_score) ;;
    hardware_tier <- lift (Py.getitem provider_data "hardwareTier") ;;
    status <- lift (Py.getitem provider_data "status") ;;
    is_slashed <- lift (Py.getitem provider_data "isSlashed") ;;
    ret (Some {| ChainProvider.account := address;
                 ChainProvider.stake := Py.str stake;
                 ChainProvider.reputation_score := reputation_score;
                 ChainProvider.hardware_tier := Py.str hardware_tier;
                 ChainProvider.status := Py.str status;
                 ChainProvider.is_slashed := Py.bool_ is_slashed |})
  ) except e =>
    (print ("Error fetching provider: " ++ Py.exc_str e) ;; ret None).

Definition get_block_number (self : ref) : M Py.Val :=
  _ensure_connected self ;;
  substrate <- getattr self Client.substrate ;;
  s <- connection substrate ;;
  header <- Substrate.get_block_header s ;;
  inner <- lift (Py.getitem header "header") ;;
  lift (Py.getitem inner "number").

Definition __enter__ (self : ref) : M ref :=
  connect self ;;
  ret self.

Definition __exit__ (self : ref) : M unit :=
  disconnect self.

End Methods.
End GlinClient.

(** ** The mutating entry points of the three wrappers, as one type *)

Module Mutation.
Inductive t :=
| create_agreement (params : CreateAgreementParams.t)
| complete_milestone (agreement_id : string) (milestone_index : Z)
| approve_and_release (agreement_id : string) (milestone_index : Z)
| raise_dispute (agreement_id : string) (milestone_index : Z)
| resolve_dispute (agreement_id : string) (milestone_index : Z) (release_to_provider : bool)
| register (params : RegisterProfessionalParams.t)
| increase_stake (additional_stake : string)
| submit_review (params : SubmitReviewParams.t)
| withdraw_stake
| register_arbitrator (stake_amount : string)
| increase_arbitrator_stake (additional_stake : string)
| create_dispute (params : CreateDisputeParams.t)
| start_voting (dispute_id : string)
| vote (params : VoteParams.t)
| finalize_dispute (dispute_id : string)
| appeal_dispute (dispute_id : string).

(** [await wrapper.<op>(..., gas_limit)] *)
Definition call `{SubstrateTypes} `{Py.Builtins} (op : t) (self : ref)
    (gas_limit : option Z) : M ContractResult.t :=
  match op with
  | create_agreement p => EscrowContract.create_agreement self p gas_limit
  | complete_milestone i k => EscrowContract.complete_milestone self i k gas_limit
  | approve_and_release i k => EscrowContract.approve_and_release self i k gas_limit
  | raise_dispute i k => EscrowContract.raise_dispute self i k gas_limit
  | resolve_dispute i k b => EscrowContract.resolve_dispute self i k b gas_limit
  | register p => RegistryContract.register self p gas_limit
  | increase_stake s => RegistryContract.increase_stake self s gas_limit
  | submit_review p => RegistryContract.submit_review self p gas_limit
  | withdraw_stake => RegistryContract.withdraw_stake self gas_limit
  | register_arbitrator s => ArbitrationContract.register_arbitrator self s gas_limit
  | increase_arbitrator_stake s =>
      ArbitrationContract.increase_arbitrator_stake self s gas_limit
  | create_dispute p => ArbitrationContract.create_dispute self p gas_limit
  | start_voting d => ArbitrationContract.start_voting self d gas_limit
  | vote p => ArbitrationContract.vote self p gas_limit
  | finalize_dispute d => ArbitrationContract.finalize_dispute self d gas_limit
  | appeal_dispute d => ArbitrationContract.appeal_dispute self d gas_limit
  end.
End Mutation.

(** An exception [e] that some call on the connection [s] can raise. *)
Definition library_raises `{SubstrateTypes} (s : SubstrateInterface.t) (e : Py.Exc) : Prop :=
  (exists a b p w, (SubstrateInterface.compose_call s a b p w).1 = Raise e)
  \/ (exists c k w, (SubstrateInterface.create_signed_extrinsic s c k w).1 = Raise e)
  \/ (exists x b w, (SubstrateInterface.submit_extrinsic s x b w).1 = Raise e).

(** What the node answers to a query: an exception, or no value. *)
Definition raises {A W} (answer : Result A * W) : Prop :=
  exists e w, answer = (Raise e, w).

Definition absent {W} (answer : Result QueryResult.t * W) : Prop :=
  exists result w, answer = (Ok result, w) /\ QueryResult.value result = Py.None_.

(** ** A test node

    A stand-in for the library, in the manner of the mocks of
    [contracts/tests/test_client.py]: the world is the number of
    extrinsics included so far, a call is its parameters, an extrinsic a
    call with its signer.  [answer] is what every storage query gets and
    [included] whether a submitted extrinsic succeeds. *)

Module Demo.

Definition types : SubstrateTypes :=
  {| World := nat;
     Keypair := string;
     GenericCall := CallParams.t;
     GenericExtrinsic := CallParams.t * option string;
     ContractInstance := unit |}.

Definition builtins : Py.Builtins :=
  {| Py.int_of_str := fun s =>
       match Py.read_decimal s with
       | Some z => Ok z
       | None => Raise (Py.mkExc "ValueError"
                          ("invalid literal for int() with base 10: '" ++ s ++ "'"))
       end;
     Py.repr_container := fun _ => "{...}" |}.

Definition node (answer : Result QueryResult.t) (included : bool)
    : @SubstrateInterface.t types :=
  @SubstrateInterface.Build_t types
    (fun _ _ _ w => (answer, w))
    (fun _ _ p w => (Ok p, w))
    (fun c k w => (Ok (c, k), w))
    (fun _ _ w =>
       (Ok {| ExtrinsicReceipt.is_success := included;
              ExtrinsicReceipt.triggered_events := [] |}, S w))
    (fun w => (Ok (Py.Dict [("header", Py.Dict [("number", Py.Int (Z.of_nat w))])]), w))
    (fun w => (Ok tt, w)).

Definition library (answer : Result QueryResult.t) : @SubstrateLibrary types :=
  @Build_SubstrateLibrary types (fun _ w => (Ok (node answer true), w)).

Definition boot : @Machine.t types :=
  @Machine.Build_t types ∅ 0%nat [] [].

Definition alice : string := "5GrwvaEF5zXb26Fz9rcQpDWS57CtERHpNehXCPcNoHGKutQY".
Definition bob : string := "5FHneW46xGXgs5mUiveU4sbTyGBzmstUspZC92UhjJM694ty".

Definition query_failed : Result QueryResult.t :=
  Raise (Py.mkExc "Exception" "Query failed").

Definition account (free reserved : Z) : Result QueryResult.t :=
  Ok {| QueryResult.value :=
          Py.Dict [("nonce", Py.Int 0);
                   ("data", Py.Dict [("free", Py.Int free);
                                     ("reserved", Py.Int reserved);
                                     ("frozen", Py.Int 0)])] |}.

(** The session of the tests: [GlinContracts(substrate, keypair=alice,
    escrow_address="5Escrow...", registry_address="5Registry...",
    arbitration_address="5Arbitration...")], then [GlinClient()] and
    [connect()], on an empty store. *)
Definition session_run (answer : Result QueryResult.t)
    : Result (ref * ref) * @Machine.t types :=
  (contracts <- @GlinContracts.__init__ types (node answer true) (Some alice)
                  (Some "5Escrow...") (Some "5Registry...") (Some "5Arbitration...") ;;
   client <- @GlinClient.__init__ types GlinClient.default_rpc_url ;;
   @GlinClient.connect types (library answer) client ;;
   ret (contracts, client)) boot.

Definition session (answer : Result QueryResult.t) : @Machine.t types :=
  (session_run answer).2.

(** The references the session hands out, in allocation order. *)
Definition escrow : ref := 1%positive.
Definition registry : ref := 2%positive.
Definition arbitration : ref := 3%positive.
Definition contracts : ref := 4%positive.
Definition client : ref := 5%positive.

(** The attributes of the session's objects. *)
Definition wrapper (answer : Result QueryResult.t) (address : string)
    (keypair : option string) : @Wrapper.attrs types :=
  @Wrapper.Build_attrs types (node answer true) (Some address) keypair None.

Definition bundle (answer : Result QueryResult.t) (keypair : option string)
    : @Contracts.attrs types :=
  @Contracts.Build_attrs types (node answer true) keypair escrow registry arbitration.

Definition connected (answer : Result QueryResult.t) : @Client.attrs types :=
  @Client.Build_attrs types GlinClient.default_rpc_url (Some (node answer true)).

(** The example of [create_agreement]'s docstring. *)
Definition agreement_params : CreateAgreementParams.t :=
  {| CreateAgreementParams.provider := bob;
     CreateAgreementParams.milestone_descriptions := ["Design"; "Development"];
     CreateAgreementParams.milestone_amounts :=
       ["500000000000000000000"; "1500000000000000000000"];
     CreateAgreementParams.milestone_deadlines := [1234567890; 1234567890];
     CreateAgreementParams.dispute_timeout := 1234567890;
     CreateAgreementParams.oracle := None;
     CreateAgreementParams.value := "2000000000000000000000" |}.

Definition review (rating : Z) : SubmitReviewParams.t :=
  {| SubmitReviewParams.professional := bob;
     SubmitReviewParams.rating := rating;
     SubmitReviewParams.comment := "Excellent service!" |}.

End Demo.

(** ** What the sixteen mutating methods have in common

    Each method checks the two attributes, builds one [Contracts.call]
    and submits it.  The methods differ in the amount they attach, in
    their default gas and, for [submit_review], in a check of the
    rating.  [Wire.submit] is that common body, written once; it is
    compared with the sixteen bodies of the source below. *)

Module Wire.

(** The string a method passes through [int] as the call's [value]. *)
Definition amount (op : Mutation.t) : option string :=
  match op with
  | Mutation.create_agreement p => Some (CreateAgreementParams.value p)
  | Mutation.register p => Some (RegisterProfessionalParams.stake_amount p)
  | Mutation.increase_stake s => Some s
  | Mutation.register_arbitrator s => Some s
  | Mutation.increase_arbitrator_stake s => Some s
  | _ => None
  end.

(** The [ref_time] a method uses when [gas_limit] is [None] or 0. *)
Definition ref_time (op : Mutation.t) : Z :=
  match op with
  | Mutation.create_agreement _ => 100000000000
  | Mutation.create_dispute _ => 60000000000
  | Mutation.withdraw_stake | Mutation.start_voting _ => 40000000000
  | Mutation.increase_stake _ | Mutation.increase_arbitrator_stake _ => 30000000000
  | _ => 50000000000
  end.

(** The [proof_size] a method always uses. *)
Definition proof_size (op : Mutation.t) : Z :=
  match op with
  | Mutation.create_agreement _ => 100000
  | Mutation.create_dispute _ => 60000
  | Mutation.withdraw_stake | Mutation.start_voting _ => 40000
  | Mutation.increase_stake _ | Mutation.increase_arbitrator_stake _ => 30000
  | _ => 50000
  end.

(** The local check a method makes of its arguments: only
    [submit_review] has one. *)
Definition admitted (op : Mutation.t) : bool :=
  match op with
  | Mutation.submit_review p =>
      negb (Z.ltb (SubmitReviewParams.rating p) 1 || Z.gtb (SubmitReviewParams.rating p) 5)
  | _ => true
  end.

Section Submit.
Context `{SubstrateTypes} `{Py.Builtins}.

(** The [call_params] of the one call a method composes. *)
Definition call_params (dest : option string) (value : Z) (gas_limit : option Z)
    (ref_time proof_size : Z) : CallParams.t :=
  {| CallParams.dest := dest;
     CallParams.value := value;
     CallParams.gas_limit :=
       {| CallParams.ref_time := Py.or_ gas_limit ref_time;
          CallParams.proof_size := proof_size |};
     CallParams.storage_deposit_limit := None;
     CallParams.data := [] |}.

Definition submit (amount : option string) (ref_time proof_size : Z) (self : ref)
    (gas_limit : option Z) : M ContractResult.t :=
  contract_address <- getattr self Wrapper.contract_address ;;
  if negb (truth contract_address) then
    ret (ContractResult.make false None (Some "Contract not initialized"))
  else
  keypair <- getattr self Wrapper.keypair ;;
  if negb (truth keypair) then
    ret (ContractResult.make false None (Some "Keypair not set"))
  else
  try (
    substrate <- getattr self Wrapper.substrate ;;
    dest <- getattr self Wrapper.contract_address ;;
    value <- match amount with
             | Some s => lift (Py.int (Py.Str s))
             | None => ret 0
             end ;;
    call <- Substrate.compose_call substrate "Contracts" "call"
              (call_params dest value gas_limit ref_time proof_size) ;;
    substrate <- getattr self Wrapper.substrate ;;
    keypair <- getattr self Wrapper.keypair ;;
    extrinsic <- Substrate.create_signed_extrinsic substrate call keypair ;;
    substrate <- getattr self Wrapper.substrate ;;
    receipt <- Substrate.submit_extrinsic substrate extrinsic true ;;
    ret (ContractResult.make (ExtrinsicReceipt.is_success receipt) None
           (if ExtrinsicReceipt.is_success receipt then None else Some "Transaction failed"))
  ) except e =>
    ret (ContractResult.make false None (Some (Py.exc_str e))).

(** The [value] a call carries: [int] of the amount, 0 without one. *)
Definition attached (amount : option string) (value : Z) : Prop :=
  match amount with
  | Some s => Py.int (Py.Str s) = Ok value
  | None => value = 0
  end.

End Submit.

(** The calls a method can have made when it returns: none, or a prefix
    of compose, sign, submit-and-wait. *)
Inductive trace `{SubstrateTypes} (p : CallParams.t) (signer : option Keypair)
    : list Action.t -> Prop :=
| nothing_sent : trace p signer []
| composed : trace p signer [Action.ComposeCall "Contracts" "call" p]
| signed (call : GenericCall) :
    trace p signer [Action.ComposeCall "Contracts" "call" p;
                    Action.CreateSignedExtrinsic call signer]
| submitted (call : GenericCall) (extrinsic : GenericExtrinsic) :
    trace p signer [Action.ComposeCall "Contracts" "call" p;
                    Action.CreateSignedExtrinsic call signer;
                    Action.SubmitExtrinsic extrinsic true].

End Wire.

(** ** [glin_sdk/auth.py]

    [Keypair(ss58_address=...)] and [keypair.verify(message, signature)]
    are computations of the library that return or raise;
    [datetime.utcnow().isoformat()] reads the clock of the world. *)

Module GlinAccount.
Record t := { address : string; name : option string }.
End GlinAccount.

Class AuthLibrary `{SubstrateTypes} := {
  keypair_of_address : string -> Result Keypair;
  keypair_verify : Keypair -> string -> string -> Result bool;
  utcnow_isoformat : World -> string * World
}.

Module GlinAuth.
Section Methods.
Context `{SubstrateTypes} `{!AuthLibrary}.

Definition verify_signature (address message signature : string) : M bool :=
  try (
    keypair <- lift (keypair_of_address address) ;;
    lift (keypair_verify keypair message signature)
  ) except e =>
    (print ("Signature verification failed: " ++ Py.exc_str e) ;; ret false).

(** [datetime.utcnow().isoformat()] *)
Definition utcnow : M string :=
  fun m =>
    let (timestamp, w) := utcnow_isoformat (Machine.world m) in
    (Ok timestamp,
     {| Machine.heap := Machine.heap m; Machine.world := w;
        Machine.calls := Machine.calls m; Machine.stdout := Machine.stdout m |}).

Definition default_app_name : string := "GLIN Application".

(** The line feed of the f-string's [\n]. *)
Definition nl : string := String (Ascii.ascii_of_nat 10) EmptyString.

Definition generate_auth_message (app_name : string) : M string :=
  timestamp <- utcnow ;;
  ret ("Sign in to " ++ app_name ++ nl ++ nl
       ++ "Timestamp: " ++ timestamp ++ nl ++ nl
       ++ "This signature will not trigger a blockchain transaction or cost any fees.").

Definition create_account (address : string) (name : option string) : GlinAccount.t :=
  {| GlinAccount.address := address; GlinAccount.name := name |}.

End Methods.
End GlinAuth.

(** ** More of the test session *)

Module Scenario.

(** [GlinContracts(substrate)]: no keypair, no address. *)
Definition bare (answer : Result QueryResult.t) : @Machine.t Demo.types :=
  (@GlinContracts.__init__ Demo.types (Demo.node answer true) None None None None
     Demo.boot).2.

(** The attributes of each wrapper of [bare]. *)
Definition unset (answer : Result QueryResult.t) : @Wrapper.attrs Demo.types :=
  @Wrapper.Build_attrs Demo.types (Demo.node answer true) None None None.

(** A registration whose stake is written in scientific notation. *)
Definition registration (stake_amount : string) : RegisterProfessionalParams.t :=
  {| RegisterProfessionalParams.role := ProfessionalRole.LAWYER;
     RegisterProfessionalParams.metadata_uri := "ipfs://metadata";
     RegisterProfessionalParams.stake_amount := stake_amount |}.

(** [GlinClient()] alone: not yet connected. *)
Definition fresh_client : @Machine.t Demo.types :=
  (@GlinClient.__init__ Demo.types GlinClient.default_rpc_url Demo.boot).2.

Definition unconnected : @Client.attrs Demo.types :=
  @Client.Build_attrs Demo.types GlinClient.default_rpc_url None.

(** A task record without its ["status"]. *)
Definition partial_task : list (string * Py.Val) :=
  [("creator", Py.Str Demo.alice); ("bounty", Py.Int 5000);
   ("minProviders", Py.Int 1); ("maxProviders", Py.Int 4);
   ("ipfsHash", Py.Str "Qm...")].

(** An account whose balances the node returns as strings. *)
Definition text_account : list (string * Py.Val) :=
  [("data", Py.Dict [("free", Py.Str "1000"); ("reserved", Py.Str "234")])].

Definition answer (value : Py.Val) : Result QueryResult.t :=
  Ok {| QueryResult.value := value |}.

(** A library that accepts any non-empty address, verifies the one
    signature ["0xsigned"], refuses an empty signature, and whose clock
    stands still. *)
Definition auth : @AuthLibrary Demo.types :=
  @Build_AuthLibrary Demo.types
    (fun address =>
       if truth address then Ok address
       else Raise (Py.mkExc "ValueError" "Invalid SS58 format"))
    (fun _ _ signature =>
       if truth signature then Ok (String.eqb signature "0xsigned")
       else Raise (Py.mkExc "ValueError" "Invalid signature"))
    (fun w => ("2024-01-01T12:00:00.000000", w)).

End Scenario.

(** * Properties *)

Section Properties.
Context `{types : SubstrateTypes} `{library : !SubstrateLibrary}
  `{builtins : Py.Builtins}.

(** ** Symbolic execution of method bodies *)

Lemma truth_connection (s : SubstrateInterface.t) : truth (Some s) = true.
Proof. reflexivity. Qed.

Ltac py_unfold :=
  unfold Substrate.compose_call, Substrate.create_signed_extrinsic,
    Substrate.submit_extrinsic, Substrate.query, Substrate.get_block_header,
    getattr, setattr, GlinContracts.getattr, GlinContracts.setattr,
    GlinClient.getattr, GlinClient.setattr, GlinClient.connection, no_attribute,
    deref, store, invoke, print, try_except, lift, bind, ret in *.

Ltac py_known :=
  repeat match goal with
  | E : truth ?x = _ |- context [truth ?x] => rewrite E
  | E : Client.substrate ?a = _ |- context [Client.substrate ?a] => rewrite E
  end.

(** The next answer of the world: one case per way a call can end. *)
Ltac py_answer :=
  match goal with
  | |- context [truth ?x] => destruct (truth x) eqn:?
  | |- context [Py.int_of_str ?s] => destruct (Py.int_of_str s) eqn:?
  | |- context [SubstrateInterface.compose_call ?s ?a ?b ?c ?w] =>
      destruct (SubstrateInterface.compose_call s a b c w) as [[?|?] ?] eqn:?
  | |- context [SubstrateInterface.create_signed_extrinsic ?s ?a ?b ?w] =>
      destruct (SubstrateInterface.create_signed_extrinsic s a b w) as [[?|?] ?] eqn:?
  | |- context [SubstrateInterface.submit_extrinsic ?s ?a ?b ?w] =>
      destruct (SubstrateInterface.submit_extrinsic s a b w) as [[?|?] ?] eqn:?
  | |- context [ExtrinsicReceipt.is_success ?r] =>
      destruct (ExtrinsicReceipt.is_success r) eqn:?
  | |- context [SubstrateInterface.query ?s ?a ?b ?c ?w] =>
      destruct (SubstrateInterface.query s a b c w) as [[?|?] ?] eqn:?
  | |- context [SubstrateInterface.get_block_header ?s ?w] =>
      destruct (SubstrateInterface.get_block_header s w) as [[?|?] ?] eqn:?
  | |- context [GlinContracts.is_not_None ?v] =>
      destruct (GlinContracts.is_not_None v) eqn:?
  | |- context [Py.getitem ?v ?k] => destruct (Py.getitem v k) eqn:?
  | |- context [Py.int ?v] => destruct (Py.int v) eqn:?
  end.

Ltac py_run Hself :=
  py_unfold;
  repeat (cbn -[truth Py.or_ Py.int Py.getitem Py.str GlinContracts.is_not_None];
          rewrite ?Hself; py_known; rewrite ?truth_connection; try py_answer).

Lemma read_decimal_str_int (z : Z) : Py.read_decimal (Py.str_int z) = Some z.
Proof.
  unfold Py.read_decimal, Py.str_int.
  rewrite NilZero.isi.
  - cbn. f_equal. apply DecimalZ.of_to.
  - destruct z; cbn; try discriminate.
    intros E. injection E. apply DecimalPos.Unsigned.to_uint_nonnil.
  - destruct z; cbn; try discriminate.
    intros E. injection E. apply DecimalPos.Unsigned.to_uint_nonnil.
Qed.

(** Every storage getter of the wrappers has this body, up to its
    default [d] and the text it would print. *)
Lemma stub_getter_run {A} (d : A) (msg : string) (m : Machine.t) self c a :
  Machine.heap m !! self = Some (WrapperObj c a) ->
  (contract_address <- getattr self Wrapper.contract_address ;;
   if negb (truth contract_address) then ret d else
   try ret d
   except e => (print (msg ++ Py.exc_str e) ;; ret d)) m = (Ok d, m).
Proof. intros Hself. py_run Hself; reflexivity. Qed.

Lemma get_review_count_run (m : Machine.t) self c a professional :
  Machine.heap m !! self = Some (WrapperObj c a) ->
  RegistryContract.get_review_count self professional m = (Ok 0, m).
Proof. apply stub_getter_run. Qed.

Lemma rating_rejected (rating : Z) :
  rating < 1 \/ rating > 5 -> Z.ltb rating 1 || Z.gtb rating 5 = true.
Proof.
  intros [Hlo | Hhi]; apply orb_true_iff; [left | right].
  - now apply Z.ltb_lt.
  - apply Z.gtb_gt. lia.
Qed.

Lemma rating_accepted (rating : Z) :
  1 <= rating <= 5 -> Z.ltb rating 1 || Z.gtb rating 5 = false.
Proof.
  intros [Hlo Hhi]. apply orb_false_iff. split.
  - apply Z.ltb_ge. lia.
  - rewrite Z.gtb_ltb. apply Z.ltb_ge. lia.
Qed.

(** C1. With the contract address and the keypair set,
    [RegistryContract.submit_review] answers a rating below 1 or above 5
    with the failed result "Rating must be between 1 and 5" and leaves
    the machine as it was: nothing was called on the library.  A rating
    from 1 to 5, the bounds 1 and 5 included, passes the check: the
    library's [compose_call] is the next thing called, and an error text
    in the result is "Transaction failed" or the text of an exception one
    of the library's calls raised. *)
Theorem submit_review_validates_rating (m : Machine.t) (self : ref) (c : Wrapper.class)
    (a : Wrapper.attrs) (params : SubmitReviewParams.t) (gas_limit : option Z) :
  Machine.heap m !! self = Some (WrapperObj c a) ->
  truth (Wrapper.contract_address a) = true ->
  truth (Wrapper.keypair a) = true ->
  let rating := SubmitReviewParams.rating params in
  (rating < 1 \/ rating > 5 ->
     RegistryContract.submit_review self params gas_limit m
     = (Ok (ContractResult.make false None (Some "Rating must be between 1 and 5")), m))
  /\ (1 <= rating <= 5 ->
      exists r m' rest,
        RegistryContract.submit_review self params gas_limit m = (Ok r, m')
        /\ Machine.calls m'
           = (Machine.calls m
              ++ Action.ComposeCall "Contracts" "call"
                   {| CallParams.dest := Wrapper.contract_address a;
                      CallParams.value := 0;
                      CallParams.gas_limit :=
                        {| CallParams.ref_time := Py.or_ gas_limit 50000000000;
                           CallParams.proof_size := 50000 |};
                      CallParams.storage_deposit_limit := None;
                      CallParams.data := [] |} :: rest)%list
        /\ (ContractResult.error r = None
            \/ ContractResult.error r = Some "Transaction failed"
            \/ exists e, ContractResult.error r = Some (Py.exc_str e)
                         /\ library_raises (Wrapper.substrate a) e)).
Proof.
  intros Hself Haddr Hkey rating. split.
  - intros Hr. apply rating_rejected in Hr.
    unfold RegistryContract.submit_review. py_run Hself.
    fold rating. rewrite Hr. reflexivity.
  - intros Hr. apply rating_accepted in Hr.
    unfold RegistryContract.submit_review. py_run Hself.
    all: fold rating; rewrite Hr; py_run Hself.
    all: eexists _, _, _; split; [reflexivity |]; cbn.
    all: split; [rewrite <- ?app_assoc; cbn; reflexivity |].
    all: try (left; reflexivity).
    all: try (right; left; reflexivity).
    all: right; right; eexists; split; [reflexivity |]; unfold library_raises.
    all: match goal with
         | E : SubstrateInterface.compose_call _ _ _ _ _ = (Raise _, _) |- _ =>
             left; do 4 eexists; rewrite E; reflexivity
         | E : SubstrateInterface.create_signed_extrinsic _ _ _ _ = (Raise _, _) |- _ =>
             right; left; do 3 eexists; rewrite E; reflexivity
         | E : SubstrateInterface.submit_extrinsic _ _ _ _ = (Raise _, _) |- _ =>
             right; right; do 3 eexists; rewrite E; reflexivity
         end.
Qed.

(** C3. [_encode_call] of the escrow, registry and arbitration wrappers
    returns the empty byte string for every method name and every
    argument tuple. *)
Theorem encode_call_returns_empty (self : ref) (method : string) (args : list Py.Val) :
  EscrowContract._encode_call self method args = []
  /\ RegistryContract._encode_call self method args = []
  /\ ArbitrationContract._encode_call self method args = [].
Proof. repeat split. Qed.

(** C5. Call-data encoding is deterministic.  Take two invocations of
    [_encode_call] with the same method name and the same arguments, on
    wrappers of one class: on whichever instances, with whatever
    attributes, and in whatever states of the store, of the node and of
    standard output they are made, both return, they return the same
    bytes, and neither changes anything. *)
Theorem encode_call_deterministic (m m' : Machine.t) (self self' : ref)
    (c : Wrapper.class) (a a' : Wrapper.attrs) (method : string) (args : list Py.Val) :
  Machine.heap m !! self = Some (WrapperObj c a) ->
  Machine.heap m' !! self' = Some (WrapperObj c a') ->
  exists data,
    Method._encode_call self method args m = (Ok data, m)
    /\ Method._encode_call self' method args m' = (Ok data, m').
Proof.
  intros Hself Hself'. unfold Method._encode_call. py_unfold. cbn.
  rewrite Hself, Hself'. destruct c; eexists; split; reflexivity.
Qed.

(** C4. Whatever the arguments and whatever the state of the chain,
    every storage getter of the wrappers returns its fixed default and
    touches nothing: [None] for the seven object getters, 0 for the two
    counts, ["0"] for [get_min_stake], [False] for the two activity
    checks. *)
Theorem storage_getters_return_defaults (m : Machine.t) (self : ref) (c : Wrapper.class)
    (a : Wrapper.attrs) (account agreement_id dispute_id : string) (index : Z)
    (role : ProfessionalRole.t) :
  Machine.heap m !! self = Some (WrapperObj c a) ->
  RegistryContract.get_profile self account m = (Ok None, m)
  /\ RegistryContract.get_review self account index m = (Ok None, m)
  /\ EscrowContract.get_agreement self agreement_id m = (Ok None, m)
  /\ EscrowContract.get_milestone self agreement_id index m = (Ok None, m)
  /\ ArbitrationContract.get_dispute self dispute_id m = (Ok None, m)
  /\ ArbitrationContract.get_arbitrator self account m = (Ok None, m)
  /\ ArbitrationContract.get_vote self dispute_id account m = (Ok None, m)
  /\ RegistryContract.get_review_count self account m = (Ok 0, m)
  /\ EscrowContract.get_milestone_count self agreement_id m = (Ok 0, m)
  /\ RegistryContract.get_min_stake self role m = (Ok "0", m)
  /\ RegistryContract.is_active_professional self account m = (Ok false, m)
  /\ ArbitrationContract.is_active_arbitrator self account m = (Ok false, m).
Proof.
  intros Hself. repeat split; eapply stub_getter_run; exact Hself.
Qed.

(** The loop of [get_all_reviews] appends nothing, however many indices
    it is given: [get_review] finds no review at any of them. *)
Lemma review_loop_appends_nothing (m : Machine.t) (self : ref) (c : Wrapper.class)
    (a : Wrapper.attrs) (professional : string) (indices : list Z)
    (reviews : list Review.t) :
  Machine.heap m !! self = Some (WrapperObj c a) ->
  for_each indices
    (fun i (reviews : list Review.t) =>
       review <- RegistryContract.get_review self professional i ;;
       if truth review then
         ret (reviews ++ match review with Some r => [r] | None => [] end)%list
       else ret reviews)
    reviews m
  = (Ok reviews, m).
Proof.
  intros Hself. induction indices as [| i indices IH]; [reflexivity |].
  cbn [for_each]. unfold bind at 1. unfold bind at 1.
  replace (RegistryContract.get_review self professional i m) with
    (@Ok (option Review.t) None, m)
    by (symmetry; eapply stub_getter_run; exact Hself).
  cbn. exact IH.
Qed.

(** C10. [RegistryContract.get_all_reviews] returns the empty list for
    every professional: the count it loops over is 0, and no index holds
    a review. *)
Theorem get_all_reviews_is_empty (m : Machine.t) (self : ref) (c : Wrapper.class)
    (a : Wrapper.attrs) (professional : string) :
  Machine.heap m !! self = Some (WrapperObj c a) ->
  RegistryContract.get_all_reviews self professional m = (Ok [], m).
Proof.
  intros Hself. unfold RegistryContract.get_all_reviews.
  unfold bind at 1. rewrite (get_review_count_run m self c a professional Hself).
  cbv zeta. eapply review_loop_appends_nothing. exact Hself.
Qed.

(** C6. Every mutating operation of the three wrappers returns a
    [ContractResult] and never raises.  With the contract address unset
    the result is the failure "Contract not initialized", with the
    address set and the keypair unset it is the failure "Keypair not
    set", and in both cases the machine is left as it was: nothing was
    submitted.  A result with [success = False] always carries an
    error. *)
Theorem mutating_operations_return_contract_result (op : Mutation.t) (m : Machine.t)
    (self : ref) (c : Wrapper.class) (a : Wrapper.attrs) (gas_limit : option Z) :
  Machine.heap m !! self = Some (WrapperObj c a) ->
  exists r m',
    Mutation.call op self gas_limit m = (Ok r, m')
    /\ (truth (Wrapper.contract_address a) = false ->
        r = ContractResult.make false None (Some "Contract not initialized") /\ m' = m)
    /\ (truth (Wrapper.contract_address a) = true ->
        truth (Wrapper.keypair a) = false ->
        r = ContractResult.make false None (Some "Keypair not set") /\ m' = m)
    /\ (ContractResult.success r = false -> ContractResult.error r <> None).
Proof.
  intros Hself.
  destruct op; cbn [Mutation.call];
    unfold EscrowContract.create_agreement, EscrowContract.complete_milestone,
      EscrowContract.approve_and_release, EscrowContract.raise_dispute,
      EscrowContract.resolve_dispute, RegistryContract.register,
      RegistryContract.increase_stake, RegistryContract.submit_review,
      RegistryContract.withdraw_stake, ArbitrationContract.register_arbitrator,
      ArbitrationContract.increase_arbitrator_stake, ArbitrationContract.create_dispute,
      ArbitrationContract.start_voting, ArbitrationContract.vote,
      ArbitrationContract.finalize_dispute, ArbitrationContract.appeal_dispute;
    py_run Hself;
    try (destruct (Z.ltb _ 1 || Z.gtb _ 5); py_run Hself).
  all: eexists _, _; split; [reflexivity |]; cbn.
  all: repeat split; intros; congruence.
Qed.

(** Once the node has included the extrinsic, [create_agreement] reports
    success with no identifier, whatever events the receipt carries:
    [_extract_agreement_id] does not read them. *)
Lemma create_agreement_included (m : Machine.t) (self : ref) (c : Wrapper.class)
    (a : Wrapper.attrs) (params : CreateAgreementParams.t) (gas_limit : option Z)
    (value : Z) (call : GenericCall) (extrinsic : GenericExtrinsic)
    (receipt : ExtrinsicReceipt.t) (w1 w2 w3 : World) :
  Machine.heap m !! self = Some (WrapperObj c a) ->
  truth (Wrapper.contract_address a) = true ->
  truth (Wrapper.keypair a) = true ->
  Py.int_of_str (CreateAgreementParams.value params) = Ok value ->
  SubstrateInterface.compose_call (Wrapper.substrate a) "Contracts" "call"
    {| CallParams.dest := Wrapper.contract_address a;
       CallParams.value := value;
       CallParams.gas_limit :=
         {| CallParams.ref_time := Py.or_ gas_limit 100000000000;
            CallParams.proof_size := 100000 |};
       CallParams.storage_deposit_limit := None;
       CallParams.data := [] |} (Machine.world m) = (Ok call, w1) ->
  SubstrateInterface.create_signed_extrinsic (Wrapper.substrate a) call
    (Wrapper.keypair a) w1 = (Ok extrinsic, w2) ->
  SubstrateInterface.submit_extrinsic (Wrapper.substrate a) extrinsic true w2
  = (Ok receipt, w3) ->
  ExtrinsicReceipt.is_success receipt = true ->
  (EscrowContract.create_agreement self params gas_limit m).1
  = Ok (ContractResult.make true None None).
Proof.
  intros Hself Haddr Hkey Hvalue Hcall Hsign Hsubmit Hok.
  unfold EscrowContract.create_agreement, EscrowContract._encode_call. py_unfold.
  repeat (cbn -[truth Py.or_]; rewrite ?Hself; py_known;
          rewrite ?Hvalue, ?Hcall, ?Hsign, ?Hsubmit, ?Hok).
  reflexivity.
Qed.

(** ** Readers that query the node *)

Lemma is_contract_handles (m : Machine.t) (self : ref) (a : Contracts.attrs)
    (address : string) :
  Machine.heap m !! self = Some (GlinContractsObj a) ->
  exists b m',
    GlinContracts.is_contract self address m = (Ok b, m')
    /\ (forall e w,
          SubstrateInterface.query (Contracts.substrate a) "Contracts" "ContractInfoOf"
            [Py.Str address] (Machine.world m) = (Raise e, w) -> b = false)
    /\ (forall result w,
          SubstrateInterface.query (Contracts.substrate a) "Contracts" "ContractInfoOf"
            [Py.Str address] (Machine.world m) = (Ok result, w) ->
          QueryResult.value result = Py.None_ -> b = false).
Proof.
  intros Hself. unfold GlinContracts.is_contract. py_run Hself.
  all: eexists _, _; split; [reflexivity |].
  all: split; intros; simplify_eq; try reflexivity.
  match goal with
  | E : GlinContracts.is_not_None _ = true, V : QueryResult.value _ = Py.None_ |- _ =>
      rewrite V in E; discriminate
  end.
Qed.

Lemma get_task_handles (m : Machine.t) (self : ref) (a : Client.attrs)
    (s : SubstrateInterface.t) (task_id : string) :
  Machine.heap m !! self = Some (GlinClientObj a) ->
  Client.substrate a = Some s ->
  exists r m',
    GlinClient.get_task self task_id m = (Ok r, m')
    /\ (forall e w,
          SubstrateInterface.query s "TaskRegistry" "Tasks" [Py.Str task_id]
            (Machine.world m) = (Raise e, w) -> r = None)
    /\ (forall result w,
          SubstrateInterface.query s "TaskRegistry" "Tasks" [Py.Str task_id]
            (Machine.world m) = (Ok result, w) ->
          QueryResult.value result = Py.None_ -> r = None).
Proof.
  intros Hself Hs.
  unfold GlinClient.get_task, GlinClient._ensure_connected, GlinClient.connect.
  py_run Hself.
  all: eexists _, _; split; [reflexivity |].
  all: split; intros; simplify_eq; try reflexivity.
  all: match goal with
       | E : GlinContracts.is_not_None _ = true, V : QueryResult.value _ = Py.None_ |- _ =>
           rewrite V in E; discriminate
       end.
Qed.

Lemma get_provider_handles (m : Machine.t) (self : ref) (a : Client.attrs)
    (s : SubstrateInterface.t) (address : string) :
  Machine.heap m !! self = Some (GlinClientObj a) ->
  Client.substrate a = Some s ->
  exists r m',
    GlinClient.get_provider self address m = (Ok r, m')
    /\ (forall e w,
          SubstrateInterface.query s "ProviderStaking" "Providers" [Py.Str address]
            (Machine.world m) = (Raise e, w) -> r = None)
    /\ (forall result w,
          SubstrateInterface.query s "ProviderStaking" "Providers" [Py.Str address]
            (Machine.world m) = (Ok result, w) ->
          QueryResult.value result = Py.None_ -> r = None).
Proof.
  intros Hself Hs.
  unfold GlinClient.get_provider, GlinClient._ensure_connected, GlinClient.connect.
  py_run Hself.
  all: eexists _, _; split; [reflexivity |].
  all: split; intros; simplify_eq; try reflexivity.
  all: match goal with
       | E : GlinContracts.is_not_None _ = true, V : QueryResult.value _ = Py.None_ |- _ =>
           rewrite V in E; discriminate
       end.
Qed.

Lemma get_balance_propagates (m : Machine.t) (self : ref) (a : Client.attrs)
    (s : SubstrateInterface.t) (address : string) (e : Py.Exc) (w : World) :
  Machine.heap m !! self = Some (GlinClientObj a) ->
  Client.substrate a = Some s ->
  SubstrateInterface.query s "System" "Account" [Py.Str address] (Machine.world m)
  = (Raise e, w) ->
  exists m', GlinClient.get_balance self address m = (Raise e, m').
Proof.
  intros Hself Hs Hq.
  unfold GlinClient.get_balance, GlinClient._ensure_connected, GlinClient.connect.
  py_unfold. cbn -[truth]. rewrite Hself. cbn -[truth]. rewrite Hs. cbn.
  rewrite Hself. cbn. rewrite Hs. cbn. rewrite Hq.
  eexists. reflexivity.
Qed.

Lemma get_block_number_propagates (m : Machine.t) (self : ref) (a : Client.attrs)
    (s : SubstrateInterface.t) (e : Py.Exc) (w : World) :
  Machine.heap m !! self = Some (GlinClientObj a) ->
  Client.substrate a = Some s ->
  SubstrateInterface.get_block_header s (Machine.world m) = (Raise e, w) ->
  exists m', GlinClient.get_block_number self m = (Raise e, m').
Proof.
  intros Hself Hs Hq.
  unfold GlinClient.get_block_number, GlinClient._ensure_connected, GlinClient.connect.
  py_unfold. cbn -[truth]. rewrite Hself. cbn -[truth]. rewrite Hs. cbn.
  rewrite Hself. cbn. rewrite Hs. cbn. rewrite Hq.
  eexists. reflexivity.
Qed.

(** C8, as amended.  The read-only operations that wrap their query in
    a handler let no exception out: the twelve storage getters of the
    wrappers, [GlinContracts.is_contract], and [GlinClient.get_task] and
    [GlinClient.get_provider] on a connected client always return, and
    what they return when the query raises is the default they return
    when the node has no value.  [GlinClient.get_balance] and
    [GlinClient.get_block_number] have no handler: an exception of their
    query reaches the caller. *)
Theorem handled_queries_return_the_default (m : Machine.t)
    (wrapper contracts client : ref) (c : Wrapper.class) (aw : Wrapper.attrs)
    (ac : Contracts.attrs) (ag : Client.attrs) (s : SubstrateInterface.t)
    (account agreement_id dispute_id : string) (index : Z) (role : ProfessionalRole.t) :
  Machine.heap m !! wrapper = Some (WrapperObj c aw) ->
  Machine.heap m !! contracts = Some (GlinContractsObj ac) ->
  Machine.heap m !! client = Some (GlinClientObj ag) ->
  Client.substrate ag = Some s ->
  let world := Machine.world m in
  (* the storage getters *)
  (RegistryContract.get_profile wrapper account m).1 = Ok None
  /\ (RegistryContract.get_review wrapper account index m).1 = Ok None
  /\ (RegistryContract.get_review_count wrapper account m).1 = Ok 0
  /\ (RegistryContract.get_min_stake wrapper role m).1 = Ok "0"
  /\ (RegistryContract.is_active_professional wrapper account m).1 = Ok false
  /\ (EscrowContract.get_agreement wrapper agreement_id m).1 = Ok None
  /\ (EscrowContract.get_milestone wrapper agreement_id index m).1 = Ok None
  /\ (EscrowContract.get_milestone_count wrapper agreement_id m).1 = Ok 0
  /\ (ArbitrationContract.get_dispute wrapper dispute_id m).1 = Ok None
  /\ (ArbitrationContract.get_arbitrator wrapper account m).1 = Ok None
  /\ (ArbitrationContract.get_vote wrapper dispute_id account m).1 = Ok None
  /\ (ArbitrationContract.is_active_arbitrator wrapper account m).1 = Ok false
  (* the queries with a handler *)
  /\ (exists b, (GlinContracts.is_contract contracts account m).1 = Ok b
        /\ let answer := SubstrateInterface.query (Contracts.substrate ac)
                           "Contracts" "ContractInfoOf" [Py.Str account] world in
           (raises answer \/ absent answer -> b = false))
  /\ (exists r, (GlinClient.get_task client account m).1 = Ok r
        /\ let answer := SubstrateInterface.query s "TaskRegistry" "Tasks"
                           [Py.Str account] world in
           (raises answer \/ absent answer -> r = None))
  /\ (exists r, (GlinClient.get_provider client account m).1 = Ok r
        /\ let answer := SubstrateInterface.query s "ProviderStaking" "Providers"
                           [Py.Str account] world in
           (raises answer \/ absent answer -> r = None))
  (* the queries without one *)
  /\ (forall e w,
        SubstrateInterface.query s "System" "Account" [Py.Str account] world = (Raise e, w) ->
        (GlinClient.get_balance client account m).1 = Raise e)
  /\ (forall e w,
        SubstrateInterface.get_block_header s world = (Raise e, w) ->
        (GlinClient.get_block_number client m).1 = Raise e).
Proof.
  intros Hw Hc Hg Hs. cbv zeta. unfold raises, absent.
  repeat match goal with
  | |- _ /\ _ => split
  | |- (?getter m).1 = Ok ?d =>
      replace (getter m) with (Ok d, m)
        by (symmetry; eapply stub_getter_run; exact Hw);
      reflexivity
  end.
  - destruct (is_contract_handles m contracts ac account Hc) as (b & m' & -> & Hr & Ha).
    exists b. split; [reflexivity |].
    intros [(e & w & E) | (result & w & E & V)]; eauto.
  - destruct (get_task_handles m client ag s account Hg Hs) as (r & m' & -> & Hr & Ha).
    exists r. split; [reflexivity |].
    intros [(e & w & E) | (result & w & E & V)]; eauto.
  - destruct (get_provider_handles m client ag s account Hg Hs) as (r & m' & -> & Hr & Ha).
    exists r. split; [reflexivity |].
    intros [(e & w & E) | (result & w & E & V)]; eauto.
  - intros e w E.
    destruct (get_balance_propagates m client ag s account e w Hg Hs E) as (m' & ->).
    reflexivity.
  - intros e w E.
    destruct (get_block_number_propagates m client ag s e w Hg Hs E) as (m' & ->).
    reflexivity.
Qed.

(** ** The signing identity *)

(** C7. [GlinContracts.set_keypair(k)] stores [k] as the keypair of the
    [GlinContracts] object and of its escrow, registry and arbitration
    wrappers.  Every other attribute of the four objects keeps its value
    (the substrate, the contract addresses, the [contract] slot, the
    three references), every other object of the store is untouched, and
    nothing is called or printed. *)
Theorem set_keypair_updates_only_keypairs (m : Machine.t) (self : ref)
    (k : option Keypair) (a : Contracts.attrs) (e r b : Wrapper.attrs) :
  Machine.heap m !! self = Some (GlinContractsObj a) ->
  Machine.heap m !! Contracts.escrow a = Some (WrapperObj Wrapper.EscrowContract e) ->
  Machine.heap m !! Contracts.registry a = Some (WrapperObj Wrapper.RegistryContract r) ->
  Machine.heap m !! Contracts.arbitration a
  = Some (WrapperObj Wrapper.ArbitrationContract b) ->
  exists m',
    GlinContracts.set_keypair self k m = (Ok tt, m')
    /\ Machine.heap m' !! self
       = Some (GlinContractsObj
                 {| Contracts.substrate := Contracts.substrate a;
                    Contracts.keypair := k;
                    Contracts.escrow := Contracts.escrow a;
                    Contracts.registry := Contracts.registry a;
                    Contracts.arbitration := Contracts.arbitration a |})
    /\ Machine.heap m' !! Contracts.escrow a
       = Some (WrapperObj Wrapper.EscrowContract
                 {| Wrapper.substrate := Wrapper.substrate e;
                    Wrapper.contract_address := Wrapper.contract_address e;
                    Wrapper.keypair := k;
                    Wrapper.contract := Wrapper.contract e |})
    /\ Machine.heap m' !! Contracts.registry a
       = Some (WrapperObj Wrapper.RegistryContract
                 {| Wrapper.substrate := Wrapper.substrate r;
                    Wrapper.contract_address := Wrapper.contract_address r;
                    Wrapper.keypair := k;
                    Wrapper.contract := Wrapper.contract r |})
    /\ Machine.heap m' !! Contracts.arbitration a
       = Some (WrapperObj Wrapper.ArbitrationContract
                 {| Wrapper.substrate := Wrapper.substrate b;
                    Wrapper.contract_address := Wrapper.contract_address b;
                    Wrapper.keypair := k;
                    Wrapper.contract := Wrapper.contract b |})
    /\ (forall other : ref,
          other <> self -> other <> Contracts.escrow a ->
          other <> Contracts.registry a -> other <> Contracts.arbitration a ->
          Machine.heap m' !! other = Machine.heap m !! other)
    /\ Machine.world m' = Machine.world m
    /\ Machine.calls m' = Machine.calls m
    /\ Machine.stdout m' = Machine.stdout m.
Proof.
  intros Hself He Hr Hb.
  assert (Contracts.escrow a <> self) as Nes by congruence.
  assert (Contracts.registry a <> self) as Nrs by congruence.
  assert (Contracts.arbitration a <> self) as Nbs by congruence.
  assert (Contracts.escrow a <> Contracts.registry a) as Ner by congruence.
  assert (Contracts.escrow a <> Contracts.arbitration a) as Neb by congruence.
  assert (Contracts.registry a <> Contracts.arbitration a) as Nrb by congruence.
  unfold GlinContracts.set_keypair, GlinContracts.call_set_keypair,
    EscrowContract.set_keypair, RegistryContract.set_keypair,
    ArbitrationContract.set_keypair.
  py_unfold.
  repeat (cbn; rewrite ?lookup_insert_eq; rewrite ?lookup_insert_ne by congruence;
          rewrite ?Hself, ?He, ?Hr, ?Hb).
  eexists. split; [reflexivity |]. cbn.
  repeat split.
  all: try (rewrite ?lookup_insert_eq; rewrite ?lookup_insert_ne by congruence;
            rewrite ?lookup_insert_eq; rewrite ?lookup_insert_ne by congruence;
            rewrite ?lookup_insert_eq; reflexivity).
  intros other N1 N2 N3 N4.
  rewrite !lookup_insert_ne by congruence. reflexivity.
Qed.

(** ** Balances *)

(** C9, as amended.  Let the client be connected, or its connection
    open ([_ensure_connected] returns), and let the [System.Account]
    query answer with integer [free] and [reserved] balances.  Then
    [GlinClient.get_balance] returns a [Balance] whose [total] is the
    decimal numeral of [free + reserved], the sum taken over the
    integers; [free] and [reserved] are the decimal numerals of the two
    balances.  [frozen] is [str] of the ["frozen"] entry, else of the
    ["miscFrozen"] entry, else of 0: a decimal numeral whenever that
    entry is an integer. *)
Theorem get_balance_total_is_exact_sum (m connected : Machine.t) (self : ref)
    (a : Client.attrs) (s : SubstrateInterface.t) (address : string)
    (result : QueryResult.t) (w : World)
    (account data : list (string * Py.Val)) (free reserved : Z) :
  GlinClient._ensure_connected self m = (Ok tt, connected) ->
  Machine.heap connected !! self = Some (GlinClientObj a) ->
  Client.substrate a = Some s ->
  SubstrateInterface.query s "System" "Account" [Py.Str address]
    (Machine.world connected) = (Ok result, w) ->
  QueryResult.value result = Py.Dict account ->
  Py.assoc "data" account = Some (Py.Dict data) ->
  Py.assoc "free" data = Some (Py.Int free) ->
  Py.assoc "reserved" data = Some (Py.Int reserved) ->
  let frozen :=
    match Py.assoc "frozen" data with
    | Some v => v
    | None => match Py.assoc "miscFrozen" data with Some v => v | None => Py.Int 0 end
    end in
  exists balance m',
    GlinClient.get_balance self address m = (Ok balance, m')
    /\ Balance.free balance = Py.str_int free
    /\ Balance.reserved balance = Py.str_int reserved
    /\ Balance.total balance = Py.str_int (free + reserved)
    /\ Balance.frozen balance = Py.str frozen
    /\ Py.read_decimal (Balance.free balance) = Some free
    /\ Py.read_decimal (Balance.reserved balance) = Some reserved
    /\ Py.read_decimal (Balance.total balance) = Some (free + reserved)
    /\ (forall z, frozen = Py.Int z -> Py.read_decimal (Balance.frozen balance) = Some z).
Proof.
  intros Hconnected Hself Hs Hq Hv Hd Hf Hr frozen.
  unfold GlinClient.get_balance. unfold bind at 1. rewrite Hconnected.
  py_unfold.
  repeat (cbn -[truth]; rewrite ?Hself, ?Hs, ?truth_connection, ?Hq, ?Hv, ?Hd, ?Hf, ?Hr).
  eexists _, _. split; [reflexivity |]. cbn.
  repeat split; try apply read_decimal_str_int.
  intros z Hz. fold frozen. rewrite Hz. cbn. apply read_decimal_str_int.
Qed.

(** ** The sixteen methods against their common body *)

Ltac unfold_methods :=
  unfold Mutation.call, Wire.submit, Wire.call_params,
    EscrowContract.create_agreement, EscrowContract.complete_milestone,
    EscrowContract.approve_and_release, EscrowContract.raise_dispute,
    EscrowContract.resolve_dispute, RegistryContract.register,
    RegistryContract.increase_stake, RegistryContract.submit_review,
    RegistryContract.withdraw_stake, ArbitrationContract.register_arbitrator,
    ArbitrationContract.increase_arbitrator_stake, ArbitrationContract.create_dispute,
    ArbitrationContract.start_voting, ArbitrationContract.vote,
    ArbitrationContract.finalize_dispute, ArbitrationContract.appeal_dispute,
    EscrowContract._encode_call, RegistryContract._encode_call,
    ArbitrationContract._encode_call, EscrowContract._extract_agreement_id,
    ArbitrationContract._extract_dispute_id, ArbitrationContract._extract_resolution
    in *.

(** A method whose local check passes runs as [Wire.submit] does, on
    any machine and any [self]. *)
Lemma call_is_submit (op : Mutation.t) (m : Machine.t) (self : ref)
    (gas_limit : option Z) :
  Wire.admitted op = true ->
  Mutation.call op self gas_limit m
  = Wire.submit (Wire.amount op) (Wire.ref_time op) (Wire.proof_size op)
      self gas_limit m.
Proof.
  intros Hop.
  destruct op; cbn [Wire.amount Wire.ref_time Wire.proof_size Wire.admitted] in *;
    try reflexivity;
    destruct (Machine.heap m !! self) as [[c a | a | a] |] eqn:Hself;
    unfold_methods; try (apply negb_true_iff in Hop; rewrite Hop);
    py_run Hself; reflexivity.
Qed.

(** Everything [Wire.submit] can do on a wrapper. *)
Lemma submit_run (amount : option string) (ref_time proof_size : Z) (m : Machine.t)
    (self : ref) (c : Wrapper.class) (a : Wrapper.attrs) (gas_limit : option Z) :
  Machine.heap m !! self = Some (WrapperObj c a) ->
  exists r m' sent value,
    Wire.submit amount ref_time proof_size self gas_limit m = (Ok r, m')
    /\ Machine.calls m' = (Machine.calls m ++ sent)%list
    /\ Machine.heap m' = Machine.heap m
    /\ Machine.stdout m' = Machine.stdout m
    /\ Wire.trace
         (Wire.call_params (Wrapper.contract_address a) value gas_limit ref_time proof_size)
         (Wrapper.keypair a) sent
    /\ (sent <> [] -> Wire.attached amount value)
    /\ (sent <> [] ->
        truth (Wrapper.contract_address a) = true /\ truth (Wrapper.keypair a) = true)
    /\ ContractResult.data r = None
    /\ ContractResult.gas_consumed r = None
    /\ ContractResult.storage_deposit r = None
    /\ (ContractResult.success r = true -> ContractResult.error r = None)
    /\ (ContractResult.success r = true ->
        exists call extrinsic receipt w w',
          sent = [Action.ComposeCall "Contracts" "call"
                    (Wire.call_params (Wrapper.contract_address a) value gas_limit
                       ref_time proof_size);
                  Action.CreateSignedExtrinsic call (Wrapper.keypair a);
                  Action.SubmitExtrinsic extrinsic true]
          /\ SubstrateInterface.submit_extrinsic (Wrapper.substrate a) extrinsic true w
             = (Ok receipt, w')
          /\ ExtrinsicReceipt.is_success receipt = true).
Proof.
  intros Hself. unfold Wire.submit.
  destruct amount as [s |]; py_run Hself.
  all: eexists _, _, _, _; split; [reflexivity |]; cbn -[truth Py.or_].
  all: split;
    [ first [ symmetry; apply app_nil_r
            | rewrite <- ?app_assoc; cbn [app]; reflexivity ] |].
  all: split; [reflexivity |]; split; [reflexivity |].
  all: split; [econstructor |].
  all: repeat split; try congruence; try (intros _; eassumption).
  all: try (intros _; do 5 eexists; split; [reflexivity |]; split; eassumption).
  Unshelve. all: exact 0.
Qed.

Lemma or_explicit (gas_limit : option Z) (default : Z) :
  Py.or_ gas_limit default
  = match gas_limit with
    | Some g => if Z.eqb g 0 then default else g
    | None => default
    end.
Proof.
  destruct gas_limit as [g |]; [| reflexivity].
  unfold Py.or_, truth, Py.truth_int. destruct (Z.eqb g 0); reflexivity.
Qed.


(** A review whose rating fails the check: nothing else happens. *)
Lemma rejected_review_run (params : SubmitReviewParams.t) (m : Machine.t) (self : ref)
    (c : Wrapper.class) (a : Wrapper.attrs) (gas_limit : option Z) :
  Machine.heap m !! self = Some (WrapperObj c a) ->
  Wire.admitted (Mutation.submit_review params) = false ->
  exists r,
    RegistryContract.submit_review self params gas_limit m = (Ok r, m)
    /\ ContractResult.success r = false
    /\ ContractResult.data r = None
    /\ ContractResult.gas_consumed r = None
    /\ ContractResult.storage_deposit r = None.
Proof.
  intros Hself Hop. cbn in Hop. apply negb_false_iff in Hop.
  unfold RegistryContract.submit_review. rewrite Hop. py_run Hself.
  all: eexists; split; [reflexivity |]; repeat split.
Qed.

(** X1. What a mutating operation puts on the wire.  Whatever the
    operation and its arguments, the calls it makes on the library are a
    prefix of: one [compose_call] of [Contracts.call], one
    [create_signed_extrinsic] with the wrapper's keypair, one
    [submit_extrinsic] that waits for inclusion.  The composed call goes
    to the wrapper's contract address with empty call data and no storage
    deposit limit; its [ref_time] is the caller's [gas_limit] unless that
    is [None] or 0, in which case it is the method's default; its
    [proof_size] is the method's own whatever [gas_limit] says; its value
    is [int] of the method's amount, 0 for a method without one.  The
    store and the output are left as they were. *)
Theorem mutating_operation_trace (op : Mutation.t) (m : Machine.t) (self : ref)
    (c : Wrapper.class) (a : Wrapper.attrs) (gas_limit : option Z) :
  Machine.heap m !! self = Some (WrapperObj c a) ->
  exists r m' sent value,
    Mutation.call op self gas_limit m = (Ok r, m')
    /\ Machine.calls m' = (Machine.calls m ++ sent)%list
    /\ Wire.trace
         {| CallParams.dest := Wrapper.contract_address a;
            CallParams.value := value;
            CallParams.gas_limit :=
              {| CallParams.ref_time :=
                   match gas_limit with
                   | Some g => if Z.eqb g 0 then Wire.ref_time op else g
                   | None => Wire.ref_time op
                   end;
                 CallParams.proof_size := Wire.proof_size op |};
            CallParams.storage_deposit_limit := None;
            CallParams.data := [] |}
         (Wrapper.keypair a) sent
    /\ (sent <> [] -> Wire.attached (Wire.amount op) value)
    /\ Machine.heap m' = Machine.heap m
    /\ Machine.stdout m' = Machine.stdout m.
Proof.
  intros Hself. destruct (Wire.admitted op) eqn:Hop.
  - rewrite call_is_submit by exact Hop.
    destruct (submit_run (Wire.amount op) (Wire.ref_time op) (Wire.proof_size op)
                m self c a gas_limit Hself)
      as (r & m' & sent & value & Hrun & Hcalls & Hheap & Hout & Htrace & Hval & _).
    exists r, m', sent, value. unfold Wire.call_params in Htrace.
    rewrite or_explicit in Htrace. auto 10.
  - destruct op; try discriminate Hop.
    destruct (rejected_review_run params m self c a gas_limit Hself Hop) as (r & Hrun & _).
    exists r, m, [], 0. cbn [Mutation.call]. rewrite Hrun.
    split; [reflexivity |]. split; [symmetry; apply app_nil_r |].
    split; [apply Wire.nothing_sent |]. split; [congruence |].
    split; reflexivity.
Qed.

(** X2. A mutating operation reports success only for an extrinsic the
    node has included: when [success] is [True], the three calls were
    made, the last being [submit_extrinsic(extrinsic,
    wait_for_inclusion=True)], the receipt the node returned for it has
    [is_success], and the result carries no error. *)
Theorem success_means_included (op : Mutation.t) (m m' : Machine.t) (self : ref)
    (c : Wrapper.class) (a : Wrapper.attrs) (gas_limit : option Z)
    (r : ContractResult.t) :
  Machine.heap m !! self = Some (WrapperObj c a) ->
  Mutation.call op self gas_limit m = (Ok r, m') ->
  ContractResult.success r = true ->
  ContractResult.error r = None
  /\ exists p call extrinsic receipt w w',
       Machine.calls m'
       = (Machine.calls m
          ++ [Action.ComposeCall "Contracts" "call" p;
              Action.CreateSignedExtrinsic call (Wrapper.keypair a);
              Action.SubmitExtrinsic extrinsic true])%list
       /\ CallParams.dest p = Wrapper.contract_address a
       /\ SubstrateInterface.submit_extrinsic (Wrapper.substrate a) extrinsic true w
          = (Ok receipt, w')
       /\ ExtrinsicReceipt.is_success receipt = true.
Proof.
  intros Hself Hrun Hok. destruct (Wire.admitted op) eqn:Hop.
  - rewrite call_is_submit in Hrun by exact Hop.
    destruct (submit_run (Wire.amount op) (Wire.ref_time op) (Wire.proof_size op)
                m self c a gas_limit Hself)
      as (r0 & m0 & sent & value & Hrun0 & Hcalls & _ & _ & _ & _ & _ & _ & _ & _
          & Herr & Hsent).
    rewrite Hrun0 in Hrun. injection Hrun as -> ->.
    split; [exact (Herr Hok) |].
    destruct (Hsent Hok) as (call & x & receipt & w & w' & -> & Hsub & Hrec).
    eexists _, call, x, receipt, w, w'. repeat split; eauto.
  - destruct op; try discriminate Hop.
    destruct (rejected_review_run params m self c a gas_limit Hself Hop)
      as (r0 & Hrun0 & Hfail & _).
    cbn [Mutation.call] in Hrun. rewrite Hrun0 in Hrun. injection Hrun as -> ->.
    congruence.
Qed.

(** X3. No mutating operation ever returns a payload or telemetry: in
    every result, [data], [gas_consumed] and [storage_deposit] are
    [None].  In particular [create_dispute] never returns a dispute
    identifier and [finalize_dispute] never returns a resolution. *)
Theorem results_carry_no_payload (op : Mutation.t) (m m' : Machine.t) (self : ref)
    (c : Wrapper.class) (a : Wrapper.attrs) (gas_limit : option Z)
    (r : ContractResult.t) :
  Machine.heap m !! self = Some (WrapperObj c a) ->
  Mutation.call op self gas_limit m = (Ok r, m') ->
  ContractResult.data r = None
  /\ ContractResult.gas_consumed r = None
  /\ ContractResult.storage_deposit r = None.
Proof.
  intros Hself Hrun. destruct (Wire.admitted op) eqn:Hop.
  - rewrite call_is_submit in Hrun by exact Hop.
    destruct (submit_run (Wire.amount op) (Wire.ref_time op) (Wire.proof_size op)
                m self c a gas_limit Hself)
      as (r0 & m0 & sent & value & Hrun0 & _ & _ & _ & _ & _ & _ & Hd & Hg & Hs & _).
    rewrite Hrun0 in Hrun. injection Hrun as -> ->. auto.
  - destruct op; try discriminate Hop.
    destruct (rejected_review_run params m self c a gas_limit Hself Hop)
      as (r0 & Hrun0 & _ & Hd & Hg & Hs).
    cbn [Mutation.call] in Hrun. rewrite Hrun0 in Hrun. injection Hrun as -> ->. auto.
Qed.

(** X4. An amount that [int] cannot read is reported, not sent: with
    the address and the keypair set, an operation whose amount string
    makes [int] raise returns the failed result carrying the exception's
    text, and makes no call on the library. *)
Theorem malformed_amount_is_reported (op : Mutation.t) (m : Machine.t) (self : ref)
    (c : Wrapper.class) (a : Wrapper.attrs) (gas_limit : option Z) (amount : string)
    (e : Py.Exc) :
  Machine.heap m !! self = Some (WrapperObj c a) ->
  truth (Wrapper.contract_address a) = true ->
  truth (Wrapper.keypair a) = true ->
  Wire.amount op = Some amount ->
  Py.int (Py.Str amount) = Raise e ->
  Mutation.call op self gas_limit m
  = (Ok (ContractResult.make false None (Some (Py.exc_str e))), m).
Proof.
  intros Hself Haddr Hkey Hamount Hint.
  rewrite call_is_submit by (destruct op; try reflexivity; discriminate Hamount).
  rewrite Hamount. unfold Wire.submit. cbn [Py.int] in Hint.
  py_unfold.
  repeat (cbn -[truth Py.or_]; rewrite ?Hself; py_known; rewrite ?Hint).
  reflexivity.
Qed.


(** ** Construction and the two setters of a wrapper *)

Lemma fresh_is_new (h : gmap ref Obj) : h !! fresh (dom h) = None.
Proof. apply not_elem_of_dom. apply is_fresh. Qed.

Ltac init_run :=
  intros; unfold EscrowContract.__init__, RegistryContract.__init__,
    ArbitrationContract.__init__, EscrowContract._load_contract,
    RegistryContract._load_contract, ArbitrationContract._load_contract, alloc, with_heap;
  py_unfold;
  match goal with
  | |- context [match ?addr with Some _ => _ | None => _ end] =>
      destruct addr as [[| ? ?] |]
  end;
  cbn; rewrite ?lookup_insert_eq; cbn; rewrite ?insert_insert_eq; reflexivity.

Lemma escrow_init_run (m : Machine.t) (s : SubstrateInterface.t)
    (address : option string) (keypair : option Keypair) :
  EscrowContract.__init__ s address keypair m
  = (Ok (fresh (dom (Machine.heap m))),
     with_heap (<[fresh (dom (Machine.heap m)) :=
                    WrapperObj Wrapper.EscrowContract
                      {| Wrapper.substrate := s; Wrapper.contract_address := address;
                         Wrapper.keypair := keypair; Wrapper.contract := None |}]>
                  (Machine.heap m)) m).
Proof. init_run. Qed.

Lemma registry_init_run (m : Machine.t) (s : SubstrateInterface.t)
    (address : option string) (keypair : option Keypair) :
  RegistryContract.__init__ s address keypair m
  = (Ok (fresh (dom (Machine.heap m))),
     with_heap (<[fresh (dom (Machine.heap m)) :=
                    WrapperObj Wrapper.RegistryContract
                      {| Wrapper.substrate := s; Wrapper.contract_address := address;
                         Wrapper.keypair := keypair; Wrapper.contract := None |}]>
                  (Machine.heap m)) m).
Proof. init_run. Qed.

Lemma arbitration_init_run (m : Machine.t) (s : SubstrateInterface.t)
    (address : option string) (keypair : option Keypair) :
  ArbitrationContract.__init__ s address keypair m
  = (Ok (fresh (dom (Machine.heap m))),
     with_heap (<[fresh (dom (Machine.heap m)) :=
                    WrapperObj Wrapper.ArbitrationContract
                      {| Wrapper.substrate := s; Wrapper.contract_address := address;
                         Wrapper.keypair := keypair; Wrapper.contract := None |}]>
                  (Machine.heap m)) m).
Proof. init_run. Qed.

Lemma set_contract_address_run (m : Machine.t) (self : ref) (c : Wrapper.class)
    (a : Wrapper.attrs) (address : string) :
  Machine.heap m !! self = Some (WrapperObj c a) ->
  EscrowContract.set_contract_address self address m
  = (Ok tt,
     with_heap (<[self := WrapperObj c (Wrapper.with_contract_address (Some address) a)]>
                  (Machine.heap m)) m).
Proof.
  intros Hself.
  unfold EscrowContract.set_contract_address, EscrowContract._load_contract, with_heap.
  py_unfold. cbn. rewrite Hself. cbn. rewrite lookup_insert_eq. cbn.
  rewrite insert_insert_eq. reflexivity.
Qed.

Lemma set_keypair_run (m : Machine.t) (self : ref) (c : Wrapper.class)
    (a : Wrapper.attrs) (keypair : option Keypair) :
  Machine.heap m !! self = Some (WrapperObj c a) ->
  EscrowContract.set_keypair self keypair m
  = (Ok tt,
     with_heap (<[self := WrapperObj c (Wrapper.with_keypair keypair a)]>
                  (Machine.heap m)) m).
Proof.
  intros Hself. unfold EscrowContract.set_keypair, with_heap.
  py_unfold. cbn. rewrite Hself. reflexivity.
Qed.

(** The setters of the three classes are the same functions. *)
Lemma setters_coincide :
  RegistryContract.set_keypair = EscrowContract.set_keypair
  /\ ArbitrationContract.set_keypair = EscrowContract.set_keypair
  /\ RegistryContract.set_contract_address = EscrowContract.set_contract_address
  /\ ArbitrationContract.set_contract_address = EscrowContract.set_contract_address.
Proof. repeat split. Qed.

(** X6. Constructing a wrapper of any of the three classes adds one
    object to the store, at a reference that was free, and changes
    nothing else: no call is made on the library, nothing is printed.
    The new object holds the substrate, the address and the keypair it
    was given - the address exactly as given, be it [None] or the empty
    string - and [contract = None]. *)
Theorem wrapper_constructors_allocate (m : Machine.t) (s : SubstrateInterface.t)
    (address : option string) (keypair : option Keypair) :
  let self := fresh (dom (Machine.heap m)) in
  let attrs :=
    {| Wrapper.substrate := s; Wrapper.contract_address := address;
       Wrapper.keypair := keypair; Wrapper.contract := None |} in
  let after (c : Wrapper.class) :=
    {| Machine.heap := <[self := WrapperObj c attrs]> (Machine.heap m);
       Machine.world := Machine.world m;
       Machine.calls := Machine.calls m;
       Machine.stdout := Machine.stdout m |} in
  Machine.heap m !! self = None
  /\ EscrowContract.__init__ s address keypair m
     = (Ok self, after Wrapper.EscrowContract)
  /\ RegistryContract.__init__ s address keypair m
     = (Ok self, after Wrapper.RegistryContract)
  /\ ArbitrationContract.__init__ s address keypair m
     = (Ok self, after Wrapper.ArbitrationContract).
Proof.
  cbv zeta. split; [apply fresh_is_new |].
  split; [apply escrow_init_run |].
  split; [apply registry_init_run | apply arbitration_init_run].
Qed.

(** X7. The two setters of a wrapper, of whichever class.
    [set_contract_address] changes the [contract_address] of that object
    and [set_keypair] its [keypair]; each leaves the other three
    attributes, every other object, the node and the output alone.
    Setting twice keeps the last value, and the two setters commute. *)
Theorem wrapper_setters (m : Machine.t) (self : ref) (c : Wrapper.class)
    (a : Wrapper.attrs) (address address' : string) (keypair keypair' : option Keypair)
    (set_contract_address : ref -> string -> M unit)
    (set_keypair : ref -> option Keypair -> M unit) :
  Machine.heap m !! self = Some (WrapperObj c a) ->
  In set_contract_address
    [EscrowContract.set_contract_address; RegistryContract.set_contract_address;
     ArbitrationContract.set_contract_address] ->
  In set_keypair
    [EscrowContract.set_keypair; RegistryContract.set_keypair;
     ArbitrationContract.set_keypair] ->
  let put (attrs : Wrapper.attrs) :=
    {| Machine.heap := <[self := WrapperObj c attrs]> (Machine.heap m);
       Machine.world := Machine.world m;
       Machine.calls := Machine.calls m;
       Machine.stdout := Machine.stdout m |} in
  set_contract_address self address m
  = (Ok tt, put {| Wrapper.substrate := Wrapper.substrate a;
                   Wrapper.contract_address := Some address;
                   Wrapper.keypair := Wrapper.keypair a;
                   Wrapper.contract := Wrapper.contract a |})
  /\ set_keypair self keypair m
     = (Ok tt, put {| Wrapper.substrate := Wrapper.substrate a;
                      Wrapper.contract_address := Wrapper.contract_address a;
                      Wrapper.keypair := keypair;
                      Wrapper.contract := Wrapper.contract a |})
  /\ (set_contract_address self address ;; set_contract_address self address') m
     = set_contract_address self address' m
  /\ (set_keypair self keypair ;; set_keypair self keypair') m
     = set_keypair self keypair' m
  /\ (set_keypair self keypair ;; set_contract_address self address) m
     = (set_contract_address self address ;; set_keypair self keypair) m.
Proof.
  intros Hself Ha Hk put.
  assert (set_contract_address = EscrowContract.set_contract_address) as ->.
  { cbn in Ha. destruct Ha as [<- | [<- | [<- | []]]]; reflexivity. }
  assert (set_keypair = EscrowContract.set_keypair) as ->.
  { cbn in Hk. destruct Hk as [<- | [<- | [<- | []]]]; reflexivity. }
  repeat split.
  - apply (set_contract_address_run m self c a address Hself).
  - apply (set_keypair_run m self c a keypair Hself).
  - unfold bind. rewrite (set_contract_address_run m self c a address Hself).
    erewrite set_contract_address_run by apply lookup_insert_eq.
    rewrite (set_contract_address_run m self c a address' Hself).
    cbn. rewrite insert_insert_eq. reflexivity.
  - unfold bind. rewrite (set_keypair_run m self c a keypair Hself).
    erewrite set_keypair_run by apply lookup_insert_eq.
    rewrite (set_keypair_run m self c a keypair' Hself).
    cbn. rewrite insert_insert_eq. reflexivity.
  - unfold bind. rewrite (set_keypair_run m self c a keypair Hself).
    rewrite (set_contract_address_run m self c a address Hself).
    erewrite set_contract_address_run by apply lookup_insert_eq.
    erewrite set_keypair_run by apply lookup_insert_eq.
    cbn. rewrite !insert_insert_eq. reflexivity.
Qed.

(** ** Operations after the setters *)

(** With both attributes set and a readable amount, [Wire.submit]
    composes its call. *)
Lemma submit_sends (amount : option string) (ref_time proof_size : Z) (m : Machine.t)
    (self : ref) (c : Wrapper.class) (a : Wrapper.attrs) (gas_limit : option Z)
    (value : Z) :
  Machine.heap m !! self = Some (WrapperObj c a) ->
  truth (Wrapper.contract_address a) = true ->
  truth (Wrapper.keypair a) = true ->
  Wire.attached amount value ->
  exists r m' rest,
    Wire.submit amount ref_time proof_size self gas_limit m = (Ok r, m')
    /\ Machine.calls m'
       = (Machine.calls m
          ++ Action.ComposeCall "Contracts" "call"
               (Wire.call_params (Wrapper.contract_address a) value gas_limit
                  ref_time proof_size) :: rest)%list
    /\ Wire.trace
         (Wire.call_params (Wrapper.contract_address a) value gas_limit ref_time proof_size)
         (Wrapper.keypair a)
         (Action.ComposeCall "Contracts" "call"
            (Wire.call_params (Wrapper.contract_address a) value gas_limit
               ref_time proof_size) :: rest).
Proof.
  intros Hself Haddr Hkey Hvalue. unfold Wire.submit.
  destruct amount as [s |]; cbn [Wire.attached Py.int] in Hvalue;
    [| subst value]; py_unfold;
    repeat (cbn -[truth Py.or_]; rewrite ?Hself; py_known; rewrite ?Hvalue);
    py_run Hself.
  all: eexists _, _, _; split; [reflexivity |]; cbn -[truth Py.or_].
  all: split; [rewrite <- ?app_assoc; cbn [app]; reflexivity | econstructor].
Qed.

(** The two guards, for every operation. *)
Lemma call_guards (op : Mutation.t) (m : Machine.t) (self : ref) (c : Wrapper.class)
    (a : Wrapper.attrs) (gas_limit : option Z) :
  Machine.heap m !! self = Some (WrapperObj c a) ->
  (truth (Wrapper.contract_address a) = false ->
   Mutation.call op self gas_limit m
   = (Ok (ContractResult.make false None (Some "Contract not initialized")), m))
  /\ (truth (Wrapper.contract_address a) = true ->
      truth (Wrapper.keypair a) = false ->
      Mutation.call op self gas_limit m
      = (Ok (ContractResult.make false None (Some "Keypair not set")), m)).
Proof.
  intros Hself.
  assert (forall amount rt ps,
    (truth (Wrapper.contract_address a) = false ->
     Wire.submit amount rt ps self gas_limit m
     = (Ok (ContractResult.make false None (Some "Contract not initialized")), m))
    /\ (truth (Wrapper.contract_address a) = true ->
        truth (Wrapper.keypair a) = false ->
        Wire.submit amount rt ps self gas_limit m
        = (Ok (ContractResult.make false None (Some "Keypair not set")), m))) as Hsubmit.
  { intros amount rt ps. unfold Wire.submit.
    split; [intros Haddr | intros Haddr Hkey]; py_run Hself; reflexivity. }
  destruct (Wire.admitted op) eqn:Hop.
  - rewrite call_is_submit by exact Hop. apply Hsubmit.
  - destruct op; try discriminate Hop. cbn [Mutation.call].
    unfold RegistryContract.submit_review.
    split; [intros Haddr | intros Haddr Hkey]; py_run Hself; reflexivity.
Qed.

(** X8. A wrapper built with neither address nor keypair becomes usable
    through its setters: after [set_contract_address(address)] with a
    non-empty address and [set_keypair(k)], an operation whose local
    check passes and whose amount [int] can read composes its call to
    [address], and whatever it signs it signs with [k]. *)
Theorem setters_make_the_wrapper_usable (op : Mutation.t) (m : Machine.t) (self : ref)
    (c : Wrapper.class) (a : Wrapper.attrs) (address : string) (k : Keypair)
    (gas_limit : option Z) (value : Z) :
  Machine.heap m !! self = Some (WrapperObj c a) ->
  truth address = true ->
  Wire.admitted op = true ->
  Wire.attached (Wire.amount op) value ->
  let p :=
    {| CallParams.dest := Some address;
       CallParams.value := value;
       CallParams.gas_limit :=
         {| CallParams.ref_time := Py.or_ gas_limit (Wire.ref_time op);
            CallParams.proof_size := Wire.proof_size op |};
       CallParams.storage_deposit_limit := None;
       CallParams.data := [] |} in
  exists r m' rest,
    (EscrowContract.set_contract_address self address ;;
     EscrowContract.set_keypair self (Some k) ;;
     Mutation.call op self gas_limit) m = (Ok r, m')
    /\ Machine.calls m'
       = (Machine.calls m ++ Action.ComposeCall "Contracts" "call" p :: rest)%list
    /\ Wire.trace p (Some k) (Action.ComposeCall "Contracts" "call" p :: rest).
Proof.
  intros Hself Haddr Hop Hvalue p.
  unfold bind.
  rewrite (set_contract_address_run m self c a address Hself).
  erewrite set_keypair_run by apply lookup_insert_eq.
  rewrite call_is_submit by exact Hop.
  match goal with
  | |- context [Wire.submit _ _ _ _ _ ?m1] =>
      destruct (submit_sends (Wire.amount op) (Wire.ref_time op) (Wire.proof_size op)
                  m1 self c
                  (Wrapper.with_keypair (Some k)
                     (Wrapper.with_contract_address (Some address) a))
                  gas_limit value)
        as (r & m' & rest & Hrun & Hcalls & Htrace)
  end.
  - cbn. rewrite insert_insert_eq. apply lookup_insert_eq.
  - exact Haddr.
  - reflexivity.
  - exact Hvalue.
  - rewrite Hrun. exists r, m', rest. split; [reflexivity |].
    split; [exact Hcalls | exact Htrace].
Qed.

(** ** The bundle of the three wrappers *)

(** X9. [GlinContracts(substrate, keypair, escrow_address,
    registry_address, arbitration_address)] builds, on any store, four
    new objects at four distinct references that were free: an
    [EscrowContract], a [RegistryContract] and an [ArbitrationContract]
    - always all three, whether or not an address was given - each with
    the shared substrate and keypair and its own address, and the
    [GlinContracts] object that refers to them.  Nothing else in the
    store changes, no call is made on the library, nothing is printed. *)
Theorem contracts_constructor_builds_the_bundle (m : Machine.t)
    (s : SubstrateInterface.t) (keypair : option Keypair)
    (escrow_address registry_address arbitration_address : option string) :
  exists self escrow registry arbitration m',
    GlinContracts.__init__ s keypair escrow_address registry_address
      arbitration_address m = (Ok self, m')
    /\ NoDup [escrow; registry; arbitration; self]
    /\ (forall r, In r [escrow; registry; arbitration; self] ->
                  Machine.heap m !! r = None)
    /\ Machine.heap m' !! self
       = Some (GlinContractsObj
                 {| Contracts.substrate := s; Contracts.keypair := keypair;
                    Contracts.escrow := escrow; Contracts.registry := registry;
                    Contracts.arbitration := arbitration |})
    /\ Machine.heap m' !! escrow
       = Some (WrapperObj Wrapper.EscrowContract
                 {| Wrapper.substrate := s; Wrapper.contract_address := escrow_address;
                    Wrapper.keypair := keypair; Wrapper.contract := None |})
    /\ Machine.heap m' !! registry
       = Some (WrapperObj Wrapper.RegistryContract
                 {| Wrapper.substrate := s; Wrapper.contract_address := registry_address;
                    Wrapper.keypair := keypair; Wrapper.contract := None |})
    /\ Machine.heap m' !! arbitration
       = Some (WrapperObj Wrapper.ArbitrationContract
                 {| Wrapper.substrate := s;
                    Wrapper.contract_address := arbitration_address;
                    Wrapper.keypair := keypair; Wrapper.contract := None |})
    /\ (forall other, ~ In other [escrow; registry; arbitration; self] ->
                      Machine.heap m' !! other = Machine.heap m !! other)
    /\ Machine.world m' = Machine.world m
    /\ Machine.calls m' = Machine.calls m
    /\ Machine.stdout m' = Machine.stdout m.
Proof.
  unfold GlinContracts.__init__, bind.
  rewrite escrow_init_run, registry_init_run, arbitration_init_run.
  unfold alloc, with_heap. cbn.
  set (h := Machine.heap m).
  set (r1 := fresh (dom h)).
  set (o1 := WrapperObj Wrapper.EscrowContract _).
  set (r2 := fresh (dom (<[r1 := o1]> h))).
  set (o2 := WrapperObj Wrapper.RegistryContract _).
  set (r3 := fresh (dom (<[r2 := o2]> (<[r1 := o1]> h)))).
  set (o3 := WrapperObj Wrapper.ArbitrationContract _).
  set (r4 := fresh (dom (<[r3 := o3]> (<[r2 := o2]> (<[r1 := o1]> h))))).
  pose proof (fresh_is_new h) as F1. fold r1 in F1.
  pose proof (fresh_is_new (<[r1 := o1]> h)) as F2. fold r2 in F2.
  pose proof (fresh_is_new (<[r2 := o2]> (<[r1 := o1]> h))) as F3. fold r3 in F3.
  pose proof (fresh_is_new (<[r3 := o3]> (<[r2 := o2]> (<[r1 := o1]> h)))) as F4.
  fold r4 in F4.
  apply lookup_insert_None in F2 as [F2 N21].
  apply lookup_insert_None in F3 as [F3 N32].
  apply lookup_insert_None in F3 as [F3 N31].
  apply lookup_insert_None in F4 as [F4 N43].
  apply lookup_insert_None in F4 as [F4 N42].
  apply lookup_insert_None in F4 as [F4 N41].
  exists r4, r1, r2, r3. eexists. split; [reflexivity |]. cbn.
  split.
  { repeat constructor; rewrite ?list_elem_of_In; cbn; intuition congruence. }
  split.
  { intros r [<- | [<- | [<- | [<- | []]]]]; assumption. }
  split; [apply lookup_insert_eq |].
  split; [rewrite !lookup_insert_ne by congruence; apply lookup_insert_eq |].
  split; [rewrite !lookup_insert_ne by congruence; apply lookup_insert_eq |].
  split; [rewrite !lookup_insert_ne by congruence; apply lookup_insert_eq |].
  split; [| repeat split].
  intros other Hother. cbn in Hother.
  rewrite !lookup_insert_ne by intuition congruence. reflexivity.
Qed.

(** What [GlinContracts.set_keypair] leaves behind. *)
Lemma bundle_set_keypair_run (m : Machine.t) (self : ref) (k : option Keypair)
    (a : Contracts.attrs) (e r b : Wrapper.attrs) :
  Machine.heap m !! self = Some (GlinContractsObj a) ->
  Machine.heap m !! Contracts.escrow a = Some (WrapperObj Wrapper.EscrowContract e) ->
  Machine.heap m !! Contracts.registry a = Some (WrapperObj Wrapper.RegistryContract r) ->
  Machine.heap m !! Contracts.arbitration a
  = Some (WrapperObj Wrapper.ArbitrationContract b) ->
  exists m',
    GlinContracts.set_keypair self k m = (Ok tt, m')
    /\ Machine.heap m' !! Contracts.escrow a
       = Some (WrapperObj Wrapper.EscrowContract (Wrapper.with_keypair k e))
    /\ Machine.heap m' !! Contracts.registry a
       = Some (WrapperObj Wrapper.RegistryContract (Wrapper.with_keypair k r))
    /\ Machine.heap m' !! Contracts.arbitration a
       = Some (WrapperObj Wrapper.ArbitrationContract (Wrapper.with_keypair k b))
    /\ Machine.calls m' = Machine.calls m.
Proof.
  intros Hself He Hr Hb.
  assert (Contracts.escrow a <> self) as Nes by congruence.
  assert (Contracts.registry a <> self) as Nrs by congruence.
  assert (Contracts.arbitration a <> self) as Nbs by congruence.
  assert (Contracts.escrow a <> Contracts.registry a) as Ner by congruence.
  assert (Contracts.escrow a <> Contracts.arbitration a) as Neb by congruence.
  assert (Contracts.registry a <> Contracts.arbitration a) as Nrb by congruence.
  unfold GlinContracts.set_keypair, GlinContracts.call_set_keypair,
    EscrowContract.set_keypair, RegistryContract.set_keypair,
    ArbitrationContract.set_keypair.
  py_unfold.
  repeat (cbn; rewrite ?lookup_insert_eq; rewrite ?lookup_insert_ne by congruence;
          rewrite ?Hself, ?He, ?Hr, ?Hb).
  eexists. split; [reflexivity |]. cbn.
  repeat split;
    rewrite ?lookup_insert_eq; rewrite ?lookup_insert_ne by congruence;
    rewrite ?lookup_insert_eq; rewrite ?lookup_insert_ne by congruence;
    rewrite ?lookup_insert_eq; reflexivity.
Qed.

(** X10. Switching the signing identity takes effect on all three
    wrappers: after [contracts.set_keypair(k)], whatever an operation on
    the escrow, registry or arbitration wrapper signs, it signs with [k],
    and its call still goes to that wrapper's own address.  After
    [set_keypair(None)] an operation on a wrapper whose address is set
    answers "Keypair not set" and calls nothing. *)
Theorem bundle_signs_with_the_latest_keypair (op : Mutation.t) (m : Machine.t)
    (self : ref) (k : option Keypair) (a : Contracts.attrs) (e r b : Wrapper.attrs)
    (wrapper : ref) (attrs : Wrapper.attrs) (gas_limit : option Z) :
  Machine.heap m !! self = Some (GlinContractsObj a) ->
  Machine.heap m !! Contracts.escrow a = Some (WrapperObj Wrapper.EscrowContract e) ->
  Machine.heap m !! Contracts.registry a = Some (WrapperObj Wrapper.RegistryContract r) ->
  Machine.heap m !! Contracts.arbitration a
  = Some (WrapperObj Wrapper.ArbitrationContract b) ->
  In (wrapper, attrs)
    [(Contracts.escrow a, e); (Contracts.registry a, r); (Contracts.arbitration a, b)] ->
  exists m1 result m2 sent value,
    GlinContracts.set_keypair self k m = (Ok tt, m1)
    /\ Mutation.call op wrapper gas_limit m1 = (Ok result, m2)
    /\ Machine.calls m2 = (Machine.calls m ++ sent)%list
    /\ Wire.trace
         {| CallParams.dest := Wrapper.contract_address attrs;
            CallParams.value := value;
            CallParams.gas_limit :=
              {| CallParams.ref_time := Py.or_ gas_limit (Wire.ref_time op);
                 CallParams.proof_size := Wire.proof_size op |};
            CallParams.storage_deposit_limit := None;
            CallParams.data := [] |}
         k sent
    /\ (k = None -> truth (Wrapper.contract_address attrs) = true ->
        result = ContractResult.make false None (Some "Keypair not set") /\ sent = []).
Proof.
  intros Hself He Hr Hb Hin.
  destruct (bundle_set_keypair_run m self k a e r b Hself He Hr Hb)
    as (m1 & Hset & He1 & Hr1 & Hb1 & Hcalls1).
  assert (exists c, Machine.heap m1 !! wrapper
                    = Some (WrapperObj c (Wrapper.with_keypair k attrs))) as [c Hw].
  { cbn in Hin. destruct Hin as [E | [E | [E | []]]]; injection E as <- <-; eauto. }
  exists m1.
  assert (exists result m2 sent value,
            Mutation.call op wrapper gas_limit m1 = (Ok result, m2)
            /\ Machine.calls m2 = (Machine.calls m1 ++ sent)%list
            /\ Wire.trace
                 (Wire.call_params (Wrapper.contract_address attrs) value gas_limit
                    (Wire.ref_time op) (Wire.proof_size op)) k sent)
    as (result & m2 & sent & value & Hrun & Hcalls & Htrace).
  { destruct (Wire.admitted op) eqn:Hop.
    - rewrite call_is_submit by exact Hop.
      destruct (submit_run (Wire.amount op) (Wire.ref_time op) (Wire.proof_size op)
                  m1 wrapper c (Wrapper.with_keypair k attrs) gas_limit Hw)
        as (r0 & m0 & sent & value & Hrun & Hcalls & _ & _ & Htrace & _).
      exists r0, m0, sent, value. auto.
    - destruct op; try discriminate Hop.
      destruct (rejected_review_run params m1 wrapper c _ gas_limit Hw Hop)
        as (r0 & Hrun & _).
      exists r0, m1, [], 0. cbn [Mutation.call]. rewrite Hrun.
      split; [reflexivity |]. split; [symmetry; apply app_nil_r | apply Wire.nothing_sent]. }
  exists result, m2, sent, value.
  split; [exact Hset |]. split; [exact Hrun |].
  split; [rewrite Hcalls, Hcalls1; reflexivity |].
  split; [exact Htrace |].
  intros -> Haddr.
  destruct (call_guards op m1 wrapper c (Wrapper.with_keypair None attrs) gas_limit Hw)
    as [_ Hguard].
  rewrite (Hguard Haddr eq_refl) in Hrun. injection Hrun as <- <-.
  split; [reflexivity |].
  apply (app_inv_head (Machine.calls m1)). rewrite <- Hcalls. symmetry. apply app_nil_r.
Qed.

(** ** The queries of [GlinContracts] *)

(** X11. [GlinContracts.is_contract] returns [True] exactly when the
    [Contracts.ContractInfoOf] query returns a value other than [None];
    it makes that one query and nothing else, and prints nothing, also
    when the query raises. *)
Theorem is_contract_iff_info_present (m : Machine.t) (self : ref)
    (a : Contracts.attrs) (address : string) :
  Machine.heap m !! self = Some (GlinContractsObj a) ->
  exists b m',
    GlinContracts.is_contract self address m = (Ok b, m')
    /\ (b = true <->
        exists result w,
          SubstrateInterface.query (Contracts.substrate a) "Contracts" "ContractInfoOf"
            [Py.Str address] (Machine.world m) = (Ok result, w)
          /\ QueryResult.value result <> Py.None_)
    /\ Machine.calls m'
       = (Machine.calls m
          ++ [Action.Query "Contracts" "ContractInfoOf" [Py.Str address]])%list
    /\ Machine.heap m' = Machine.heap m
    /\ Machine.stdout m' = Machine.stdout m.
Proof.
  intros Hself. unfold GlinContracts.is_contract. py_run Hself.
  all: eexists _, _; split; [reflexivity |]; cbn.
  all: split; [| repeat split].
  - split; [intros _ | reflexivity].
    do 2 eexists. split; [reflexivity |].
    intros V. rewrite V in *. discriminate.
  - split; [discriminate |].
    intros (result & w' & E & V). injection E as <- <-.
    destruct (QueryResult.value _); [congruence | discriminate ..].
  - split; [discriminate |]. intros (result & w' & E & V). discriminate.
Qed.

(** X12. [GlinContracts.get_contract_balance] returns the decimal
    numeral of the account's integer [free] balance.  For an account the
    node has no value for it does not return ["0"]: subscripting [None]
    raises [TypeError], and a value without ["data"] raises [KeyError];
    neither is caught. *)
Theorem get_contract_balance_cases (m : Machine.t) (self : ref) (a : Contracts.attrs)
    (address : string) (result : QueryResult.t) (w : World) :
  Machine.heap m !! self = Some (GlinContractsObj a) ->
  SubstrateInterface.query (Contracts.substrate a) "System" "Account" [Py.Str address]
    (Machine.world m) = (Ok result, w) ->
  let run := GlinContracts.get_contract_balance self address m in
  (forall account data free,
     QueryResult.value result = Py.Dict account ->
     Py.assoc "data" account = Some (Py.Dict data) ->
     Py.assoc "free" data = Some (Py.Int free) ->
     run.1 = Ok (Py.str_int free) /\ Py.read_decimal (Py.str_int free) = Some free)
  /\ (QueryResult.value result = Py.None_ ->
      run.1 = Raise (Py.mkExc "TypeError" "'NoneType' object is not subscriptable"))
  /\ (forall account,
        QueryResult.value result = Py.Dict account ->
        Py.assoc "data" account = None ->
        run.1 = Raise (Py.mkExc "KeyError" "'data'")).
Proof.
  intros Hself Hq run. subst run. unfold GlinContracts.get_contract_balance.
  py_unfold. cbn. rewrite Hself. cbn. rewrite Hq. cbn.
  split; [| split].
  - intros account data free Hv Hd Hf. rewrite Hv. cbn. rewrite Hd. cbn. rewrite Hf. cbn.
    split; [reflexivity | apply read_decimal_str_int].
  - intros Hv. rewrite Hv. reflexivity.
  - intros account Hv Hd. rewrite Hv. cbn. rewrite Hd. reflexivity.
Qed.

(** ** The connection of a [GlinClient] *)

Ltac py_split :=
  match goal with
  | |- context [connect_url ?u ?w] => destruct (connect_url u w) as [[? | ?] ?] eqn:?
  | |- context [SubstrateInterface.close ?s ?w] =>
      destruct (SubstrateInterface.close s w) as [[[] | ?] ?] eqn:?
  | |- context [Py.get ?v ?k ?d] => destruct (Py.get v k d) eqn:?
  | |- context [Py.add ?a ?b] => destruct (Py.add a b) eqn:?
  end.

Ltac py_go Hself :=
  unfold Substrate.connect, Substrate.close in *; py_run Hself;
  repeat (py_split; rewrite ?lookup_insert_eq; py_run Hself).

Lemma client_eta (a : Client.attrs) :
  Client.substrate a = None ->
  {| Client.rpc_url := Client.rpc_url a; Client.substrate := None |} = a.
Proof. destruct a as [url s]. cbn. intros ->. reflexivity. Qed.

(** [connect] before a method that ensures the connection changes
    nothing. *)
Lemma ensure_after_connect {A} (k : unit -> M A) (m : Machine.t) (self : ref)
    (a : Client.attrs) :
  Machine.heap m !! self = Some (GlinClientObj a) ->
  (GlinClient.connect self ;; x <- GlinClient._ensure_connected self ;; k x) m
  = (x <- GlinClient._ensure_connected self ;; k x) m.
Proof.
  intros Hself. unfold GlinClient._ensure_connected, GlinClient.connect.
  destruct (Client.substrate a) as [s |] eqn:Hs.
  - py_go Hself. reflexivity.
  - unfold Substrate.connect. py_unfold. cbn -[truth]. rewrite Hself. cbn -[truth].
    rewrite Hs. cbn. rewrite Hself. cbn. rewrite Hs. cbn. rewrite Hself. cbn.
    destruct (connect_url (Client.rpc_url a) (Machine.world m)) as [[s | e] w]; cbn;
      [| reflexivity].
    rewrite Hself. cbn. rewrite lookup_insert_eq. cbn. reflexivity.
Qed.

(** X13. [GlinClient.connect] opens a connection only when the client
    has none.  On a connected client it does nothing at all.  On an
    unconnected one it calls [SubstrateInterface(url=rpc_url)] once:
    on success the client holds the new connection, and if the
    constructor raises the exception escapes and the client stays
    unconnected.  Connecting twice is connecting once, and
    [_ensure_connected] is [connect]. *)
Theorem connect_is_lazy_and_idempotent (m : Machine.t) (self : ref) (a : Client.attrs) :
  Machine.heap m !! self = Some (GlinClientObj a) ->
  let url := Client.rpc_url a in
  let after (h : gmap ref Obj) (w : World) :=
    {| Machine.heap := h; Machine.world := w;
       Machine.calls := (Machine.calls m ++ [Action.Connect url])%list;
       Machine.stdout := Machine.stdout m |} in
  (forall s, Client.substrate a = Some s -> GlinClient.connect self m = (Ok tt, m))
  /\ (forall s w,
        Client.substrate a = None ->
        connect_url url (Machine.world m) = (Ok s, w) ->
        GlinClient.connect self m
        = (Ok tt,
           after (<[self := GlinClientObj {| Client.rpc_url := url;
                                             Client.substrate := Some s |}]>
                    (Machine.heap m)) w))
  /\ (forall e w,
        Client.substrate a = None ->
        connect_url url (Machine.world m) = (Raise e, w) ->
        GlinClient.connect self m = (Raise e, after (Machine.heap m) w))
  /\ (GlinClient.connect self ;; GlinClient.connect self) m = GlinClient.connect self m
  /\ GlinClient._ensure_connected self m = GlinClient.connect self m.
Proof.
  intros Hself url after. subst url after.
  unfold GlinClient._ensure_connected, GlinClient.connect, Substrate.connect.
  repeat split.
  - intros s Hs. py_run Hself. reflexivity.
  - intros s w Hs Hc. py_unfold. cbn -[truth]. rewrite Hself. cbn -[truth].
    rewrite Hs. cbn. rewrite Hself. cbn. rewrite Hc. cbn. rewrite Hself. reflexivity.
  - intros e w Hs Hc. py_unfold. cbn -[truth]. rewrite Hself. cbn -[truth].
    rewrite Hs. cbn. rewrite Hself. cbn. rewrite Hc. reflexivity.
  - destruct (Client.substrate a) as [s |] eqn:Hs.
    + py_run Hself. reflexivity.
    + py_unfold. cbn -[truth]. rewrite Hself. cbn -[truth]. rewrite Hs. cbn.
      rewrite Hself. cbn.
      destruct (connect_url (Client.rpc_url a) (Machine.world m)) as [[s | e] w]; cbn;
        [| reflexivity].
      rewrite Hself. cbn. rewrite lookup_insert_eq. reflexivity.
  - destruct (Client.substrate a) as [s |] eqn:Hs.
    + py_run Hself. reflexivity.
    + py_unfold. repeat (cbn; rewrite ?Hself, ?Hs). reflexivity.
Qed.

(** X14. [GlinClient.disconnect] does nothing on an unconnected client.
    On a connected one it calls [close()] once and then forgets the
    connection; if [close()] raises, the exception escapes and the
    client still holds the connection. *)
Theorem disconnect_cases (m : Machine.t) (self : ref) (a : Client.attrs) :
  Machine.heap m !! self = Some (GlinClientObj a) ->
  let after (h : gmap ref Obj) (w : World) :=
    {| Machine.heap := h; Machine.world := w;
       Machine.calls := (Machine.calls m ++ [Action.Close])%list;
       Machine.stdout := Machine.stdout m |} in
  (Client.substrate a = None -> GlinClient.disconnect self m = (Ok tt, m))
  /\ (forall s w,
        Client.substrate a = Some s ->
        SubstrateInterface.close s (Machine.world m) = (Ok tt, w) ->
        GlinClient.disconnect self m
        = (Ok tt,
           after (<[self := GlinClientObj {| Client.rpc_url := Client.rpc_url a;
                                             Client.substrate := None |}]>
                    (Machine.heap m)) w))
  /\ (forall s e w,
        Client.substrate a = Some s ->
        SubstrateInterface.close s (Machine.world m) = (Raise e, w) ->
        GlinClient.disconnect self m = (Raise e, after (Machine.heap m) w)).
Proof.
  intros Hself after. subst after.
  unfold GlinClient.disconnect, Substrate.close.
  repeat split.
  - intros Hs. py_unfold. cbn -[truth]. rewrite Hself. cbn -[truth]. rewrite Hs.
    reflexivity.
  - intros s w Hs Hc. py_unfold. cbn -[truth]. rewrite Hself. cbn -[truth].
    rewrite Hs. cbn. rewrite Hc. cbn. rewrite Hself. reflexivity.
  - intros s e w Hs Hc. py_unfold. cbn -[truth]. rewrite Hself. cbn -[truth].
    rewrite Hs. cbn. rewrite Hc. reflexivity.
Qed.

(** X15. Entering and leaving the context manager: on an unconnected
    client whose connection opens and closes without raising,
    [__enter__] then [__exit__] make exactly the two calls
    [SubstrateInterface(url=rpc_url)] and [close()], and leave the store
    as it was, the client unconnected again. *)
Theorem context_manager_round_trip (m : Machine.t) (self : ref) (a : Client.attrs)
    (s : SubstrateInterface.t) (w1 w2 : World) :
  Machine.heap m !! self = Some (GlinClientObj a) ->
  Client.substrate a = None ->
  connect_url (Client.rpc_url a) (Machine.world m) = (Ok s, w1) ->
  SubstrateInterface.close s w1 = (Ok tt, w2) ->
  (entered <- GlinClient.__enter__ self ;; GlinClient.__exit__ entered) m
  = (Ok tt,
     {| Machine.heap := Machine.heap m;
        Machine.world := w2;
        Machine.calls :=
          (Machine.calls m ++ [Action.Connect (Client.rpc_url a); Action.Close])%list;
        Machine.stdout := Machine.stdout m |}).
Proof.
  intros Hself Hs Hopen Hclose.
  unfold GlinClient.__enter__, GlinClient.__exit__, GlinClient.connect,
    GlinClient.disconnect, Substrate.connect, Substrate.close.
  py_unfold. cbn -[truth]. rewrite Hself. cbn -[truth]. rewrite Hs. cbn.
  rewrite Hself. cbn. rewrite Hopen. cbn. rewrite Hself. cbn.
  rewrite lookup_insert_eq. cbn. rewrite Hclose. cbn.
  rewrite lookup_insert_eq. cbn. rewrite insert_insert_eq.
  rewrite <- app_assoc. cbn [app]. unfold Client.with_substrate, with_heap. cbn.
  rewrite (client_eta a Hs). rewrite (insert_id _ _ _ Hself). reflexivity.
Qed.

(** ** The readers of [GlinClient] *)

Lemma ensure_connected_fails (m : Machine.t) (self : ref) (a : Client.attrs)
    (e : Py.Exc) (w : World) :
  Machine.heap m !! self = Some (GlinClientObj a) ->
  Client.substrate a = None ->
  connect_url (Client.rpc_url a) (Machine.world m) = (Raise e, w) ->
  GlinClient._ensure_connected self m
  = (Raise e,
     {| Machine.heap := Machine.heap m; Machine.world := w;
        Machine.calls := (Machine.calls m ++ [Action.Connect (Client.rpc_url a)])%list;
        Machine.stdout := Machine.stdout m |}).
Proof.
  intros Hself Hs Hc.
  unfold GlinClient._ensure_connected, GlinClient.connect, Substrate.connect.
  py_unfold. repeat (cbn; rewrite ?Hself, ?Hs, ?Hc). reflexivity.
Qed.

(** X16. Every reader of [GlinClient] connects on demand: it runs as
    [connect()] followed by itself.  So on an unconnected client whose
    connection cannot be opened, the constructor's exception escapes
    from all four readers - also from [get_task] and [get_provider],
    whose handlers cover the query only - after the single call
    [SubstrateInterface(url=rpc_url)], with no query made and nothing
    printed. *)
Theorem readers_connect_on_demand (m : Machine.t) (self : ref) (a : Client.attrs)
    (address : string) :
  Machine.heap m !! self = Some (GlinClientObj a) ->
  (GlinClient.get_balance self address m
   = (GlinClient.connect self ;; GlinClient.get_balance self address) m
   /\ GlinClient.get_task self address m
      = (GlinClient.connect self ;; GlinClient.get_task self address) m
   /\ GlinClient.get_provider self address m
      = (GlinClient.connect self ;; GlinClient.get_provider self address) m
   /\ GlinClient.get_block_number self m
      = (GlinClient.connect self ;; GlinClient.get_block_number self) m)
  /\ (forall e w,
        Client.substrate a = None ->
        connect_url (Client.rpc_url a) (Machine.world m) = (Raise e, w) ->
        let failed :=
          {| Machine.heap := Machine.heap m; Machine.world := w;
             Machine.calls :=
               (Machine.calls m ++ [Action.Connect (Client.rpc_url a)])%list;
             Machine.stdout := Machine.stdout m |} in
        GlinClient.get_balance self address m = (Raise e, failed)
        /\ GlinClient.get_task self address m = (Raise e, failed)
        /\ GlinClient.get_provider self address m = (Raise e, failed)
        /\ GlinClient.get_block_number self m = (Raise e, failed)).
Proof.
  intros Hself. split.
  - repeat split; symmetry;
      unfold GlinClient.get_balance, GlinClient.get_task, GlinClient.get_provider,
        GlinClient.get_block_number;
      apply (ensure_after_connect _ m self a Hself).
  - intros e w Hs Hc failed. subst failed.
    pose proof (ensure_connected_fails m self a e w Hself Hs Hc) as Hfail.
    unfold GlinClient.get_balance, GlinClient.get_task, GlinClient.get_provider,
      GlinClient.get_block_number.
    repeat split; unfold bind at 1; rewrite Hfail; reflexivity.
Qed.

(** X17. On a connected client each reader makes exactly one call on
    the library - its query, never a new connection - however the call
    ends, and leaves the store as it was. *)
Theorem readers_query_once (m : Machine.t) (self : ref) (a : Client.attrs)
    (s : SubstrateInterface.t) (address : string) :
  Machine.heap m !! self = Some (GlinClientObj a) ->
  Client.substrate a = Some s ->
  let sent {A} (run : Result A * Machine.t) (call : Action.t) :=
    Machine.calls run.2 = (Machine.calls m ++ [call])%list
    /\ Machine.heap run.2 = Machine.heap m in
  sent (GlinClient.get_balance self address m)
       (Action.Query "System" "Account" [Py.Str address])
  /\ sent (GlinClient.get_task self address m)
          (Action.Query "TaskRegistry" "Tasks" [Py.Str address])
  /\ sent (GlinClient.get_provider self address m)
          (Action.Query "ProviderStaking" "Providers" [Py.Str address])
  /\ sent (GlinClient.get_block_number self m) Action.GetBlockHeader.
Proof.
  intros Hself Hs sent. subst sent. cbv beta.
  unfold GlinClient.get_balance, GlinClient.get_task, GlinClient.get_provider,
    GlinClient.get_block_number, GlinClient._ensure_connected, GlinClient.connect.
  repeat split; py_go Hself; reflexivity.
Qed.

(** X18. Absence and failure differ on standard output.  On a connected
    client, [get_task] and [get_provider] return [None] both when the
    node has no value and when the query raises; in the first case
    nothing is printed, in the second exactly one line, "Error fetching
    task: " or "Error fetching provider: " followed by the exception's
    text. *)
Theorem absence_is_silent_failure_is_printed (m : Machine.t) (self : ref)
    (a : Client.attrs) (s : SubstrateInterface.t) (key : string) :
  Machine.heap m !! self = Some (GlinClientObj a) ->
  Client.substrate a = Some s ->
  let after (w : World) (call : Action.t) (out : list string) :=
    {| Machine.heap := Machine.heap m; Machine.world := w;
       Machine.calls := (Machine.calls m ++ [call])%list;
       Machine.stdout := (Machine.stdout m ++ out)%list |} in
  let tasks := Action.Query "TaskRegistry" "Tasks" [Py.Str key] in
  let providers := Action.Query "ProviderStaking" "Providers" [Py.Str key] in
  (forall result w,
     SubstrateInterface.query s "TaskRegistry" "Tasks" [Py.Str key] (Machine.world m)
     = (Ok result, w) ->
     QueryResult.value result = Py.None_ ->
     GlinClient.get_task self key m = (Ok None, after w tasks []))
  /\ (forall e w,
        SubstrateInterface.query s "TaskRegistry" "Tasks" [Py.Str key] (Machine.world m)
        = (Raise e, w) ->
        GlinClient.get_task self key m
        = (Ok None, after w tasks ["Error fetching task: " ++ Py.exc_str e]))
  /\ (forall result w,
        SubstrateInterface.query s "ProviderStaking" "Providers" [Py.Str key]
          (Machine.world m) = (Ok result, w) ->
        QueryResult.value result = Py.None_ ->
        GlinClient.get_provider self key m = (Ok None, after w providers []))
  /\ (forall e w,
        SubstrateInterface.query s "ProviderStaking" "Providers" [Py.Str key]
          (Machine.world m) = (Raise e, w) ->
        GlinClient.get_provider self key m
        = (Ok None, after w providers ["Error fetching provider: " ++ Py.exc_str e])).
Proof.
  intros Hself Hs after tasks providers. subst after tasks providers.
  unfold GlinClient.get_task, GlinClient.get_provider, GlinClient._ensure_connected,
    GlinClient.connect.
  repeat split.
  - intros result w Hq Hv. py_unfold.
    repeat (cbn; rewrite ?Hself, ?Hs, ?Hq, ?Hv). rewrite app_nil_r. reflexivity.
  - intros e w Hq. py_unfold.
    repeat (cbn; rewrite ?Hself, ?Hs, ?Hq). reflexivity.
  - intros result w Hq Hv. py_unfold.
    repeat (cbn; rewrite ?Hself, ?Hs, ?Hq, ?Hv). rewrite app_nil_r. reflexivity.
  - intros e w Hq. py_unfold.
    repeat (cbn; rewrite ?Hself, ?Hs, ?Hq). reflexivity.
Qed.

(** X19. A task record that lacks one of the six fields [get_task]
    reads is reported as no task: the result is [None] and one line is
    printed. *)
Theorem incomplete_task_is_no_task (m : Machine.t) (self : ref) (a : Client.attrs)
    (s : SubstrateInterface.t) (task_id : string) (result : QueryResult.t) (w : World)
    (task : list (string * Py.Val)) (field : string) :
  Machine.heap m !! self = Some (GlinClientObj a) ->
  Client.substrate a = Some s ->
  SubstrateInterface.query s "TaskRegistry" "Tasks" [Py.Str task_id] (Machine.world m)
  = (Ok result, w) ->
  QueryResult.value result = Py.Dict task ->
  In field ["creator"; "bounty"; "minProviders"; "maxProviders"; "ipfsHash"; "status"] ->
  Py.assoc field task = None ->
  exists m' line,
    GlinClient.get_task self task_id m = (Ok None, m')
    /\ Machine.stdout m' = (Machine.stdout m ++ [line])%list.
Proof.
  intros Hself Hs Hq Hv Hin Hnone.
  assert (Py.getitem (QueryResult.value result) field
          = Raise (Py.mkExc "KeyError" ("'" ++ field ++ "'"))) as Hmiss.
  { rewrite Hv. cbn. rewrite Hnone. reflexivity. }
  unfold GlinClient.get_task, GlinClient._ensure_connected, GlinClient.connect.
  assert (GlinContracts.is_not_None (QueryResult.value result) = true) as Hnn
    by (rewrite Hv; reflexivity).
  py_unfold.
  repeat (cbn -[Py.getitem Py.int GlinContracts.is_not_None];
          rewrite ?Hself, ?Hs, ?Hq, ?Hnn).
  cbn in Hin.
  repeat match goal with
  | |- context [Py.getitem ?v ?k] =>
      first [ rewrite Hmiss
            | destruct (Py.getitem v k) eqn:? ];
      cbn -[Py.getitem Py.int]
  | |- context [Py.int ?v] => destruct (Py.int v) eqn:?; cbn -[Py.getitem Py.int]
  end.
  all: try (eexists _, _; split; reflexivity).
  all: exfalso; destruct Hin as [<- | [<- | [<- | [<- | [<- | [<- | []]]]]]]; congruence.
Qed.

(** X20. [get_balance] adds whatever the node returns.  When [free] and
    [reserved] come back as strings, [total] is their concatenation, not
    their sum; when the node has no value for the account, subscripting
    [None] raises [TypeError], which escapes. *)
Theorem get_balance_outside_integers (m : Machine.t) (self : ref) (a : Client.attrs)
    (s : SubstrateInterface.t) (address : string) (result : QueryResult.t) (w : World) :
  Machine.heap m !! self = Some (GlinClientObj a) ->
  Client.substrate a = Some s ->
  SubstrateInterface.query s "System" "Account" [Py.Str address] (Machine.world m)
  = (Ok result, w) ->
  (forall account data free reserved,
     QueryResult.value result = Py.Dict account ->
     Py.assoc "data" account = Some (Py.Dict data) ->
     Py.assoc "free" data = Some (Py.Str free) ->
     Py.assoc "reserved" data = Some (Py.Str reserved) ->
     exists balance,
       (GlinClient.get_balance self address m).1 = Ok balance
       /\ Balance.free balance = free
       /\ Balance.reserved balance = reserved
       /\ Balance.total balance = free ++ reserved)
  /\ (QueryResult.value result = Py.None_ ->
      (GlinClient.get_balance self address m).1
      = Raise (Py.mkExc "TypeError" "'NoneType' object is not subscriptable")).
Proof.
  intros Hself Hs Hq.
  unfold GlinClient.get_balance, GlinClient._ensure_connected, GlinClient.connect.
  py_unfold. split.
  - intros account data free reserved Hv Hd Hf Hr.
    repeat (cbn; rewrite ?Hself, ?Hs, ?Hq, ?Hv, ?Hd, ?Hf, ?Hr).
    eexists. split; [reflexivity |]. repeat split.
  - intros Hv. repeat (cbn; rewrite ?Hself, ?Hs, ?Hq, ?Hv). reflexivity.
Qed.

(** ** Authentication *)

Section Auth.
Context `{auth : !AuthLibrary}.

(** X21. [GlinAuth.verify_signature] fails closed.  It never raises,
    and it returns [True] only when the library built a keypair from the
    address and that keypair's [verify] returned [True].  When the
    keypair is built and [verify] returns, its answer is returned and
    nothing is printed; when [Keypair(ss58_address=address)] raises, or
    [verify] does, the result is [False] and exactly one line is
    printed, "Signature verification failed: " followed by the text of
    the exception that was raised.  No object changes and no call is
    made on a connection. *)
Theorem verify_signature_fails_closed (m : Machine.t)
    (address message signature : string) :
  let run := GlinAuth.verify_signature address message signature m in
  let failed (e : Py.Exc) :=
    {| Machine.heap := Machine.heap m; Machine.world := Machine.world m;
       Machine.calls := Machine.calls m;
       Machine.stdout :=
         (Machine.stdout m
          ++ [("Signature verification failed: " ++ Py.exc_str e)%string])%list |} in
  (exists b m', run = (Ok b, m'))
  /\ (run.1 = Ok true <->
      exists keypair,
        keypair_of_address address = Ok keypair
        /\ keypair_verify keypair message signature = Ok true)
  /\ (forall keypair b,
        keypair_of_address address = Ok keypair ->
        keypair_verify keypair message signature = Ok b ->
        run = (Ok b, m))
  /\ (forall e,
        keypair_of_address address = Raise e ->
        run = (Ok false, failed e))
  /\ (forall keypair e,
        keypair_of_address address = Ok keypair ->
        keypair_verify keypair message signature = Raise e ->
        run = (Ok false, failed e)).
Proof.
  intros run failed. subst run failed.
  unfold GlinAuth.verify_signature. py_unfold. cbn.
  destruct (keypair_of_address address) as [keypair | e] eqn:Hk; cbn.
  - destruct (keypair_verify keypair message signature) as [b | e] eqn:Hv; cbn.
    + split; [eauto |]. split.
      { split.
        - intros E. injection E as ->. exists keypair. auto.
        - intros (k & Hk' & Hv'). congruence. }
      split; [intros k b' Hk' Hv'; congruence |].
      split; [discriminate |]. intros k e Hk' Hv'. congruence.
    + split; [eauto |]. split.
      { split; [discriminate |]. intros (k & Hk' & Hv'). congruence. }
      split; [intros k b' Hk' Hv'; congruence |].
      split; [discriminate |]. intros k e' Hk' Hv'.
      injection Hk' as <-. rewrite Hv in Hv'. injection Hv' as <-. reflexivity.
  - split; [eauto |]. split.
    { split; [discriminate |]. intros (k & Hk' & Hv'). discriminate. }
    split; [discriminate |].
    split; [| discriminate]. intros e' E. injection E as <-. reflexivity.
Qed.

Lemma append_length (s t : string) :
  String.length (s ++ t) = (String.length s + String.length t)%nat.
Proof. induction s as [| c s IH]; [reflexivity | simpl; f_equal; exact IH]. Qed.

Lemma append_inj_r (s a b : string) : a ++ s = b ++ s -> a = b.
Proof.
  revert b. induction a as [| c a IH]; intros [| d b] E.
  - reflexivity.
  - apply (f_equal String.length) in E. rewrite !append_length in E. cbn in E. lia.
  - apply (f_equal String.length) in E. rewrite !append_length in E. cbn in E. lia.
  - cbn in E. injection E as -> E. f_equal. apply IH. exact E.
Qed.

(** X22. A sign-in message pins down its timestamp: two messages
    generated for the same application name are equal only if the clock
    gave the same timestamp both times.  The clock is read once, and
    nothing else is touched. *)
Theorem auth_message_pins_the_timestamp (m1 m2 m1' m2' : Machine.t)
    (app_name message : string) :
  GlinAuth.generate_auth_message app_name m1 = (Ok message, m1') ->
  GlinAuth.generate_auth_message app_name m2 = (Ok message, m2') ->
  (utcnow_isoformat (Machine.world m1)).1 = (utcnow_isoformat (Machine.world m2)).1
  /\ Machine.world m1' = (utcnow_isoformat (Machine.world m1)).2
  /\ Machine.heap m1' = Machine.heap m1
  /\ Machine.calls m1' = Machine.calls m1
  /\ Machine.stdout m1' = Machine.stdout m1.
Proof.
  unfold GlinAuth.generate_auth_message, GlinAuth.utcnow. py_unfold.
  destruct (utcnow_isoformat (Machine.world m1)) as [t1 w1].
  destruct (utcnow_isoformat (Machine.world m2)) as [t2 w2]. cbn -[append].
  intros E1 E2. injection E1 as E1 <-. injection E2 as E2 _.
  split; [| repeat split].
  rewrite <- E2 in E1.
  apply String.app_inj in E1. apply String.app_inj in E1.
  apply String.app_inj in E1. apply String.app_inj in E1.
  apply String.app_inj in E1. apply append_inj_r in E1. exact E1.
Qed.

End Auth.

End Properties.

(** * The properties on the test session *)

#[local] Existing Instance Demo.types.
#[local] Existing Instance Demo.builtins.

Example session_refs (answer : Result QueryResult.t) :
  (Demo.session_run answer).1 = Ok (Demo.contracts, Demo.client).
Proof. reflexivity. Qed.

(** C1 on the session's registry: ratings 0 and 6, and the bounds 1 and 5. *)
Lemma submit_review_validates_rating_witness :
  let m := Demo.session Demo.query_failed in
  let a := Demo.wrapper Demo.query_failed "5Registry..." (Some Demo.alice) in
  let rejected :=
    ContractResult.make false None (Some "Rating must be between 1 and 5") in
  let accepted (rating : Z) :=
    exists r m' rest,
      RegistryContract.submit_review Demo.registry (Demo.review rating) None m = (Ok r, m')
      /\ Machine.calls m'
         = (Machine.calls m
            ++ Action.ComposeCall "Contracts" "call"
                 {| CallParams.dest := Some "5Registry...";
                    CallParams.value := 0;
                    CallParams.gas_limit :=
                      {| CallParams.ref_time := 50000000000;
                         CallParams.proof_size := 50000 |};
                    CallParams.storage_deposit_limit := None;
                    CallParams.data := [] |} :: rest)%list
      /\ (ContractResult.error r = None
          \/ ContractResult.error r = Some "Transaction failed"
          \/ exists e, ContractResult.error r = Some (Py.exc_str e)
                       /\ library_raises (Wrapper.substrate a) e) in
  Machine.heap m !! Demo.registry = Some (WrapperObj Wrapper.RegistryContract a)
  /\ truth (Wrapper.contract_address a) = true
  /\ truth (Wrapper.keypair a) = true
  /\ RegistryContract.submit_review Demo.registry (Demo.review 0) None m = (Ok rejected, m)
  /\ RegistryContract.submit_review Demo.registry (Demo.review 6) None m = (Ok rejected, m)
  /\ accepted 1
  /\ accepted 5.
Proof.
  intros m a rejected accepted.
  assert (Machine.heap m !! Demo.registry = Some (WrapperObj Wrapper.RegistryContract a))
    as Hself by reflexivity.
  assert (truth (Wrapper.contract_address a) = true) as Haddr by reflexivity.
  assert (truth (Wrapper.keypair a) = true) as Hkey by reflexivity.
  pose proof (fun rating =>
    submit_review_validates_rating m Demo.registry _ a (Demo.review rating) None
      Hself Haddr Hkey) as Hrating.
  refine (conj Hself (conj Haddr (conj Hkey (conj _ (conj _ (conj _ _)))))).
  - apply (proj1 (Hrating 0)). left. reflexivity.
  - apply (proj1 (Hrating 6)). right. reflexivity.
  - apply (proj2 (Hrating 1)). split; discriminate.
  - apply (proj2 (Hrating 5)). split; discriminate.
Defined.

(** C4 on the session's escrow wrapper. *)
Lemma storage_getters_return_defaults_witness :
  let m := Demo.session (Demo.account 1000 0) in
  let a := Demo.wrapper (Demo.account 1000 0) "5Escrow..." (Some Demo.alice) in
  Machine.heap m !! Demo.escrow = Some (WrapperObj Wrapper.EscrowContract a)
  /\ RegistryContract.get_profile Demo.escrow Demo.alice m = (Ok None, m)
  /\ RegistryContract.get_review Demo.escrow Demo.alice 0 m = (Ok None, m)
  /\ EscrowContract.get_agreement Demo.escrow "0" m = (Ok None, m)
  /\ EscrowContract.get_milestone Demo.escrow "0" 0 m = (Ok None, m)
  /\ ArbitrationContract.get_dispute Demo.escrow "7" m = (Ok None, m)
  /\ ArbitrationContract.get_arbitrator Demo.escrow Demo.alice m = (Ok None, m)
  /\ ArbitrationContract.get_vote Demo.escrow "7" Demo.alice m = (Ok None, m)
  /\ RegistryContract.get_review_count Demo.escrow Demo.alice m = (Ok 0, m)
  /\ EscrowContract.get_milestone_count Demo.escrow "0" m = (Ok 0, m)
  /\ RegistryContract.get_min_stake Demo.escrow ProfessionalRole.LAWYER m = (Ok "0", m)
  /\ RegistryContract.is_active_professional Demo.escrow Demo.alice m = (Ok false, m)
  /\ ArbitrationContract.is_active_arbitrator Demo.escrow Demo.alice m = (Ok false, m).
Proof.
  intros m a.
  assert (Machine.heap m !! Demo.escrow = Some (WrapperObj Wrapper.EscrowContract a))
    as Hself by reflexivity.
  refine (conj Hself _).
  exact (storage_getters_return_defaults m Demo.escrow _ a Demo.alice "0" "7" 0
           ProfessionalRole.LAWYER Hself).
Defined.

(** C10 on the session's registry. *)
Lemma get_all_reviews_is_empty_witness :
  let m := Demo.session (Demo.account 1000 0) in
  let a := Demo.wrapper (Demo.account 1000 0) "5Registry..." (Some Demo.alice) in
  Machine.heap m !! Demo.registry = Some (WrapperObj Wrapper.RegistryContract a)
  /\ RegistryContract.get_all_reviews Demo.registry Demo.bob m = (Ok [], m).
Proof.
  intros m a.
  assert (Machine.heap m !! Demo.registry = Some (WrapperObj Wrapper.RegistryContract a))
    as Hself by reflexivity.
  refine (conj Hself _).
  exact (get_all_reviews_is_empty m Demo.registry _ a Demo.bob Hself).
Defined.

(** C6 for [create_agreement] with the docstring's parameters, on the
    session's escrow wrapper. *)
Lemma mutating_operations_return_contract_result_witness :
  let m := Demo.session Demo.query_failed in
  let a := Demo.wrapper Demo.query_failed "5Escrow..." (Some Demo.alice) in
  let op := Mutation.create_agreement Demo.agreement_params in
  Machine.heap m !! Demo.escrow = Some (WrapperObj Wrapper.EscrowContract a)
  /\ exists r m',
       Mutation.call op Demo.escrow None m = (Ok r, m')
       /\ (truth (Wrapper.contract_address a) = false ->
           r = ContractResult.make false None (Some "Contract not initialized") /\ m' = m)
       /\ (truth (Wrapper.contract_address a) = true ->
           truth (Wrapper.keypair a) = false ->
           r = ContractResult.make false None (Some "Keypair not set") /\ m' = m)
       /\ (ContractResult.success r = false -> ContractResult.error r <> None).
Proof.
  intros m a op.
  assert (Machine.heap m !! Demo.escrow = Some (WrapperObj Wrapper.EscrowContract a))
    as Hself by reflexivity.
  refine (conj Hself _).
  exact (mutating_operations_return_contract_result op m Demo.escrow _ a None Hself).
Defined.

(** C7 for [contracts.set_keypair(bob)] on the session. *)
Lemma set_keypair_updates_only_keypairs_witness :
  let answer := Demo.query_failed in
  let m := Demo.session answer in
  let was address := Demo.wrapper answer address (Some Demo.alice) in
  let now address := Demo.wrapper answer address (Some Demo.bob) in
  Machine.heap m !! Demo.contracts
  = Some (GlinContractsObj (Demo.bundle answer (Some Demo.alice)))
  /\ Machine.heap m !! Demo.escrow
     = Some (WrapperObj Wrapper.EscrowContract (was "5Escrow..."))
  /\ Machine.heap m !! Demo.registry
     = Some (WrapperObj Wrapper.RegistryContract (was "5Registry..."))
  /\ Machine.heap m !! Demo.arbitration
     = Some (WrapperObj Wrapper.ArbitrationContract (was "5Arbitration..."))
  /\ exists m',
       GlinContracts.set_keypair Demo.contracts (Some Demo.bob) m = (Ok tt, m')
       /\ Machine.heap m' !! Demo.contracts
          = Some (GlinContractsObj (Demo.bundle answer (Some Demo.bob)))
       /\ Machine.heap m' !! Demo.escrow
          = Some (WrapperObj Wrapper.EscrowContract (now "5Escrow..."))
       /\ Machine.heap m' !! Demo.registry
          = Some (WrapperObj Wrapper.RegistryContract (now "5Registry..."))
       /\ Machine.heap m' !! Demo.arbitration
          = Some (WrapperObj Wrapper.ArbitrationContract (now "5Arbitration..."))
       /\ (forall other : ref,
             other <> Demo.contracts -> other <> Demo.escrow ->
             other <> Demo.registry -> other <> Demo.arbitration ->
             Machine.heap m' !! other = Machine.heap m !! other)
       /\ Machine.world m' = Machine.world m
       /\ Machine.calls m' = Machine.calls m
       /\ Machine.stdout m' = Machine.stdout m.
Proof.
  intros answer m was now.
  assert (Machine.heap m !! Demo.contracts
          = Some (GlinContractsObj (Demo.bundle answer (Some Demo.alice))))
    as Hself by reflexivity.
  assert (Machine.heap m !! Demo.escrow
          = Some (WrapperObj Wrapper.EscrowContract (was "5Escrow...")))
    as He by reflexivity.
  assert (Machine.heap m !! Demo.registry
          = Some (WrapperObj Wrapper.RegistryContract (was "5Registry...")))
    as Hr by reflexivity.
  assert (Machine.heap m !! Demo.arbitration
          = Some (WrapperObj Wrapper.ArbitrationContract (was "5Arbitration...")))
    as Hb by reflexivity.
  refine (conj Hself (conj He (conj Hr (conj Hb _)))).
  exact (set_keypair_updates_only_keypairs m Demo.contracts (Some Demo.bob)
           (Demo.bundle answer (Some Demo.alice)) _ _ _ Hself He Hr Hb).
Defined.

(** C5 on the session's escrow wrapper and on a second escrow wrapper,
    built later without an address or a keypair. *)
Lemma encode_call_deterministic_witness :
  let answer := Demo.query_failed in
  let m := Demo.session answer in
  let second : ref := 6%positive in
  let m' :=
    (@EscrowContract.__init__ Demo.types (Demo.node answer false) None None m).2 in
  let a := Demo.wrapper answer "5Escrow..." (Some Demo.alice) in
  let a' := @Wrapper.Build_attrs Demo.types (Demo.node answer false) None None None in
  let args := [Py.Str "0"; Py.Int 1] in
  Machine.heap m !! Demo.escrow = Some (WrapperObj Wrapper.EscrowContract a)
  /\ Machine.heap m' !! second = Some (WrapperObj Wrapper.EscrowContract a')
  /\ exists data,
       @Method._encode_call Demo.types Demo.escrow "complete_milestone" args m
       = (Ok data, m)
       /\ @Method._encode_call Demo.types second "complete_milestone" args m'
          = (Ok data, m').
Proof.
  intros answer m second m' a a' args.
  assert (Machine.heap m !! Demo.escrow = Some (WrapperObj Wrapper.EscrowContract a))
    as Hself by reflexivity.
  assert (Machine.heap m' !! second = Some (WrapperObj Wrapper.EscrowContract a'))
    as Hself' by reflexivity.
  refine (conj Hself (conj Hself' _)).
  exact (@encode_call_deterministic Demo.types m m' Demo.escrow second
           Wrapper.EscrowContract a a' "complete_milestone" args Hself Hself').
Defined.

(** C9, as amended, for an account holding 1000 GLIN free and 500 GLIN
    reserved, at 18 decimals, read by a client that has not connected
    yet. *)
Lemma get_balance_total_is_exact_sum_witness :
  let free := 1000000000000000000000 in
  let reserved := 500000000000000000000 in
  let answer := Demo.account free reserved in
  let m := (@GlinClient.__init__ Demo.types GlinClient.default_rpc_url Demo.boot).2 in
  let self : ref := 1%positive in
  let connected :=
    {| Machine.heap := {[ self := GlinClientObj (Demo.connected answer) ]};
       Machine.world := Machine.world m;
       Machine.calls := [Action.Connect GlinClient.default_rpc_url];
       Machine.stdout := [] |} in
  let data := [("free", Py.Int free); ("reserved", Py.Int reserved);
               ("frozen", Py.Int 0)] in
  let account := [("nonce", Py.Int 0); ("data", Py.Dict data)] in
  let result := {| QueryResult.value := Py.Dict account |} in
  let get_balance :=
    @GlinClient.get_balance Demo.types (Demo.library answer) Demo.builtins in
  @GlinClient._ensure_connected Demo.types (Demo.library answer) self m
  = (Ok tt, connected)
  /\ Machine.heap connected !! self = Some (GlinClientObj (Demo.connected answer))
  /\ Client.substrate (Demo.connected answer) = Some (Demo.node answer true)
  /\ SubstrateInterface.query (Demo.node answer true) "System" "Account"
       [Py.Str Demo.alice] (Machine.world connected)
     = (Ok result, Machine.world connected)
  /\ QueryResult.value result = Py.Dict account
  /\ Py.assoc "data" account = Some (Py.Dict data)
  /\ Py.assoc "free" data = Some (Py.Int free)
  /\ Py.assoc "reserved" data = Some (Py.Int reserved)
  /\ exists balance m',
       get_balance self Demo.alice m = (Ok balance, m')
       /\ Balance.free balance = Py.str_int free
       /\ Balance.reserved balance = Py.str_int reserved
       /\ Balance.total balance = Py.str_int (free + reserved)
       /\ Balance.frozen balance = "0"
       /\ Py.read_decimal (Balance.free balance) = Some free
       /\ Py.read_decimal (Balance.reserved balance) = Some reserved
       /\ Py.read_decimal (Balance.total balance) = Some (free + reserved)
       /\ (forall z, Py.Int 0 = Py.Int z ->
                     Py.read_decimal (Balance.frozen balance) = Some z).
Proof.
  intros free reserved answer m self connected data account result get_balance.
  assert (@GlinClient._ensure_connected Demo.types (Demo.library answer) self m
          = (Ok tt, connected)) as Hconnected by (vm_compute; reflexivity).
  assert (Machine.heap connected !! self = Some (GlinClientObj (Demo.connected answer)))
    as Hself by reflexivity.
  refine (conj Hconnected (conj Hself (conj eq_refl (conj eq_refl (conj eq_refl
            (conj eq_refl (conj eq_refl (conj eq_refl _)))))))).
  exact (@get_balance_total_is_exact_sum Demo.types (Demo.library answer) Demo.builtins
           m connected self (Demo.connected answer) (Demo.node answer true) Demo.alice
           result (Machine.world connected) account data free reserved
           Hconnected Hself eq_refl eq_refl eq_refl eq_refl eq_refl eq_refl).
Defined.

(** C9 as first stated fails on [frozen]: with integer [free] and
    [reserved] and a ["frozen"] entry that is [None], [get_balance]
    returns, and the [frozen] field of its [Balance] is ["None"], which
    is no decimal numeral. *)
Lemma get_balance_frozen_is_not_always_decimal :
  let answer :=
    Ok {| QueryResult.value :=
            Py.Dict [("nonce", Py.Int 0);
                     ("data", Py.Dict [("free", Py.Int 1000);
                                       ("reserved", Py.Int 234);
                                       ("frozen", Py.None_)])] |} in
  exists balance m',
    @GlinClient.get_balance Demo.types (Demo.library answer) Demo.builtins
      Demo.client Demo.alice (Demo.session answer) = (Ok balance, m')
    /\ Balance.free balance = "1000"
    /\ Balance.reserved balance = "234"
    /\ Balance.total balance = "1234"
    /\ Balance.frozen balance = "None"
    /\ Py.read_decimal (Balance.frozen balance) = None.
Proof.
  intros answer. eexists _, _. split; [vm_compute; reflexivity |].
  cbn. repeat split.
Qed.

Example get_balance_example :
  let answer := Demo.account 1000000000000000000000 500000000000000000000 in
  (@GlinClient.get_balance Demo.types (Demo.library answer) Demo.builtins
     Demo.client Demo.alice (Demo.session answer)).1
  = Ok {| Balance.free := "1000000000000000000000";
          Balance.reserved := "500000000000000000000";
          Balance.frozen := "0";
          Balance.total := "1500000000000000000000" |}.
Proof. vm_compute. reflexivity. Qed.

(** C8, as amended, on the session, with a node whose queries raise. *)
Lemma handled_queries_return_the_default_witness :
  let answer := Demo.query_failed in
  let m := Demo.session answer in
  let aw := Demo.wrapper answer "5Registry..." (Some Demo.alice) in
  let ac := Demo.bundle answer (Some Demo.alice) in
  let ag := Demo.connected answer in
  let s := Demo.node answer true in
  let account := Demo.alice in
  let world := Machine.world m in
  let is_contract := @GlinContracts.is_contract Demo.types in
  let get_task := @GlinClient.get_task Demo.types (Demo.library answer) Demo.builtins in
  let get_provider :=
    @GlinClient.get_provider Demo.types (Demo.library answer) Demo.builtins in
  let get_balance :=
    @GlinClient.get_balance Demo.types (Demo.library answer) Demo.builtins in
  let get_block_number :=
    @GlinClient.get_block_number Demo.types (Demo.library answer) in
  Machine.heap m !! Demo.registry = Some (WrapperObj Wrapper.RegistryContract aw)
  /\ Machine.heap m !! Demo.contracts = Some (GlinContractsObj ac)
  /\ Machine.heap m !! Demo.client = Some (GlinClientObj ag)
  /\ Client.substrate ag = Some s
  /\ (RegistryContract.get_profile Demo.registry account m).1 = Ok None
  /\ (RegistryContract.get_review Demo.registry account 0 m).1 = Ok None
  /\ (RegistryContract.get_review_count Demo.registry account m).1 = Ok 0
  /\ (RegistryContract.get_min_stake Demo.registry ProfessionalRole.LAWYER m).1 = Ok "0"
  /\ (RegistryContract.is_active_professional Demo.registry account m).1 = Ok false
  /\ (EscrowContract.get_agreement Demo.registry "0" m).1 = Ok None
  /\ (EscrowContract.get_milestone Demo.registry "0" 0 m).1 = Ok None
  /\ (EscrowContract.get_milestone_count Demo.registry "0" m).1 = Ok 0
  /\ (ArbitrationContract.get_dispute Demo.registry "7" m).1 = Ok None
  /\ (ArbitrationContract.get_arbitrator Demo.registry account m).1 = Ok None
  /\ (ArbitrationContract.get_vote Demo.registry "7" account m).1 = Ok None
  /\ (ArbitrationContract.is_active_arbitrator Demo.registry account m).1 = Ok false
  /\ (exists b, (is_contract Demo.contracts account m).1 = Ok b
        /\ let answer := SubstrateInterface.query (Contracts.substrate ac)
                           "Contracts" "ContractInfoOf" [Py.Str account] world in
           (raises answer \/ absent answer -> b = false))
  /\ (exists r, (get_task Demo.client account m).1 = Ok r
        /\ let answer := SubstrateInterface.query s "TaskRegistry" "Tasks"
                           [Py.Str account] world in
           (raises answer \/ absent answer -> r = None))
  /\ (exists r, (get_provider Demo.client account m).1 = Ok r
        /\ let answer := SubstrateInterface.query s "ProviderStaking" "Providers"
                           [Py.Str account] world in
           (raises answer \/ absent answer -> r = None))
  /\ (forall e w,
        SubstrateInterface.query s "System" "Account" [Py.Str account] world = (Raise e, w) ->
        (get_balance Demo.client account m).1 = Raise e)
  /\ (forall e w,
        SubstrateInterface.get_block_header s world = (Raise e, w) ->
        (get_block_number Demo.client m).1 = Raise e).
Proof.
  intros answer m aw ac ag s account world
    is_contract get_task get_provider get_balance get_block_number.
  assert (Machine.heap m !! Demo.registry = Some (WrapperObj Wrapper.RegistryContract aw))
    as Hw by reflexivity.
  assert (Machine.heap m !! Demo.contracts = Some (GlinContractsObj ac))
    as Hc by reflexivity.
  assert (Machine.heap m !! Demo.client = Some (GlinClientObj ag))
    as Hg by reflexivity.
  refine (conj Hw (conj Hc (conj Hg (conj eq_refl _)))).
  exact (@handled_queries_return_the_default Demo.types (Demo.library answer)
           Demo.builtins m Demo.registry Demo.contracts Demo.client _ aw ac ag s
           account "0" "7" 0 ProfessionalRole.LAWYER Hw Hc Hg eq_refl).
Defined.

(** C8 fails on [GlinClient.get_balance]: when the node's query raises,
    the exception reaches the caller. *)
Lemma get_balance_lets_the_exception_escape :
  (@GlinClient.get_balance Demo.types (Demo.library Demo.query_failed) Demo.builtins
     Demo.client Demo.alice (Demo.session Demo.query_failed)).1
  = Raise (Py.mkExc "Exception" "Query failed").
Proof. vm_compute. reflexivity. Qed.

(** So does [GlinContracts.get_contract_balance], for which
    [test_get_balance_handles_error] of [contracts/tests/test_client.py]
    expects ["0"]. *)
Example get_contract_balance_raises :
  (@GlinContracts.get_contract_balance Demo.types Demo.builtins
     Demo.contracts "5Error..." (Demo.session Demo.query_failed)).1
  = Raise (Py.mkExc "Exception" "Query failed").
Proof. vm_compute. reflexivity. Qed.

(** C2, at the input where the code departs from it: [create_agreement]
    with the docstring's parameters, on a node that includes the
    extrinsic and emits no event.  The three calls are made, and the
    result is a plain success whose [data] is [None] and whose [error] is
    [None]: nothing in it tells the caller that no identifier was found.
    The docstring promises a "ContractResult with agreement_id on
    success"; [_extract_agreement_id] is still a stub. *)
Theorem create_agreement_success_carries_no_identifier :
  (forall x b w,
     (SubstrateInterface.submit_extrinsic (Demo.node Demo.query_failed true) x b w).1
     = Ok {| ExtrinsicReceipt.is_success := true;
             ExtrinsicReceipt.triggered_events := [] |})
  /\ (EscrowContract.create_agreement Demo.escrow Demo.agreement_params None
        (Demo.session Demo.query_failed)).1
     = Ok {| ContractResult.success := true;
             ContractResult.data := None;
             ContractResult.error := None;
             ContractResult.gas_consumed := None;
             ContractResult.storage_deposit := None |}
  /\ length (Machine.calls
               (EscrowContract.create_agreement Demo.escrow Demo.agreement_params None
                  (Demo.session Demo.query_failed)).2)
     = (length (Machine.calls (Demo.session Demo.query_failed)) + 3)%nat.
Proof.
  split; [reflexivity |]. split; vm_compute; reflexivity.
Qed.

(** * Further properties on the test session *)

(** X1 for [withdraw_stake] with a gas limit of 0, on the session's
    registry. *)
Lemma mutating_operation_trace_witness :
  let m := Demo.session Demo.query_failed in
  let a := Demo.wrapper Demo.query_failed "5Registry..." (Some Demo.alice) in
  let op := Mutation.withdraw_stake in
  Machine.heap m !! Demo.registry = Some (WrapperObj Wrapper.RegistryContract a)
  /\ exists r m' sent value,
       Mutation.call op Demo.registry (Some 0) m = (Ok r, m')
       /\ Machine.calls m' = (Machine.calls m ++ sent)%list
       /\ Wire.trace
            {| CallParams.dest := Some "5Registry...";
               CallParams.value := value;
               CallParams.gas_limit :=
                 {| CallParams.ref_time := 40000000000;
                    CallParams.proof_size := 40000 |};
               CallParams.storage_deposit_limit := None;
               CallParams.data := [] |}
            (Some Demo.alice) sent
       /\ (sent <> [] -> Wire.attached (Wire.amount op) value)
       /\ Machine.heap m' = Machine.heap m
       /\ Machine.stdout m' = Machine.stdout m.
Proof.
  intros m a op.
  assert (Machine.heap m !! Demo.registry = Some (WrapperObj Wrapper.RegistryContract a))
    as Hself by reflexivity.
  refine (conj Hself _).
  exact (mutating_operation_trace op m Demo.registry _ a (Some 0) Hself).
Defined.

(** X2 for the docstring's [create_agreement] on the session's escrow. *)
Lemma success_means_included_witness :
  let m := Demo.session Demo.query_failed in
  let a := Demo.wrapper Demo.query_failed "5Escrow..." (Some Demo.alice) in
  let op := Mutation.create_agreement Demo.agreement_params in
  let run := Mutation.call op Demo.escrow None m in
  let r := ContractResult.make true None None in
  Machine.heap m !! Demo.escrow = Some (WrapperObj Wrapper.EscrowContract a)
  /\ run = (Ok r, run.2)
  /\ ContractResult.success r = true
  /\ ContractResult.error r = None
  /\ exists p call extrinsic receipt w w',
       Machine.calls run.2
       = (Machine.calls m
          ++ [Action.ComposeCall "Contracts" "call" p;
              Action.CreateSignedExtrinsic call (Wrapper.keypair a);
              Action.SubmitExtrinsic extrinsic true])%list
       /\ CallParams.dest p = Wrapper.contract_address a
       /\ SubstrateInterface.submit_extrinsic (Wrapper.substrate a) extrinsic true w
          = (Ok receipt, w')
       /\ ExtrinsicReceipt.is_success receipt = true.
Proof.
  intros m a op run r.
  assert (Machine.heap m !! Demo.escrow = Some (WrapperObj Wrapper.EscrowContract a))
    as Hself by reflexivity.
  assert (run = (Ok r, run.2)) as Hrun by (vm_compute; reflexivity).
  refine (conj Hself (conj Hrun (conj eq_refl _))).
  exact (success_means_included op m run.2 Demo.escrow _ a None r Hself Hrun eq_refl).
Defined.

(** X3 for [finalize_dispute] on the session's arbitration wrapper. *)
Lemma results_carry_no_payload_witness :
  let m := Demo.session Demo.query_failed in
  let a := Demo.wrapper Demo.query_failed "5Arbitration..." (Some Demo.alice) in
  let op := Mutation.finalize_dispute "0" in
  let run := Mutation.call op Demo.arbitration None m in
  let r := ContractResult.make true None None in
  Machine.heap m !! Demo.arbitration = Some (WrapperObj Wrapper.ArbitrationContract a)
  /\ run = (Ok r, run.2)
  /\ ContractResult.data r = None
  /\ ContractResult.gas_consumed r = None
  /\ ContractResult.storage_deposit r = None.
Proof.
  intros m a op run r.
  assert (Machine.heap m !! Demo.arbitration
          = Some (WrapperObj Wrapper.ArbitrationContract a)) as Hself by reflexivity.
  assert (run = (Ok r, run.2)) as Hrun by (vm_compute; reflexivity).
  refine (conj Hself (conj Hrun _)).
  exact (results_carry_no_payload op m run.2 Demo.arbitration _ a None r Hself Hrun).
Defined.

(** X4 for a registration whose stake is written ["1e21"]. *)
Lemma malformed_amount_is_reported_witness :
  let m := Demo.session Demo.query_failed in
  let a := Demo.wrapper Demo.query_failed "5Registry..." (Some Demo.alice) in
  let op := Mutation.register (Scenario.registration "1e21") in
  let e := Py.mkExc "ValueError" "invalid literal for int() with base 10: '1e21'" in
  Machine.heap m !! Demo.registry = Some (WrapperObj Wrapper.RegistryContract a)
  /\ truth (Wrapper.contract_address a) = true
  /\ truth (Wrapper.keypair a) = true
  /\ Wire.amount op = Some "1e21"
  /\ Py.int (Py.Str "1e21") = Raise e
  /\ Mutation.call op Demo.registry None m
     = (Ok (ContractResult.make false None (Some (Py.exc_str e))), m).
Proof.
  intros m a op e.
  assert (Machine.heap m !! Demo.registry = Some (WrapperObj Wrapper.RegistryContract a))
    as Hself by reflexivity.
  refine (conj Hself (conj eq_refl (conj eq_refl (conj eq_refl (conj eq_refl _))))).
  exact (malformed_amount_is_reported op m Demo.registry _ a None "1e21" e
           Hself eq_refl eq_refl eq_refl eq_refl).
Defined.


(** X7 for the registry's setters on the session. *)
Lemma wrapper_setters_witness :
  let m := Demo.session Demo.query_failed in
  let a := Demo.wrapper Demo.query_failed "5Registry..." (Some Demo.alice) in
  let set_contract_address := @RegistryContract.set_contract_address Demo.types in
  let set_keypair := @RegistryContract.set_keypair Demo.types in
  let put (attrs : Wrapper.attrs) :=
    {| Machine.heap :=
         <[Demo.registry := WrapperObj Wrapper.RegistryContract attrs]> (Machine.heap m);
       Machine.world := Machine.world m;
       Machine.calls := Machine.calls m;
       Machine.stdout := Machine.stdout m |} in
  Machine.heap m !! Demo.registry = Some (WrapperObj Wrapper.RegistryContract a)
  /\ In set_contract_address
       [EscrowContract.set_contract_address; RegistryContract.set_contract_address;
        ArbitrationContract.set_contract_address]
  /\ In set_keypair
       [EscrowContract.set_keypair; RegistryContract.set_keypair;
        ArbitrationContract.set_keypair]
  /\ set_contract_address Demo.registry "5New..." m
     = (Ok tt, put (Demo.wrapper Demo.query_failed "5New..." (Some Demo.alice)))
  /\ set_keypair Demo.registry (Some Demo.bob) m
     = (Ok tt, put (Demo.wrapper Demo.query_failed "5Registry..." (Some Demo.bob)))
  /\ (set_contract_address Demo.registry "5New..." ;;
      set_contract_address Demo.registry "5Newer...") m
     = set_contract_address Demo.registry "5Newer..." m
  /\ (set_keypair Demo.registry (Some Demo.bob) ;; set_keypair Demo.registry None) m
     = set_keypair Demo.registry None m
  /\ (set_keypair Demo.registry (Some Demo.bob) ;;
      set_contract_address Demo.registry "5New...") m
     = (set_contract_address Demo.registry "5New..." ;;
        set_keypair Demo.registry (Some Demo.bob)) m.
Proof.
  intros m a set_contract_address set_keypair put.
  assert (Machine.heap m !! Demo.registry = Some (WrapperObj Wrapper.RegistryContract a))
    as Hself by reflexivity.
  assert (In set_contract_address
            [EscrowContract.set_contract_address; RegistryContract.set_contract_address;
             ArbitrationContract.set_contract_address]) as Ha by (right; left; reflexivity).
  assert (In set_keypair
            [EscrowContract.set_keypair; RegistryContract.set_keypair;
             ArbitrationContract.set_keypair]) as Hk by (right; left; reflexivity).
  refine (conj Hself (conj Ha (conj Hk _))).
  exact (wrapper_setters m Demo.registry _ a "5New..." "5Newer..." (Some Demo.bob) None
           set_contract_address set_keypair Hself Ha Hk).
Defined.

(** X8 for [withdraw_stake] on a registry built with neither address
    nor keypair. *)
Lemma setters_make_the_wrapper_usable_witness :
  let m := Scenario.bare Demo.query_failed in
  let a := Scenario.unset Demo.query_failed in
  let op := Mutation.withdraw_stake in
  let p :=
    {| CallParams.dest := Some "5Registry...";
       CallParams.value := 0;
       CallParams.gas_limit :=
         {| CallParams.ref_time := 40000000000; CallParams.proof_size := 40000 |};
       CallParams.storage_deposit_limit := None;
       CallParams.data := [] |} in
  Machine.heap m !! Demo.registry = Some (WrapperObj Wrapper.RegistryContract a)
  /\ truth "5Registry..." = true
  /\ Wire.admitted op = true
  /\ Wire.attached (Wire.amount op) 0
  /\ Mutation.call op Demo.registry None m
     = (Ok (ContractResult.make false None (Some "Contract not initialized")), m)
  /\ exists r m' rest,
       (EscrowContract.set_contract_address Demo.registry "5Registry..." ;;
        EscrowContract.set_keypair Demo.registry (Some Demo.alice) ;;
        Mutation.call op Demo.registry None) m = (Ok r, m')
       /\ Machine.calls m'
          = (Machine.calls m ++ Action.ComposeCall "Contracts" "call" p :: rest)%list
       /\ Wire.trace p (Some Demo.alice)
            (Action.ComposeCall "Contracts" "call" p :: rest).
Proof.
  intros m a op p.
  assert (Machine.heap m !! Demo.registry = Some (WrapperObj Wrapper.RegistryContract a))
    as Hself by reflexivity.
  refine (conj Hself (conj eq_refl (conj eq_refl (conj eq_refl (conj eq_refl _))))).
  exact (setters_make_the_wrapper_usable op m Demo.registry _ a "5Registry..."
           Demo.alice None 0 Hself eq_refl eq_refl eq_refl).
Defined.

(** X10 for [contracts.set_keypair(bob)] and then [vote] on the
    session's arbitration wrapper. *)
Lemma bundle_signs_with_the_latest_keypair_witness :
  let answer := Demo.query_failed in
  let m := Demo.session answer in
  let was address := Demo.wrapper answer address (Some Demo.alice) in
  let a := Demo.bundle answer (Some Demo.alice) in
  let op := Mutation.vote {| VoteParams.dispute_id := "0";
                             VoteParams.choice := VoteChoice.IN_FAVOR_OF_CLAIMANT |} in
  let k := Some Demo.bob in
  Machine.heap m !! Demo.contracts = Some (GlinContractsObj a)
  /\ Machine.heap m !! Contracts.escrow a
     = Some (WrapperObj Wrapper.EscrowContract (was "5Escrow..."))
  /\ Machine.heap m !! Contracts.registry a
     = Some (WrapperObj Wrapper.RegistryContract (was "5Registry..."))
  /\ Machine.heap m !! Contracts.arbitration a
     = Some (WrapperObj Wrapper.ArbitrationContract (was "5Arbitration..."))
  /\ In (Demo.arbitration, was "5Arbitration...")
       [(Contracts.escrow a, was "5Escrow..."); (Contracts.registry a, was "5Registry...");
        (Contracts.arbitration a, was "5Arbitration...")]
  /\ exists m1 result m2 sent value,
       GlinContracts.set_keypair Demo.contracts k m = (Ok tt, m1)
       /\ Mutation.call op Demo.arbitration None m1 = (Ok result, m2)
       /\ Machine.calls m2 = (Machine.calls m ++ sent)%list
       /\ Wire.trace
            {| CallParams.dest := Some "5Arbitration...";
               CallParams.value := value;
               CallParams.gas_limit :=
                 {| CallParams.ref_time := 50000000000;
                    CallParams.proof_size := 50000 |};
               CallParams.storage_deposit_limit := None;
               CallParams.data := [] |}
            k sent
       /\ (k = None -> truth (Some "5Arbitration...") = true ->
           result = ContractResult.make false None (Some "Keypair not set") /\ sent = []).
Proof.
  intros answer m was a op k.
  assert (Machine.heap m !! Demo.contracts = Some (GlinContractsObj a))
    as Hself by reflexivity.
  assert (Machine.heap m !! Contracts.escrow a
          = Some (WrapperObj Wrapper.EscrowContract (was "5Escrow...")))
    as He by reflexivity.
  assert (Machine.heap m !! Contracts.registry a
          = Some (WrapperObj Wrapper.RegistryContract (was "5Registry...")))
    as Hr by reflexivity.
  assert (Machine.heap m !! Contracts.arbitration a
          = Some (WrapperObj Wrapper.ArbitrationContract (was "5Arbitration...")))
    as Hb by reflexivity.
  assert (In (Demo.arbitration, was "5Arbitration...")
            [(Contracts.escrow a, was "5Escrow...");
             (Contracts.registry a, was "5Registry...");
             (Contracts.arbitration a, was "5Arbitration...")])
    as Hin by (right; right; left; reflexivity).
  refine (conj Hself (conj He (conj Hr (conj Hb (conj Hin _))))).
  exact (bundle_signs_with_the_latest_keypair op m Demo.contracts k a _ _ _
           Demo.arbitration (was "5Arbitration...") None Hself He Hr Hb Hin).
Defined.

(** X11 on the session, for a node that knows the contract. *)
Lemma is_contract_iff_info_present_witness :
  let answer := Scenario.answer (Py.Dict [("code_hash", Py.Str "0x123...")]) in
  let m := Demo.session answer in
  let a := Demo.bundle answer (Some Demo.alice) in
  Machine.heap m !! Demo.contracts = Some (GlinContractsObj a)
  /\ exists b m',
       GlinContracts.is_contract Demo.contracts "5Contract..." m = (Ok b, m')
       /\ (b = true <->
           exists result w,
             SubstrateInterface.query (Contracts.substrate a) "Contracts" "ContractInfoOf"
               [Py.Str "5Contract..."] (Machine.world m) = (Ok result, w)
             /\ QueryResult.value result <> Py.None_)
       /\ Machine.calls m'
          = (Machine.calls m
             ++ [Action.Query "Contracts" "ContractInfoOf" [Py.Str "5Contract..."]])%list
       /\ Machine.heap m' = Machine.heap m
       /\ Machine.stdout m' = Machine.stdout m.
Proof.
  intros answer m a.
  assert (Machine.heap m !! Demo.contracts = Some (GlinContractsObj a))
    as Hself by reflexivity.
  refine (conj Hself _).
  exact (is_contract_iff_info_present m Demo.contracts a "5Contract..." Hself).
Defined.

(** X12 on the session, for an account with a free balance of 1000. *)
Lemma get_contract_balance_cases_witness :
  let answer := Demo.account 1000 0 in
  let m := Demo.session answer in
  let a := Demo.bundle answer (Some Demo.alice) in
  let result :=
    {| QueryResult.value :=
         Py.Dict [("nonce", Py.Int 0);
                  ("data", Py.Dict [("free", Py.Int 1000); ("reserved", Py.Int 0);
                                    ("frozen", Py.Int 0)])] |} in
  let run := GlinContracts.get_contract_balance Demo.contracts "5Contract..." m in
  Machine.heap m !! Demo.contracts = Some (GlinContractsObj a)
  /\ SubstrateInterface.query (Contracts.substrate a) "System" "Account"
       [Py.Str "5Contract..."] (Machine.world m) = (Ok result, Machine.world m)
  /\ (forall account data free,
        QueryResult.value result = Py.Dict account ->
        Py.assoc "data" account = Some (Py.Dict data) ->
        Py.assoc "free" data = Some (Py.Int free) ->
        run.1 = Ok (Py.str_int free) /\ Py.read_decimal (Py.str_int free) = Some free)
  /\ (QueryResult.value result = Py.None_ ->
      run.1 = Raise (Py.mkExc "TypeError" "'NoneType' object is not subscriptable"))
  /\ (forall account,
        QueryResult.value result = Py.Dict account ->
        Py.assoc "data" account = None ->
        run.1 = Raise (Py.mkExc "KeyError" "'data'")).
Proof.
  intros answer m a result run.
  assert (Machine.heap m !! Demo.contracts = Some (GlinContractsObj a))
    as Hself by reflexivity.
  refine (conj Hself (conj eq_refl _)).
  exact (get_contract_balance_cases m Demo.contracts a "5Contract..." result
           (Machine.world m) Hself eq_refl).
Defined.

(** X13 on a client that has not connected yet. *)
Lemma connect_is_lazy_and_idempotent_witness :
  let m := Scenario.fresh_client in
  let a := Scenario.unconnected in
  let self : ref := 1%positive in
  let connect := @GlinClient.connect Demo.types (Demo.library Demo.query_failed) in
  let ensure := @GlinClient._ensure_connected Demo.types (Demo.library Demo.query_failed) in
  let url := Client.rpc_url a in
  let after (h : gmap ref Obj) (w : World) :=
    {| Machine.heap := h; Machine.world := w;
       Machine.calls := (Machine.calls m ++ [Action.Connect url])%list;
       Machine.stdout := Machine.stdout m |} in
  Machine.heap m !! self = Some (GlinClientObj a)
  /\ (forall s, Client.substrate a = Some s -> connect self m = (Ok tt, m))
  /\ (forall s w,
        Client.substrate a = None ->
        @connect_url Demo.types (Demo.library Demo.query_failed) url (Machine.world m)
        = (Ok s, w) ->
        connect self m
        = (Ok tt,
           after (<[self := GlinClientObj {| Client.rpc_url := url;
                                             Client.substrate := Some s |}]>
                    (Machine.heap m)) w))
  /\ (forall e w,
        Client.substrate a = None ->
        @connect_url Demo.types (Demo.library Demo.query_failed) url (Machine.world m)
        = (Raise e, w) ->
        connect self m = (Raise e, after (Machine.heap m) w))
  /\ (connect self ;; connect self) m = connect self m
  /\ ensure self m = connect self m.
Proof.
  intros m a self connect ensure url after.
  assert (Machine.heap m !! self = Some (GlinClientObj a)) as Hself by reflexivity.
  refine (conj Hself _).
  exact (@connect_is_lazy_and_idempotent Demo.types (Demo.library Demo.query_failed)
           m self a Hself).
Defined.

(** X14 on the session's connected client. *)
Lemma disconnect_cases_witness :
  let answer := Demo.query_failed in
  let m := Demo.session answer in
  let a := Demo.connected answer in
  let disconnect := @GlinClient.disconnect Demo.types in
  let after (h : gmap ref Obj) (w : World) :=
    {| Machine.heap := h; Machine.world := w;
       Machine.calls := (Machine.calls m ++ [Action.Close])%list;
       Machine.stdout := Machine.stdout m |} in
  Machine.heap m !! Demo.client = Some (GlinClientObj a)
  /\ (Client.substrate a = None -> disconnect Demo.client m = (Ok tt, m))
  /\ (forall s w,
        Client.substrate a = Some s ->
        SubstrateInterface.close s (Machine.world m) = (Ok tt, w) ->
        disconnect Demo.client m
        = (Ok tt,
           after (<[Demo.client := GlinClientObj {| Client.rpc_url := Client.rpc_url a;
                                                    Client.substrate := None |}]>
                    (Machine.heap m)) w))
  /\ (forall s e w,
        Client.substrate a = Some s ->
        SubstrateInterface.close s (Machine.world m) = (Raise e, w) ->
        disconnect Demo.client m = (Raise e, after (Machine.heap m) w)).
Proof.
  intros answer m a disconnect after.
  assert (Machine.heap m !! Demo.client = Some (GlinClientObj a)) as Hself by reflexivity.
  refine (conj Hself _).
  exact (disconnect_cases m Demo.client a Hself).
Defined.

(** X15 on a client that has not connected yet. *)
Lemma context_manager_round_trip_witness :
  let m := Scenario.fresh_client in
  let a := Scenario.unconnected in
  let self : ref := 1%positive in
  let s := Demo.node Demo.query_failed true in
  let enter := @GlinClient.__enter__ Demo.types (Demo.library Demo.query_failed) in
  let exit := @GlinClient.__exit__ Demo.types in
  Machine.heap m !! self = Some (GlinClientObj a)
  /\ Client.substrate a = None
  /\ @connect_url Demo.types (Demo.library Demo.query_failed) (Client.rpc_url a)
       (Machine.world m) = (Ok s, Machine.world m)
  /\ SubstrateInterface.close s (Machine.world m) = (Ok tt, Machine.world m)
  /\ (entered <- enter self ;; exit entered) m
     = (Ok tt,
        {| Machine.heap := Machine.heap m;
           Machine.world := Machine.world m;
           Machine.calls :=
             (Machine.calls m ++ [Action.Connect (Client.rpc_url a); Action.Close])%list;
           Machine.stdout := Machine.stdout m |}).
Proof.
  intros m a self s enter exit.
  assert (Machine.heap m !! self = Some (GlinClientObj a)) as Hself by reflexivity.
  refine (conj Hself (conj eq_refl (conj eq_refl (conj eq_refl _)))).
  exact (@context_manager_round_trip Demo.types (Demo.library Demo.query_failed)
           m self a s (Machine.world m) (Machine.world m)
           Hself eq_refl eq_refl eq_refl).
Defined.

(** X16 on a client that has not connected yet. *)
Lemma readers_connect_on_demand_witness :
  let library := Demo.library Demo.query_failed in
  let m := Scenario.fresh_client in
  let a := Scenario.unconnected in
  let self : ref := 1%positive in
  let connect := @GlinClient.connect Demo.types library in
  let get_balance := @GlinClient.get_balance Demo.types library Demo.builtins in
  let get_task := @GlinClient.get_task Demo.types library Demo.builtins in
  let get_provider := @GlinClient.get_provider Demo.types library Demo.builtins in
  let get_block_number := @GlinClient.get_block_number Demo.types library in
  Machine.heap m !! self = Some (GlinClientObj a)
  /\ (get_balance self Demo.alice m = (connect self ;; get_balance self Demo.alice) m
      /\ get_task self Demo.alice m = (connect self ;; get_task self Demo.alice) m
      /\ get_provider self Demo.alice m = (connect self ;; get_provider self Demo.alice) m
      /\ get_block_number self m = (connect self ;; get_block_number self) m)
  /\ (forall e w,
        Client.substrate a = None ->
        @connect_url Demo.types library (Client.rpc_url a) (Machine.world m)
        = (Raise e, w) ->
        let failed :=
          {| Machine.heap := Machine.heap m; Machine.world := w;
             Machine.calls :=
               (Machine.calls m ++ [Action.Connect (Client.rpc_url a)])%list;
             Machine.stdout := Machine.stdout m |} in
        get_balance self Demo.alice m = (Raise e, failed)
        /\ get_task self Demo.alice m = (Raise e, failed)
        /\ get_provider self Demo.alice m = (Raise e, failed)
        /\ get_block_number self m = (Raise e, failed)).
Proof.
  intros library m a self connect get_balance get_task get_provider get_block_number.
  assert (Machine.heap m !! self = Some (GlinClientObj a)) as Hself by reflexivity.
  refine (conj Hself _).
  exact (@readers_connect_on_demand Demo.types library Demo.builtins m self a Demo.alice
           Hself).
Defined.

(** X17 on the session's connected client. *)
Lemma readers_query_once_witness :
  let answer := Demo.account 1000 234 in
  let library := Demo.library answer in
  let m := Demo.session answer in
  let a := Demo.connected answer in
  let sent {A} (run : Result A * Machine.t) (call : Action.t) :=
    Machine.calls run.2 = (Machine.calls m ++ [call])%list
    /\ Machine.heap run.2 = Machine.heap m in
  Machine.heap m !! Demo.client = Some (GlinClientObj a)
  /\ Client.substrate a = Some (Demo.node answer true)
  /\ sent (@GlinClient.get_balance Demo.types library Demo.builtins Demo.client Demo.alice m)
          (Action.Query "System" "Account" [Py.Str Demo.alice])
  /\ sent (@GlinClient.get_task Demo.types library Demo.builtins Demo.client Demo.alice m)
          (Action.Query "TaskRegistry" "Tasks" [Py.Str Demo.alice])
  /\ sent (@GlinClient.get_provider Demo.types library Demo.builtins Demo.client
             Demo.alice m)
          (Action.Query "ProviderStaking" "Providers" [Py.Str Demo.alice])
  /\ sent (@GlinClient.get_block_number Demo.types library Demo.client m)
          Action.GetBlockHeader.
Proof.
  intros answer library m a sent.
  assert (Machine.heap m !! Demo.client = Some (GlinClientObj a)) as Hself by reflexivity.
  refine (conj Hself (conj eq_refl _)).
  exact (@readers_query_once Demo.types library Demo.builtins m Demo.client a
           (Demo.node answer true) Demo.alice Hself eq_refl).
Defined.

(** X18 on the session's connected client, with a node whose queries
    raise. *)
Lemma absence_is_silent_failure_is_printed_witness :
  let answer := Demo.query_failed in
  let library := Demo.library answer in
  let m := Demo.session answer in
  let a := Demo.connected answer in
  let s := Demo.node answer true in
  let key := "42" in
  let get_task := @GlinClient.get_task Demo.types library Demo.builtins in
  let get_provider := @GlinClient.get_provider Demo.types library Demo.builtins in
  let after (w : World) (call : Action.t) (out : list string) :=
    {| Machine.heap := Machine.heap m; Machine.world := w;
       Machine.calls := (Machine.calls m ++ [call])%list;
       Machine.stdout := (Machine.stdout m ++ out)%list |} in
  let tasks := Action.Query "TaskRegistry" "Tasks" [Py.Str key] in
  let providers := Action.Query "ProviderStaking" "Providers" [Py.Str key] in
  Machine.heap m !! Demo.client = Some (GlinClientObj a)
  /\ Client.substrate a = Some s
  /\ (forall result w,
        SubstrateInterface.query s "TaskRegistry" "Tasks" [Py.Str key] (Machine.world m)
        = (Ok result, w) ->
        QueryResult.value result = Py.None_ ->
        get_task Demo.client key m = (Ok None, after w tasks []))
  /\ (forall e w,
        SubstrateInterface.query s "TaskRegistry" "Tasks" [Py.Str key] (Machine.world m)
        = (Raise e, w) ->
        get_task Demo.client key m
        = (Ok None, after w tasks ["Error fetching task: " ++ Py.exc_str e]))
  /\ (forall result w,
        SubstrateInterface.query s "ProviderStaking" "Providers" [Py.Str key]
          (Machine.world m) = (Ok result, w) ->
        QueryResult.value result = Py.None_ ->
        get_provider Demo.client key m = (Ok None, after w providers []))
  /\ (forall e w,
        SubstrateInterface.query s "ProviderStaking" "Providers" [Py.Str key]
          (Machine.world m) = (Raise e, w) ->
        get_provider Demo.client key m
        = (Ok None, after w providers ["Error fetching provider: " ++ Py.exc_str e])).
Proof.
  intros answer library m a s key get_task get_provider after tasks providers.
  assert (Machine.heap m !! Demo.client = Some (GlinClientObj a)) as Hself by reflexivity.
  refine (conj Hself (conj eq_refl _)).
  exact (@absence_is_silent_failure_is_printed Demo.types library Demo.builtins
           m Demo.client a s key Hself eq_refl).
Defined.

Example get_task_failure_example :
  Machine.stdout
    (@GlinClient.get_task Demo.types (Demo.library Demo.query_failed) Demo.builtins
       Demo.client "42" (Demo.session Demo.query_failed)).2
  = ["Error fetching task: Query failed"].
Proof. vm_compute. reflexivity. Qed.

(** X19 for a task record without its ["status"]. *)
Lemma incomplete_task_is_no_task_witness :
  let answer := Scenario.answer (Py.Dict Scenario.partial_task) in
  let library := Demo.library answer in
  let m := Demo.session answer in
  let a := Demo.connected answer in
  let s := Demo.node answer true in
  let result := {| QueryResult.value := Py.Dict Scenario.partial_task |} in
  Machine.heap m !! Demo.client = Some (GlinClientObj a)
  /\ Client.substrate a = Some s
  /\ SubstrateInterface.query s "TaskRegistry" "Tasks" [Py.Str "42"] (Machine.world m)
     = (Ok result, Machine.world m)
  /\ QueryResult.value result = Py.Dict Scenario.partial_task
  /\ In "status" ["creator"; "bounty"; "minProviders"; "maxProviders"; "ipfsHash"; "status"]
  /\ Py.assoc "status" Scenario.partial_task = None
  /\ exists m' line,
       @GlinClient.get_task Demo.types library Demo.builtins Demo.client "42" m
       = (Ok None, m')
       /\ Machine.stdout m' = (Machine.stdout m ++ [line])%list.
Proof.
  intros answer library m a s result.
  assert (Machine.heap m !! Demo.client = Some (GlinClientObj a)) as Hself by reflexivity.
  assert (In "status"
            ["creator"; "bounty"; "minProviders"; "maxProviders"; "ipfsHash"; "status"])
    as Hin by (do 5 right; left; reflexivity).
  refine (conj Hself (conj eq_refl (conj eq_refl (conj eq_refl (conj Hin
            (conj eq_refl _)))))).
  exact (@incomplete_task_is_no_task Demo.types library Demo.builtins m Demo.client a s
           "42" result (Machine.world m) Scenario.partial_task "status"
           Hself eq_refl eq_refl eq_refl Hin eq_refl).
Defined.

(** X20 for an account whose balances come back as ["1000"] and
    ["234"]: the total is ["1000234"]. *)
Lemma get_balance_outside_integers_witness :
  let answer := Scenario.answer (Py.Dict Scenario.text_account) in
  let library := Demo.library answer in
  let m := Demo.session answer in
  let a := Demo.connected answer in
  let s := Demo.node answer true in
  let result := {| QueryResult.value := Py.Dict Scenario.text_account |} in
  let run :=
    @GlinClient.get_balance Demo.types library Demo.builtins Demo.client Demo.alice m in
  Machine.heap m !! Demo.client = Some (GlinClientObj a)
  /\ Client.substrate a = Some s
  /\ SubstrateInterface.query s "System" "Account" [Py.Str Demo.alice] (Machine.world m)
     = (Ok result, Machine.world m)
  /\ (exists balance,
        run.1 = Ok balance
        /\ Balance.free balance = "1000"
        /\ Balance.reserved balance = "234"
        /\ Balance.total balance = "1000234")
  /\ (QueryResult.value result = Py.None_ ->
      run.1 = Raise (Py.mkExc "TypeError" "'NoneType' object is not subscriptable")).
Proof.
  intros answer library m a s result run.
  assert (Machine.heap m !! Demo.client = Some (GlinClientObj a)) as Hself by reflexivity.
  refine (conj Hself (conj eq_refl (conj eq_refl _))).
  destruct (@get_balance_outside_integers Demo.types library Demo.builtins m Demo.client
              a s Demo.alice result (Machine.world m) Hself eq_refl eq_refl)
    as [Hstrings Hnone].
  split; [| exact Hnone].
  exact (Hstrings Scenario.text_account
           [("free", Py.Str "1000"); ("reserved", Py.Str "234")] "1000" "234"
           eq_refl eq_refl eq_refl eq_refl).
Defined.

(** X21 on the session: a good signature, a forged one, an address the
    library refuses and a signature it refuses. *)
Lemma verify_signature_fails_closed_witness :
  let m := Demo.session Demo.query_failed in
  let verify_signature := @GlinAuth.verify_signature Demo.types Scenario.auth in
  let printed (line : string) :=
    {| Machine.heap := Machine.heap m; Machine.world := Machine.world m;
       Machine.calls := Machine.calls m;
       Machine.stdout := (Machine.stdout m ++ [line])%list |} in
  verify_signature Demo.alice "Sign in" "0xsigned" m = (Ok true, m)
  /\ verify_signature Demo.alice "Sign in" "0xforged" m = (Ok false, m)
  /\ verify_signature "" "Sign in" "0xsigned" m
     = (Ok false, printed "Signature verification failed: Invalid SS58 format")
  /\ verify_signature Demo.alice "Sign in" "" m
     = (Ok false, printed "Signature verification failed: Invalid signature").
Proof.
  intros m verify_signature printed.
  pose proof (@verify_signature_fails_closed Demo.types Scenario.auth m
                Demo.alice "Sign in" "0xsigned") as (_ & _ & Hgood & _ & _).
  pose proof (@verify_signature_fails_closed Demo.types Scenario.auth m
                Demo.alice "Sign in" "0xforged") as (_ & _ & Hforged & _ & _).
  pose proof (@verify_signature_fails_closed Demo.types Scenario.auth m
                "" "Sign in" "0xsigned") as (_ & _ & _ & Haddress & _).
  pose proof (@verify_signature_fails_closed Demo.types Scenario.auth m
                Demo.alice "Sign in" "") as (_ & _ & _ & _ & Hsignature).
  refine (conj (Hgood Demo.alice true eq_refl eq_refl)
            (conj (Hforged Demo.alice false eq_refl eq_refl)
               (conj (Haddress _ eq_refl) (Hsignature Demo.alice _ eq_refl eq_refl)))).
Defined.

(** X22 for two messages generated while the clock stands still, one
    before the session and one in it. *)
Lemma auth_message_pins_the_timestamp_witness :
  let generate :=
    @GlinAuth.generate_auth_message Demo.types Scenario.auth GlinAuth.default_app_name in
  let m1 := Demo.boot in
  let m2 := Demo.session Demo.query_failed in
  let message :=
    ("Sign in to GLIN Application" ++ GlinAuth.nl ++ GlinAuth.nl
     ++ "Timestamp: 2024-01-01T12:00:00.000000" ++ GlinAuth.nl ++ GlinAuth.nl
     ++ "This signature will not trigger a blockchain transaction or cost any fees.")%string in
  generate m1 = (Ok message, m1)
  /\ generate m2 = (Ok message, m2)
  /\ (@utcnow_isoformat Demo.types Scenario.auth (Machine.world m1)).1
     = (@utcnow_isoformat Demo.types Scenario.auth (Machine.world m2)).1
  /\ Machine.world m1 = (@utcnow_isoformat Demo.types Scenario.auth (Machine.world m1)).2
  /\ Machine.heap m1 = Machine.heap m1
  /\ Machine.calls m1 = Machine.calls m1
  /\ Machine.stdout m1 = Machine.stdout m1.
Proof.
  intros generate m1 m2 message.
  assert (generate m1 = (Ok message, m1)) as H1 by reflexivity.
  assert (generate m2 = (Ok message, m2)) as H2 by (vm_compute; reflexivity).
  refine (conj H1 (conj H2 _)).
  exact (@auth_message_pins_the_timestamp Demo.types Scenario.auth m1 m2 m1 m2
           GlinAuth.default_app_name message H1 H2).
Defined.
